(** * getpak/raster.py: the GRS file-name parser and the raster helpers

    A shallow embedding of [getpak/raster.py].  [GRS.metadata] is a pure
    function of a path string; the Python library functions it calls
    ([os.path.basename], [str.split], [datetime.strptime], the ["02d"]
    format) are modelled in [Py] and [Strptime] after CPython's own
    implementation ([posixpath.py], [_strptime.py], [datetime.py]).
    [Raster.array2tiff] and [Raster.reproj] drive GDAL and rasterio; they are
    modelled in a state-and-exception monad over a world of open dataset
    handles, files and a trace of library calls. *)

From Stdlib Require Import Ascii String List Arith NArith Bool Lia.
From stdpp Require Import gmap strings list fin_maps.

Local Open Scope string_scope.
Local Open Scope list_scope.
Local Open Scope nat_scope.

(** ** Python exceptions and results *)

Inductive exn : Type :=
| ValueError_not_enough_values (expected got : nat)
    (* not enough values to unpack (expected 9, got n) *)
| ValueError_too_many_values (expected : nat)
    (* too many values to unpack (expected 9) *)
| ValueError_does_not_match
    (* time data '...' does not match format '...' *)
| ValueError_unconverted_data
    (* unconverted data remains: ... *)
| ValueError_out_of_range
    (* year / month / day / second is out of range *)
| ValueError_invalid_literal
    (* invalid literal for int() with base 10 *)
| AttributeError_NoneType
    (* 'NoneType' object has no attribute ... *)
| LibraryError (what : string).
    (* an error raised inside GDAL or rasterio *)

Inductive result (A : Type) : Type :=
| Ok (a : A)
| Raise (e : exn).
Arguments Ok {A} a.
Arguments Raise {A} e.

Definition rbind {A B} (r : result A) (k : A -> result B) : result B :=
  match r with
  | Ok a => k a
  | Raise e => Raise e
  end.

(** The two error kinds the parser can surface: the tuple unpacking of
    line 161 and [datetime.strptime] of line 162.  Both are [ValueError]s
    in Python; they differ in the statement that raises them. *)
Definition format_error (e : exn) : bool :=
  match e with
  | ValueError_not_enough_values _ _ | ValueError_too_many_values _ => true
  | _ => false
  end.

Definition date_parse_error (e : exn) : bool :=
  match e with
  | ValueError_does_not_match | ValueError_unconverted_data
  | ValueError_out_of_range | ValueError_invalid_literal => true
  | _ => false
  end.

(** ** Python string functions *)

Module Py.
Local Open Scope N_scope.

(** Character classes of the regular expressions. *)
Definition in_range (lo hi c : ascii) : bool :=
  (N_of_ascii lo <=? N_of_ascii c)%N && (N_of_ascii c <=? N_of_ascii hi)%N.

Definition is_digit (c : ascii) : bool := in_range "0" "9" c.

(** Every character of [s] is an ASCII one, below U+0080. *)
Definition ascii_only (s : string) : bool :=
  forallb (fun c => (N_of_ascii c <? 128)%N) (list_ascii_of_string s).

Definition digit_val (c : ascii) : N := N_of_ascii c - 48.

Definition digit_chars : list ascii :=
  ["0"; "1"; "2"; "3"; "4"; "5"; "6"; "7"; "8"; "9"]%char.

(** [s.split(sep)] for a one-character separator: always at least one
    token, empty tokens are kept. *)
Fixpoint split (sep : ascii) (s : string) : list string :=
  match s with
  | EmptyString => [EmptyString]
  | String c r =>
      if Ascii.eqb c sep then EmptyString :: split sep r
      else match split sep r with
           | t :: ts => String c t :: ts
           | [] => [String c EmptyString]
           end
  end.

(** [posixpath.basename]: [i = p.rfind('/') + 1; return p[i:]]. *)
Fixpoint has_sep (p : string) : bool :=
  match p with
  | EmptyString => false
  | String c r => Ascii.eqb c "/" || has_sep r
  end.

Fixpoint basename (p : string) : string :=
  match p with
  | EmptyString => EmptyString
  | String c r =>
      if has_sep r then basename r
      else if Ascii.eqb c "/" then r else p
  end.

(** [int(s)] on the strings the date patterns let through: decimal
    digits, after the leading blanks [int] strips.  The digits are the
    ASCII ones, the only decimal digits below U+0100. *)
Fixpoint lstrip (s : string) : string :=
  match s with
  | String " " r => lstrip r
  | _ => s
  end.

Fixpoint int_digits (acc : N) (s : string) : option N :=
  match s with
  | EmptyString => Some acc
  | String c r =>
      if is_digit c then int_digits (10 * acc + digit_val c) r else None
  end.

Definition int (s : string) : result N :=
  match lstrip s with
  | EmptyString => Raise ValueError_invalid_literal
  | t => match int_digits 0 t with
         | Some n => Ok n
         | None => Raise ValueError_invalid_literal
         end
  end.

(** Decimal rendering of a natural number, most significant digit first. *)
Definition digit_char (d : N) : ascii := ascii_of_N (48 + d).

Fixpoint dec_aux (fuel : nat) (n : N) (acc : string) : string :=
  match fuel with
  | O => acc
  | S fuel' =>
      let acc' := String (digit_char (n mod 10)) acc in
      if n / 10 =? 0 then acc' else dec_aux fuel' (n / 10) acc'
  end.

(** A number has no more decimal digits than binary ones. *)
Definition dec (n : N) : string := dec_aux (S (N.size_nat n)) n EmptyString.

(** [reads s v]: [s] is a run of digits that denotes [v], whatever number
    has been read before it. *)
Definition reads (s : string) (v : N) : Prop :=
  forall a, int_digits a s = Some (a * 10 ^ N.of_nat (String.length s) + v).

(** [f"{n:02d}"]: decimal, padded with zeros on the left to a width of at
    least two. *)
Definition format_02d (n : N) : string :=
  let s := dec n in
  if (String.length s <? 2)%nat then String "0" s else s.

End Py.

(** ** [datetime.strptime] *)

Module Strptime.
Import Py.
Local Open Scope N_scope.

(** A pattern is a sequence of groups; a group is an ordered list of
    alternatives; an alternative is a sequence of character classes.
    Characters are the code points below 256, among which ['0'] to ['9']
    are the only decimal digits and ['T'], ['t'] the only letters that
    match T when case is ignored.  A Python string can also hold the
    decimal digits of other scripts, all above U+00FF, which [\d] matches
    and [int] converts as well: they have no place in this alphabet, and
    what is proved about a token that is turned away is stated for tokens
    of ASCII characters ([ascii_only]). *)
Definition cclass := ascii -> bool.
Definition alternative := list cclass.
Definition group := list alternative.

Definition d_ : cclass := is_digit.                      (* \d *)
Definition rng (lo hi : ascii) : cclass := in_range lo hi. (* [lo-hi] *)
Definition ch (a : ascii) : cclass := Ascii.eqb a.
(** A letter under [re.IGNORECASE]. *)
Definition chi (upper lower : ascii) : cclass :=
  fun c => Ascii.eqb upper c || Ascii.eqb lower c.

Fixpoint match_alt (a : alternative) (s : string) : option (string * string) :=
  match a with
  | [] => Some (EmptyString, s)
  | k :: a' =>
      match s with
      | String c r =>
          if k c then
            match match_alt a' r with
            | Some (m, r') => Some (String c m, r')
            | None => None
            end
          else None
      | EmptyString => None
      end
  end.

Fixpoint first_success {A B} (f : A -> option B) (l : list A) : option B :=
  match l with
  | [] => None
  | a :: l' =>
      match f a with
      | Some b => Some b
      | None => first_success f l'
      end
  end.

(** Backtracking match at the start of [s]: alternatives are tried in
    order, and a later group failing sends the matcher back to the next
    alternative of an earlier one.  Returns the text of every group and
    the unmatched rest. *)
Fixpoint match_groups (gs : list group) (s : string)
  : option (list string * string) :=
  match gs with
  | [] => Some ([], s)
  | g :: gs' =>
      first_success
        (fun a =>
           match match_alt a s with
           | Some (m, r) =>
               match match_groups gs' r with
               | Some (ms, r') => Some (m :: ms, r')
               | None => None
               end
           | None => None
           end) g
  end.

(** [accepts g m]: the text [m] is what some alternative of [g] reads,
    one character per class. *)
Definition accepts (g : group) (m : string) : Prop :=
  exists a, In a g /\
    Forall2 (fun (k : cclass) c => k c = true) a (list_ascii_of_string m).

(** The groups of [_strptime.TimeRE] for the directives in
    ['%Y%m%dT%H%M%S']. *)
Definition re_Y : group := [[d_; d_; d_; d_]].
Definition re_m : group :=
  [[ch "1"; rng "0" "2"]; [ch "0"; rng "1" "9"]; [rng "1" "9"]].
Definition re_d : group :=
  [[ch "3"; rng "0" "1"]; [rng "1" "2"; d_]; [ch "0"; rng "1" "9"];
   [rng "1" "9"]; [ch " "; rng "1" "9"]].
Definition re_T : group := [[chi "T" "t"]].
Definition re_H : group := [[ch "2"; rng "0" "3"]; [rng "0" "1"; d_]; [d_]].
Definition re_M : group := [[rng "0" "5"; d_]; [d_]].
Definition re_S : group := [[ch "6"; rng "0" "1"]; [rng "0" "5"; d_]; [d_]].

Definition format_regex : list group :=
  [re_Y; re_m; re_d; re_T; re_H; re_M; re_S].

Record datetime : Type := mk_datetime {
  year : N; month : N; day : N;
  hour : N; minute : N; second : N
}.

(** [datetime.py]: [_is_leap], [_days_in_month], [_check_date_fields],
    [_check_time_fields]. *)
Definition is_leap (y : N) : bool :=
  (y mod 4 =? 0) && (negb (y mod 100 =? 0) || (y mod 400 =? 0)).

Definition days_in_month (y m : N) : N :=
  match m with
  | 2 => if is_leap y then 29 else 28
  | 4 | 6 | 9 | 11 => 30
  | _ => 31
  end.

Definition check_date_fields (y m d : N) : bool :=
  (1 <=? y) && (y <=? 9999) && (1 <=? m) && (m <=? 12)
  && (1 <=? d) && (d <=? days_in_month y m).

Definition check_time_fields (h mi s : N) : bool :=
  (h <=? 23) && (mi <=? 59) && (s <=? 59).

Definition check_fields (dt : datetime) : bool :=
  check_date_fields (year dt) (month dt) (day dt)
  && check_time_fields (hour dt) (minute dt) (second dt).

(** [datetime.strptime(data_string, '%Y%m%dT%H%M%S')]. *)
Definition strptime (data_string : string) : result datetime :=
  match match_groups format_regex data_string with
  | None => Raise ValueError_does_not_match
  | Some (found, rest) =>
      match rest with
      | String _ _ => Raise ValueError_unconverted_data
      | EmptyString =>
          match found with
          | [gY; gm; gd; _; gH; gM; gS] =>
              rbind (int gY) (fun y =>
              rbind (int gm) (fun m =>
              rbind (int gd) (fun d =>
              rbind (int gH) (fun h =>
              rbind (int gM) (fun mi =>
              rbind (int gS) (fun s =>
              if check_date_fields y m d && check_time_fields h mi s
              then Ok (mk_datetime y m d h mi s)
              else Raise ValueError_out_of_range))))))
          | _ => Raise ValueError_does_not_match
          end
      end
  end.

End Strptime.

(** ** [class GRS] *)

Module GRS.
Import Py Strptime.

(** Values stored in the metadata dict. *)
Inductive pyval : Type :=
| VStr (s : string)
| VDate (d : datetime).

(** The nine-name tuple unpacking of line 161. *)
Definition unpack9 (l : list string)
  : result (string * string * string * string * string
            * string * string * string * string) :=
  match l with
  | [a; b; c; d; e; f; g; h; i] => Ok (a, b, c, d, e, f, g, h, i)
  | _ => if length l <? 9
         then Raise (ValueError_not_enough_values 9 (length l))
         else Raise (ValueError_too_many_values 9)
  end.

Definition metadata (grs_file_entry : string) : result (gmap string pyval) :=
  let basefile := basename grs_file_entry in
  rbind (unpack9 (split "_" basefile))
    (fun '(mission, proc_level, date_n_time, proc_ver, r_orbit, tile,
           prod_disc, cc, ver) =>
  rbind (strptime date_n_time) (fun file_event_date =>
  let yyyy := format_02d (year file_event_date) in
  let mm := format_02d (month file_event_date) in
  let dd := format_02d (day file_event_date) in
  let metadata : gmap string pyval := ∅ in
  let metadata := <["input_file" := VStr grs_file_entry]> metadata in
  let metadata := <["basename" := VStr basefile]> metadata in
  let metadata := <["mission" := VStr mission]> metadata in
  let metadata := <["prod_lvl" := VStr proc_level]> metadata in
  let metadata := <["str_date" := VStr date_n_time]> metadata in
  let metadata := <["pydate" := VDate file_event_date]> metadata in
  let metadata := <["year" := VStr yyyy]> metadata in
  let metadata := <["month" := VStr mm]> metadata in
  let metadata := <["day" := VStr dd]> metadata in
  let metadata := <["baseline_algo_version" := VStr proc_ver]> metadata in
  let metadata := <["relative_orbit" := VStr r_orbit]> metadata in
  let metadata := <["tile" := VStr tile]> metadata in
  let metadata := <["product_discriminator" := VStr prod_disc]> metadata in
  let metadata := <["cloud_cover" := VStr cc]> metadata in
  let metadata := <["grs_ver" := VStr ver]> metadata in
  Ok metadata)).

(** The reading of "a valid YYYYMMDDTHHMMSS timestamp": fifteen
    characters, eight digits, the letter T, six digits, whose fields
    denote a date and a time of day of the proleptic Gregorian calendar
    (years 0001 to 9999, seconds up to 59). *)
Definition shaped (s : string) : bool :=
  match list_ascii_of_string s with
  | [y1; y2; y3; y4; m1; m2; d1; d2; t; h1; h2; n1; n2; s1; s2] =>
      forallb is_digit [y1; y2; y3; y4; m1; m2; d1; d2; h1; h2; n1; n2; s1; s2]
      && Ascii.eqb t "T"
  | _ => false
  end.

(** The number a run of digits denotes (0 for anything else). *)
Definition num (s : string) : N :=
  match int s with
  | Ok n => n
  | Raise _ => 0%N
  end.

Definition fields_at (s : string) (wm wd wH wM wS : nat) : datetime :=
  mk_datetime (num (substring 0 4 s))
              (num (substring 4 wm s))
              (num (substring (4 + wm) wd s))
              (num (substring (5 + wm + wd) wH s))
              (num (substring (5 + wm + wd + wH) wM s))
              (num (substring (5 + wm + wd + wH + wM) wS s)).

Definition fields (s : string) : datetime := fields_at s 2 2 2 2 2.

Definition valid_timestamp (s : string) : bool :=
  shaped s && check_fields (fields s).

(** The wider family of tokens the pattern can read: a four-digit year,
    then month, day, the letter T in either case, hour, minute and second,
    each number written with one or two digits (the day also as a blank and
    a digit), the numbers denoting a date and a time of day. *)
Definition digits (s : string) : bool :=
  negb (String.eqb s EmptyString) && forallb is_digit (list_ascii_of_string s).

Definition day_digits (s : string) : bool :=
  digits s
  || match s with
     | String " " (String c EmptyString) => is_digit c
     | _ => false
     end.

Definition lenient_at (s : string) (w : nat * nat * nat * nat * nat) : bool :=
  let '(wm, wd, wH, wM, wS) := w in
  (String.length s =? 5 + wm + wd + wH + wM + wS)%nat
  && digits (substring 0 4 s)
  && digits (substring 4 wm s)
  && day_digits (substring (4 + wm) wd s)
  && (let t := substring (4 + wm + wd) 1 s in
      String.eqb t "T" || String.eqb t "t")
  && digits (substring (5 + wm + wd) wH s)
  && digits (substring (5 + wm + wd + wH) wM s)
  && digits (substring (5 + wm + wd + wH + wM) wS s)
  && check_fields (fields_at s wm wd wH wM wS).

Definition all_widths : list (nat * nat * nat * nat * nat) :=
  wm ← [1; 2]; wd ← [1; 2]; wH ← [1; 2]; wM ← [1; 2]; wS ← [1; 2];
  [(wm, wd, wH, wM, wS)].

Definition lenient_timestamp (s : string) : bool :=
  existsb (lenient_at s) all_widths.

(** File names assembled from tokens: [sep.join(tokens)] under an optional
    directory, and the test that a character does not occur in a token. *)
Fixpoint join (sep : ascii) (tokens : list string) : string :=
  match tokens with
  | [] => EmptyString
  | [t] => t
  | t :: ts => t +:+ String sep (join sep ts)
  end.

Fixpoint free (c : ascii) (s : string) : bool :=
  match s with
  | EmptyString => true
  | String x r => negb (Ascii.eqb x c) && free c r
  end.

Definition in_dir (dir : option string) (name : string) : string :=
  match dir with
  | Some d => d +:+ String "/" name
  | None => name
  end.

(** How often a character occurs in a string, and the fifteen keys of the
    dict [metadata] returns. *)
Fixpoint count_char (c : ascii) (s : string) : nat :=
  match s with
  | EmptyString => 0
  | String x r => (if Ascii.eqb x c then 1 else 0) + count_char c r
  end.

Definition metadata_keys : list string :=
  ["input_file"; "basename"; "mission"; "prod_lvl"; "str_date"; "pydate";
   "year"; "month"; "day"; "baseline_algo_version"; "relative_orbit"; "tile";
   "product_discriminator"; "cloud_cover"; "grs_ver"].

Definition positional_keys : list string :=
  ["mission"; "prod_lvl"; "str_date"; "baseline_algo_version";
   "relative_orbit"; "tile"; "product_discriminator"; "cloud_cover";
   "grs_ver"].

(** The strings a number of the token can be written as, and what the
    pattern does on them: the finite checks behind the converse of
    [lenient_timestamp], that every lenient timestamp is accepted. *)
Definition one_or_two (cs : list ascii) : list string :=
  map (fun a => String a EmptyString) cs
  ++ flat_map (fun a => map (fun b => String a (String b EmptyString)) cs) cs.

Definition number_strings : list string := one_or_two digit_chars.

Definition day_strings : list string :=
  number_strings
  ++ map (fun b => String " " (String b EmptyString)) digit_chars.

Definition below (n : N) (l : list string) : list string :=
  List.filter (fun s => (num s <=? n)%N) l.

Definition between (lo hi : N) (l : list string) : list string :=
  List.filter (fun s => (lo <=? num s)%N && (num s <=? hi)%N) l.

(** No class of these groups lets the letter T through, in either case. *)
Definition rejects_T (gs : list group) : bool :=
  forallb (forallb (forallb
    (fun k : cclass => negb (k "T"%char) && negb (k "t"%char)))) gs.

(** Any day up to the 28th exists in every month. *)
Definition small_date (m d : N) : bool :=
  (1 <=? m)%N && (m <=? 12)%N && (1 <=? d)%N && (d <=? 28)%N.

(** What the pattern reads of month, day and T when they are written
    [gm], [gd] and [t]: the same numbers, or another date that exists in
    every year. *)
Definition date_read (gm gd : string) (t : ascii) : bool :=
  match match_groups [re_m; re_d; re_T]
          (gm +:+ gd +:+ String t EmptyString) with
  | Some ([m'; d'; e], EmptyString) =>
      match int m', int d' with
      | Ok vm, Ok vd =>
          String.eqb e (String t EmptyString)
          && (((vm =? num gm)%N && (vd =? num gd)%N) || small_date vm vd)
      | _, _ => false
      end
  | _ => false
  end.

(** What the pattern reads of a time of day: all of it, as three numbers
    in range. *)
Definition time_read (R : string) : bool :=
  match match_groups [re_H; re_M; re_S] R with
  | Some ([gH; gM; gS], EmptyString) =>
      match int gH, int gM, int gS with
      | Ok h, Ok mi, Ok s => check_time_fields h mi s
      | _, _, _ => false
      end
  | _ => false
  end.

End GRS.

(** ** [class Raster] *)

Module Raster.

(** [gdal.GDT_*] pixel types and [rasterio.warp.Resampling]. *)
Inductive gdal_type : Type :=
| GDT_Byte | GDT_UInt16 | GDT_UInt32 | GDT_Int32 | GDT_Float32.

Inductive Resampling : Type := nearest | bilinear | cubic.

Section Model.
(** Pixel samples, affine geotransforms and bounding extents are only
    handed from one library call to the next; their representation is left
    open. *)
Context {sample affine extent : Type}.

(** A numpy array: its shape and its samples in row-major order. *)
Record ndarray : Type := mk_ndarray {
  shape : list nat;
  data : list sample
}.

(** The profile of a raster ([src.meta], the keyword arguments of
    [rasterio.open] in write mode). *)
Record meta : Type := mk_meta {
  driver : string;
  dtype : gdal_type;
  nodata : option Z;
  width : nat;
  height : nat;
  count : nat;
  crs : option string;
  transform : option affine
}.

Record dataset : Type := mk_dataset {
  ds_meta : meta;
  ds_options : list string;
  ds_bands : list ndarray
}.

(** The calls made into GDAL, rasterio and the interpreter, in the order
    they happen. *)
Inductive call : Type :=
| GetDriverByName (name : string)
| Create (path : string) (xsize ysize bands : nat) (t : gdal_type)
         (options : list string)
| WriteArray (h band : nat) (a : ndarray)
| SetNoDataValue (h band : nat) (v : Z)
| SetGeoTransform (h : nat) (t : affine)
| SetProjection (h : nat) (p : string)
| Dereference (h : nat)
| rasterio_open (path mode : string) (kwargs : option meta)
| calculate_default_transform (src_crs : option string) (dst_crs : string)
                              (w h : nat) (b : extent)
| reproject (src src_band dst dst_band : nat)
            (src_transform : option affine) (src_crs : option string)
            (dst_transform : affine) (dst_crs : string)
            (resampling : Resampling)
| dataset_exit (h : nat)
| print (s : string).

(** What the libraries compute and how they fail.  [fails c]: the call
    does not do its work.  [raises c]: a failing GDAL call raises, as it
    does once [gdal.UseExceptions()] is in force or when the binding itself
    refuses its arguments; otherwise it hands back [None] or an error code,
    which [array2tiff] never looks at.  The calls of rasterio raise whenever
    they fail.  [unlinks c]: a failing [Create] got as far as the driver's
    create step, before which GDAL deletes the dataset the path held. *)
Class Library : Type := {
  fails : call -> bool;
  raises : call -> bool;
  unlinks : call -> bool;
  default_transform :
    option string -> string -> nat -> nat -> extent -> affine * nat * nat;
  bounds_of : meta -> extent;
  warp : Resampling -> option affine -> option string -> affine -> string ->
         ndarray -> ndarray -> ndarray;
  paste : ndarray -> ndarray -> ndarray;
  fill : sample
}.

Context {L : Library}.

(** An open dataset object; the world of open handles, files on disk and
    the trace of calls.  [files] maps a path to the raster that can be read
    from it: a file that was created and not yet flushed holds none. *)
Record handle_obj : Type := mk_handle {
  h_path : string;
  h_writable : bool;
  h_ds : dataset
}.

Record world : Type := mk_world {
  handles : gmap nat handle_obj;
  files : gmap string dataset;
  trace : list call
}.

Definition M (A : Type) : Type := world -> result A * world.

#[global] Instance M_ret : MRet M := fun A a w => (Ok a, w).
#[global] Instance M_bind : MBind M := fun A B k m w =>
  match m w with
  | (Ok a, w') => k a w'
  | (Raise e, w') => (Raise e, w')
  end.

Definition raise {A} (e : exn) : M A := fun w => (Raise e, w).

(** The three ways a call changes the world: it is written to the trace,
    it binds a handle to a dataset object, it closes a handle. *)
Definition logged (c : call) (w : world) : world :=
  mk_world (handles w) (files w) (trace w ++ [c]).

Definition opened (h : nat) (o : handle_obj) (w : world) : world :=
  mk_world (<[h := o]> (handles w)) (files w) (trace w).

(** Closing a dataset: the handle is gone, and a dataset opened for
    writing is flushed to its file. *)
Definition closed (h : nat) (w : world) : world :=
  match handles w !! h with
  | Some o =>
      mk_world (delete h (handles w))
        (if h_writable o then <[h_path o := h_ds o]> (files w) else files w)
        (trace w)
  | None => w
  end.

(** Two more: the dataset a path holds is deleted; a handle goes away
    without its dataset reaching the disk. *)
Definition unlinked (path : string) (w : world) : world :=
  mk_world (handles w) (delete path (files w)) (trace w).

Definition dropped (h : nat) (w : world) : world :=
  mk_world (delete h (handles w)) (files w) (trace w).

Definition log (c : call) : M unit := fun w => (Ok tt, logged c w).

(** A library call that raises when it fails. *)
Definition invoke (c : call) (what : string) : M unit :=
  log c;; if fails c then raise (LibraryError what) else mret tt.

(** A GDAL call that reports a failure by an error code, which the caller
    is free to ignore, unless the failure is raised. *)
Definition attempt (c : call) (what : string) (work : M unit) : M unit :=
  log c;;
  if fails c
  then (if raises c then raise (LibraryError what) else mret tt)
  else work.

Definition unlink (path : string) : M unit := fun w =>
  (Ok tt, unlinked path w).

Definition alloc (o : handle_obj) : M nat := fun w =>
  let h := fresh (dom (handles w)) in (Ok h, opened h o w).

Definition lookup_handle (h : nat) : M handle_obj := fun w =>
  match handles w !! h with
  | Some o => (Ok o, w)
  | None => (Raise (LibraryError "dataset is closed"), w)
  end.

Definition store_handle (h : nat) (o : handle_obj) : M unit := fun w =>
  (Ok tt, opened h o w).

Definition set_ds (o : handle_obj) (d : dataset) : handle_obj :=
  mk_handle (h_path o) (h_writable o) d.

Definition close_handle (h : nat) : M unit := fun w => (Ok tt, closed h w).

Definition drop_handle (h : nat) : M unit := fun w => (Ok tt, dropped h w).

Definition blank (rows cols : nat) : ndarray :=
  mk_ndarray [rows; cols] (replicate (rows * cols) fill).

(** Bands are numbered from 1. *)
Definition band_lookup (bs : list ndarray) (i : nat) : option ndarray :=
  match i with
  | O => None
  | S k => bs !! k
  end.

Definition band_store (bs : list ndarray) (i : nat) (a : ndarray)
  : list ndarray :=
  match i with
  | O => bs
  | S k => <[k := a]> bs
  end.

(** *** GDAL *)

(** [gdal.GetDriverByName] hands back [None] for a driver that is not
    there, whether GDAL raises its errors or not. *)
Definition gdal_GetDriverByName (name : string) : M (option string) :=
  log (GetDriverByName name);;
  mret (if fails (GetDriverByName name) then None else Some name).

(** [Driver.Create]: GDAL checks the request, deletes the dataset the
    path may hold, then runs the driver's create step.  When the file
    cannot be created the call returns [None], unless the failure is
    raised; the dataset that was there is gone if the failure came from the
    create step.  The new file holds no raster until the dataset is
    flushed. *)
Definition Driver_Create (drv : option string) (path : string)
    (xsize ysize bands : nat) (t : gdal_type) (options : list string)
  : M (option nat) :=
  match drv with
  | None => raise AttributeError_NoneType
  | Some d =>
      let c := Create path xsize ysize bands t options in
      log c;;
      if fails c then
        (if unlinks c then unlink path else mret tt);;
        if raises c then raise (LibraryError "Create") else mret None
      else
        unlink path;;
        h ← alloc (mk_handle path true
                     (mk_dataset (mk_meta d t None xsize ysize bands None None)
                                 options
                                 (replicate bands (blank ysize xsize))));
        mret (Some h)
  end.

Definition Dataset_GetRasterBand (ds : option nat) (i : nat)
  : M (option (nat * nat)) :=
  match ds with
  | None => raise AttributeError_NoneType
  | Some h =>
      o ← lookup_handle h;
      mret (if (1 <=? i) && (i <=? count (ds_meta (h_ds o)))
            then Some (h, i) else None)
  end.

(** [gdal_array.BandWriteArray]: the array must be two-dimensional and fit
    in the band, or the binding raises; an array of the band's size
    replaces the band's content.  A write that fails leaves the band as it
    was and is reported by an error code unless it is raised. *)
Definition Band_WriteArray (b : option (nat * nat)) (a : ndarray) : M unit :=
  match b with
  | None => raise AttributeError_NoneType
  | Some (h, i) =>
      o ← lookup_handle h;
      let d := h_ds o in
      match shape a with
      | [ysize; xsize] =>
          if (xsize <=? width (ds_meta d)) && (ysize <=? height (ds_meta d))
          then
            attempt (WriteArray h i a) "WriteArray"
              match band_lookup (ds_bands d) i with
              | Some old =>
                  let new :=
                    if (xsize =? width (ds_meta d))
                       && (ysize =? height (ds_meta d))
                    then a else paste old a in
                  store_handle h
                    (set_ds o (mk_dataset (ds_meta d) (ds_options d)
                                 (band_store (ds_bands d) i new)))
              | None => raise (LibraryError "illegal band")
              end
          else raise (LibraryError "array larger than output file")
      | _ => raise (LibraryError "expected array of dim 2")
      end
  end.

Definition set_meta (h : nat) (f : meta -> meta) : M unit :=
  o ← lookup_handle h;
  let d := h_ds o in
  store_handle h (set_ds o (mk_dataset (f (ds_meta d)) (ds_options d)
                              (ds_bands d))).

Definition Band_SetNoDataValue (b : option (nat * nat)) (v : Z) : M unit :=
  match b with
  | None => raise AttributeError_NoneType
  | Some (h, i) =>
      attempt (SetNoDataValue h i v) "SetNoDataValue"
        (set_meta h (fun m => mk_meta (driver m) (dtype m) (Some v) (width m)
                               (height m) (count m) (crs m) (transform m)))
  end.

Definition Dataset_SetGeoTransform (ds : option nat) (t : affine) : M unit :=
  match ds with
  | None => raise AttributeError_NoneType
  | Some h =>
      attempt (SetGeoTransform h t) "SetGeoTransform"
        (set_meta h (fun m => mk_meta (driver m) (dtype m) (nodata m) (width m)
                               (height m) (count m) (crs m) (Some t)))
  end.

Definition Dataset_SetProjection (ds : option nat) (p : string) : M unit :=
  match ds with
  | None => raise AttributeError_NoneType
  | Some h =>
      attempt (SetProjection h p) "SetProjection"
        (set_meta h (fun m => mk_meta (driver m) (dtype m) (nodata m) (width m)
                               (height m) (count m) (Some p) (transform m)))
  end.

(** [outdata = None]: the last reference to the dataset is dropped and
    GDAL closes it, flushing it to its file.  A flush that fails there
    cannot raise: the handle is gone and the raster is not on disk. *)
Definition dereference (ds : option nat) : M unit :=
  match ds with
  | None => mret tt
  | Some h =>
      log (Dereference h);;
      if fails (Dereference h) then drop_handle h else close_handle h
  end.

Definition unpack2 (l : list nat) : M (nat * nat) :=
  match l with
  | [a; b] => mret (a, b)
  | _ => if length l <? 2
         then raise (ValueError_not_enough_values 2 (length l))
         else raise (ValueError_too_many_values 2)
  end.

(** [Raster.array2tiff], lines 31-66.  An omitted keyword argument is
    [None].  The local names [cols] and [rows] are bound as the source
    binds them, [cols] to [shape[0]] and [rows] to [shape[1]]; line 64,
    [data = None], binds a name nothing else uses and is left out. *)
Definition array2tiff (ndarray_data : ndarray) (str_output_file : string)
    (transform : affine) (projection : string)
    (no_data : option Z) (compression : option string) : M unit :=
  let no_data := default (-1)%Z no_data in
  let compression := default "COMPRESS=PACKBITS" compression in
  outdriver ← gdal_GetDriverByName "GTiff";
  '(cols, rows) ← unpack2 (shape ndarray_data);
  outdata ← Driver_Create outdriver str_output_file rows cols 1 GDT_Float32
              [compression];
  b ← Dataset_GetRasterBand outdata 1;
  Band_WriteArray b ndarray_data;;
  b ← Dataset_GetRasterBand outdata 1;
  Band_SetNoDataValue b no_data;;
  Dataset_SetGeoTransform outdata transform;;
  Dataset_SetProjection outdata projection;;
  dereference outdata.

(** *** rasterio *)

Definition rasterio_open_ (path mode : string) (kwargs : option meta)
  : M nat :=
  invoke (rasterio_open path mode kwargs) "RasterioIOError";;
  match kwargs with
  | None =>
      fun w =>
        match files w !! path with
        | Some d => alloc (mk_handle path false d) w
        | None => (Raise (LibraryError "RasterioIOError"), w)
        end
  | Some k =>
      alloc (mk_handle path true
               (mk_dataset k []
                  (replicate (count k) (blank (height k) (width k)))))
  end.

(** [with enter as h: body]: the dataset is closed when the block is left,
    by its end or by an exception alike. *)
Definition with_ {A} (enter : M nat) (body : nat -> M A) : M A := fun w =>
  match enter w with
  | (Raise e, w1) => (Raise e, w1)
  | (Ok h, w1) =>
      let '(r, w2) := body h w1 in
      (r, snd ((log (dataset_exit h);; close_handle h) w2))
  end.

Definition calculate_default_transform_ (src_crs : option string)
    (dst_crs : string) (w h : nat) (b : extent) : M (affine * nat * nat) :=
  invoke (calculate_default_transform src_crs dst_crs w h b) "CRSError";;
  mret (default_transform src_crs dst_crs w h b).

Definition reproject_ (src src_band dst dst_band : nat)
    (src_transform : option affine) (src_crs : option string)
    (dst_transform : affine) (dst_crs : string) (resampling : Resampling)
  : M unit :=
  invoke (reproject src src_band dst dst_band src_transform src_crs
            dst_transform dst_crs resampling) "WarpOperationError";;
  s ← lookup_handle src;
  d ← lookup_handle dst;
  match band_lookup (ds_bands (h_ds s)) src_band,
        band_lookup (ds_bands (h_ds d)) dst_band with
  | Some sb, Some db =>
      store_handle dst
        (set_ds d (mk_dataset (ds_meta (h_ds d)) (ds_options (h_ds d))
                     (band_store (ds_bands (h_ds d)) dst_band
                        (warp resampling src_transform src_crs dst_transform
                           dst_crs sb db))))
  | _, _ => raise (LibraryError "IndexError")
  end.

Fixpoint for_ {A} (l : list A) (body : A -> M unit) : M unit :=
  match l with
  | [] => mret tt
  | x :: l' => body x;; for_ l' body
  end.

Definition range (a b : nat) : list nat := seq a (b - a).

(** [Raster.reproj], lines 69-111. *)
Definition reproj (in_raster out_raster : string) (target_crs : option string)
  : M unit :=
  let target_crs := default "EPSG:4326" target_crs in
  with_ (rasterio_open_ in_raster "r" None) (fun src =>
    s ← lookup_handle src;
    let sm := ds_meta (h_ds s) in
    let src_crs := crs sm in
    let src_transform := transform sm in
    let src_count := count sm in
    '(transform, width, height) ←
      calculate_default_transform_ src_crs target_crs (width sm) (height sm)
        (bounds_of sm);
    let kwargs :=
      mk_meta (driver sm) (dtype sm) (nodata sm) width height (count sm)
              (Some target_crs) (Some transform) in
    with_ (rasterio_open_ out_raster "w" (Some kwargs)) (fun dst =>
      for_ (range 1 (src_count + 1)) (fun i =>
        reproject_ src i dst i src_transform src_crs
                   transform target_crs nearest)));;
  log (print ("Done: " +:+ out_raster)).

(** The band pairs and the resampling of the [reproject] calls of a
    trace. *)
Definition reproject_calls (t : list call)
  : list (nat * nat * Resampling) :=
  omap (fun c =>
          match c with
          | reproject _ i _ j _ _ _ _ r => Some (i, j, r)
          | _ => None
          end) t.

(** [frames hs m]: whatever [m] does and however it ends, it leaves every
    handle outside [hs] as it was. *)
Definition frames {A} (hs : list nat) (m : M A) : Prop :=
  forall w k, k ∉ hs -> handles (snd (m w)) !! k = handles w !! k.

(** The messages printed in a trace, and [quiet_on f m]: [m] adds to the
    trace no call that [f] selects. *)
Definition printed (t : list call) : list string :=
  omap (fun c => match c with print s => Some s | _ => None end) t.

Definition quiet_on {X A} (f : call -> option X) (m : M A) : Prop :=
  forall w, omap f (trace (snd (m w))) = omap f (trace w).

(** [ascending_from k P m]: the [reproject] calls [m] adds to the trace
    are for the bands [k], [k + 1], ... in that order, each from a band to
    the band of the same number, each with nearest-neighbour resampling;
    their number satisfies [P]. *)
Definition ascending_from {A} (k : nat) (P : nat -> Prop) (m : M A) : Prop :=
  forall w, exists j,
    P j
    /\ reproject_calls (trace (snd (m w)))
       = reproject_calls (trace w)
         ++ map (fun i => (i, i, nearest)) (seq k j).

End Model.

(** Two environments to run the code in, over integer samples and
    coefficient lists.  In [quiet] no library call fails and warping copies
    the source samples; in [disk_full] writing pixel data fails and GDAL
    raises its errors. *)
Definition quiet : @Library Z (list Z) (list Z) := {|
  fails := fun _ => false;
  raises := fun _ => false;
  unlinks := fun _ => false;
  default_transform := fun _ _ w h _ => ([0; 1; 0; 0; 0; 1]%Z, w, h);
  bounds_of := fun _ => [0; 0; 1; 1]%Z;
  warp := fun _ _ _ _ _ s d => mk_ndarray (shape d) (data s);
  paste := fun _ a => a;
  fill := 0%Z
|}.

Definition disk_full : @Library Z (list Z) (list Z) := {|
  fails := fun c => match c with WriteArray _ _ _ => true | _ => false end;
  raises := fun _ => true;
  unlinks := fun _ => false;
  default_transform := fun _ _ w h _ => ([0; 1; 0; 0; 0; 1]%Z, w, h);
  bounds_of := fun _ => [0; 0; 1; 1]%Z;
  warp := fun _ _ _ _ _ s d => mk_ndarray (shape d) (data s);
  paste := fun _ a => a;
  fill := 0%Z
|}.



Definition bad_crs : @Library Z (list Z) (list Z) := {|
  fails := fun c => match c with
                    | calculate_default_transform _ _ _ _ _ => true
                    | _ => false
                    end;
  raises := fun _ => false;
  unlinks := fun _ => false;
  default_transform := fun _ _ w h _ => ([0; 1; 0; 0; 0; 1]%Z, w, h);
  bounds_of := fun _ => [0; 0; 1; 1]%Z;
  warp := fun _ _ _ _ _ s d => mk_ndarray (shape d) (data s);
  paste := fun _ a => a;
  fill := 0%Z
|}.

Definition stuck_at (k : nat) : @Library Z (list Z) (list Z) := {|
  fails := fun c => match c with
                    | reproject _ i _ _ _ _ _ _ _ => i =? k
                    | _ => false
                    end;
  raises := fun _ => false;
  unlinks := fun _ => false;
  default_transform := fun _ _ w h _ => ([0; 1; 0; 0; 0; 1]%Z, w, h);
  bounds_of := fun _ => [0; 0; 1; 1]%Z;
  warp := fun _ _ _ _ _ s d => mk_ndarray (shape d) (data s);
  paste := fun _ a => a;
  fill := 0%Z
|}.

Definition empty_world : @world Z (list Z) (list Z) := mk_world ∅ ∅ [].

Definition grid_2x3 : @ndarray Z :=
  mk_ndarray [2; 3] [1; 2; 3; 4; 5; 6]%Z.

Definition cube_2x2x2 : @ndarray Z :=
  mk_ndarray [2; 2; 2] [1; 2; 3; 4; 5; 6; 7; 8]%Z.

Definition two_bands : @dataset Z (list Z) :=
  mk_dataset
    (mk_meta "GTiff" GDT_Float32 (Some (-1)%Z) 3 2 2 (Some "EPSG:32723")
       (Some [0; 30; 0; 0; 0; -30]%Z))
    []
    [grid_2x3; mk_ndarray [2; 3] [7; 8; 9; 10; 11; 12]%Z].

Definition world_with_input : @world Z (list Z) (list Z) :=
  mk_world ∅ {["in.tif" := two_bands]} [].

End Raster.

Import Py Strptime GRS.

Example ex_split : split "_" "a__b_" = ["a"; ""; "b"; ""].
Proof. reflexivity. Qed.

Example ex_basename :
  basename "/root/23KMQ/2021/05/21/S2A_x.nc" = "S2A_x.nc".
Proof. reflexivity. Qed.

Example ex_format_02d :
  (format_02d 5, format_02d 12, format_02d 2020, format_02d 0)
  = ("05", "12", "2020", "00").
Proof. vm_compute. reflexivity. Qed.

Example ex_strptime :
  strptime "20210521T131241" = Ok (mk_datetime 2021 5 21 13 12 41)%N.
Proof. vm_compute. reflexivity. Qed.

Example ex_strptime_short : strptime "20210521" = Raise ValueError_does_not_match.
Proof. vm_compute. reflexivity. Qed.

Example ex_strptime_lower :
  strptime "20200101t090000" = Ok (mk_datetime 2020 1 1 9 0 0)%N.
Proof. vm_compute. reflexivity. Qed.

Example ex_strptime_lenient :
  strptime "2020111T1111" = Ok (mk_datetime 2020 11 1 11 1 1)%N.
Proof. vm_compute. reflexivity. Qed.

Example ex_strptime_h25 :
  strptime "20200101T250000" = Raise ValueError_unconverted_data.
Proof. vm_compute. reflexivity. Qed.

Example ex_strptime_feb30 :
  strptime "20200230T000000" = Raise ValueError_out_of_range.
Proof. vm_compute. reflexivity. Qed.

Example ex_strptime_m13 :
  strptime "20201301T000000" = Raise ValueError_does_not_match.
Proof. vm_compute. reflexivity. Qed.

Example ex_lenient :
  (lenient_timestamp "2020111T1111", lenient_timestamp "20200101t090000",
   lenient_timestamp "202001 5T000000", lenient_timestamp "20210521",
   lenient_timestamp "20200230T000000", valid_timestamp "20200101T090000",
   valid_timestamp "20200101t090000")
  = (true, true, true, false, false, true, false).
Proof. vm_compute. reflexivity. Qed.

Example ex_strptime_blank_day :
  strptime "202001 5T000000" = Ok (mk_datetime 2020 1 5 0 0 0)%N.
Proof. vm_compute. reflexivity. Qed.

(** * The date pattern *)

Section StringFacts.

Lemma is_digit_cases (c : ascii) :
  is_digit c = true ->
  In c ["0"; "1"; "2"; "3"; "4"; "5"; "6"; "7"; "8"; "9"]%char.
Proof.
  destruct c as [b0 b1 b2 b3 b4 b5 b6 b7].
  destruct b0, b1, b2, b3, b4, b5, b6, b7; vm_compute;
    solve [ discriminate | intros _; tauto ].
Qed.

Lemma lstrip_digit c r : is_digit c = true -> lstrip (String c r) = String c r.
Proof.
  intros H. apply is_digit_cases in H. simpl in H.
  repeat (destruct H as [<- | H]; [reflexivity |]). destruct H.
Qed.

Lemma int_digits_some acc s :
  forallb is_digit (list_ascii_of_string s) = true ->
  exists n, int_digits acc s = Some n.
Proof.
  revert acc. induction s as [|c s IH]; intros acc H; simpl in *.
  - eauto.
  - apply andb_prop in H as [Hc Hs]. rewrite Hc. apply IH, Hs.
Qed.

(** On a run of digits [int] succeeds, and [num] is its value. *)
Lemma int_digits_ok s : digits s = true -> int s = Ok (num s).
Proof.
  unfold digits, num, int. intros H. apply andb_prop in H as [Hne Hd].
  destruct s as [|c r]; [discriminate|].
  simpl in Hd. apply andb_prop in Hd as [Hc Hr].
  rewrite (lstrip_digit _ _ Hc).
  destruct (int_digits_some 0 (String c r)) as [n Hn].
  { simpl. now rewrite Hc, Hr. }
  now rewrite Hn.
Qed.

Lemma int_ok_num s n : int s = Ok n -> num s = n.
Proof. unfold num. now intros ->. Qed.

Lemma int_error s e : int s = Raise e -> date_parse_error e = true.
Proof.
  unfold int. destruct (lstrip s); [now intros [= <-]|].
  destruct (int_digits _ _); [discriminate | now intros [= <-]].
Qed.

End StringFacts.

Section Matcher.

Lemma match_groups_first a g gs s m r ms r' :
  match_alt a s = Some (m, r) ->
  match_groups gs r = Some (ms, r') ->
  match_groups ((a :: g) :: gs) s = Some (m :: ms, r').
Proof. intros Ha Hr. simpl. now rewrite Ha, Hr. Qed.

Lemma match_groups_skip a g gs s :
  match_alt a s = None ->
  match_groups ((a :: g) :: gs) s = match_groups (g :: gs) s.
Proof. intros Ha. simpl. now rewrite Ha. Qed.

(** What an alternative consumed: one character per class, each in its
    class. *)
Lemma match_alt_sound a s m r :
  match_alt a s = Some (m, r) ->
  s = m +:+ r /\ Forall2 (fun (k : cclass) c => k c = true) a (list_ascii_of_string m).
Proof.
  revert s m r. induction a as [|k a IH]; intros s m r H; simpl in H.
  - injection H as <- <-. split; [reflexivity | constructor].
  - destruct s as [|c s]; [discriminate|].
    destruct (k c) eqn:Hk; [|discriminate].
    destruct (match_alt a s) as [[m' r']|] eqn:Ha; [|discriminate].
    injection H as <- <-. apply IH in Ha as [-> Hall].
    split; [reflexivity | now constructor].
Qed.

Lemma first_success_some {A B} (f : A -> option B) l b :
  first_success f l = Some b -> exists a, In a l /\ f a = Some b.
Proof.
  induction l as [|a l IH]; simpl; [discriminate|].
  destruct (f a) eqn:Hf.
  - intros [= <-]. eauto.
  - intros H. destruct (IH H) as (a' & Hin & Ha'). eauto.
Qed.

(** A successful match splits the input into the texts of the groups, in
    order, and the rest. *)
Lemma match_groups_sound gs s ms r :
  match_groups gs s = Some (ms, r) ->
  s = fold_right String.append r ms /\ Forall2 accepts gs ms.
Proof.
  revert s ms r. induction gs as [|g gs IH]; intros s ms r H; simpl in H.
  - injection H as <- <-. split; [reflexivity | constructor].
  - apply first_success_some in H as (a & Hin & H).
    destruct (match_alt a s) as [[m r1]|] eqn:Ha; [|discriminate].
    destruct (match_groups gs r1) as [[ms' r']|] eqn:Hg; [|discriminate].
    injection H as <- <-.
    apply match_alt_sound in Ha as [-> Hall].
    apply IH in Hg as [-> Hrest].
    split; [reflexivity|]. constructor; [|assumption]. now exists a.
Qed.

End Matcher.

Section Complete.

Local Ltac digit_cases H :=
  apply is_digit_cases in H; simpl in H;
  repeat (destruct H as [<- | H]); try destruct H.

Local Ltac run_group Hk :=
  repeat first
    [ rewrite match_groups_skip by reflexivity
    | eapply match_groups_first; [reflexivity | exact Hk] ].

Local Abbreviation two a b := (String a (String b EmptyString)).

Lemma step_Y c1 c2 c3 c4 r gs ms r' :
  is_digit c1 = true -> is_digit c2 = true ->
  is_digit c3 = true -> is_digit c4 = true ->
  match_groups gs r = Some (ms, r') ->
  match_groups (re_Y :: gs) (String c1 (String c2 (String c3 (String c4 r))))
  = Some (String c1 (String c2 (two c3 c4)) :: ms, r').
Proof.
  intros H1 H2 H3 H4 Hk. eapply match_groups_first; [|exact Hk].
  simpl. unfold d_. now rewrite H1, H2, H3, H4.
Qed.

Lemma step_m c1 c2 r gs ms r' :
  is_digit c1 = true -> is_digit c2 = true ->
  (1 <=? num (two c1 c2))%N && (num (two c1 c2) <=? 12)%N = true ->
  match_groups gs r = Some (ms, r') ->
  match_groups (re_m :: gs) (String c1 (String c2 r))
  = Some (two c1 c2 :: ms, r').
Proof.
  intros H1 H2 Hv Hk. digit_cases H1; digit_cases H2;
    first [ discriminate Hv | unfold re_m; run_group Hk ].
Qed.

Lemma step_d c1 c2 r gs ms r' :
  is_digit c1 = true -> is_digit c2 = true ->
  (1 <=? num (two c1 c2))%N && (num (two c1 c2) <=? 31)%N = true ->
  match_groups gs r = Some (ms, r') ->
  match_groups (re_d :: gs) (String c1 (String c2 r))
  = Some (two c1 c2 :: ms, r').
Proof.
  intros H1 H2 Hv Hk. digit_cases H1; digit_cases H2;
    first [ discriminate Hv | unfold re_d; run_group Hk ].
Qed.

Lemma step_T r gs ms r' :
  match_groups gs r = Some (ms, r') ->
  match_groups (re_T :: gs) (String "T" r) = Some ("T" :: ms, r').
Proof. intros Hk. unfold re_T. run_group Hk. Qed.

Lemma step_H c1 c2 r gs ms r' :
  is_digit c1 = true -> is_digit c2 = true ->
  (num (two c1 c2) <=? 23)%N = true ->
  match_groups gs r = Some (ms, r') ->
  match_groups (re_H :: gs) (String c1 (String c2 r))
  = Some (two c1 c2 :: ms, r').
Proof.
  intros H1 H2 Hv Hk. digit_cases H1; digit_cases H2;
    first [ discriminate Hv | unfold re_H; run_group Hk ].
Qed.

Lemma step_M c1 c2 r gs ms r' :
  is_digit c1 = true -> is_digit c2 = true ->
  (num (two c1 c2) <=? 59)%N = true ->
  match_groups gs r = Some (ms, r') ->
  match_groups (re_M :: gs) (String c1 (String c2 r))
  = Some (two c1 c2 :: ms, r').
Proof.
  intros H1 H2 Hv Hk. digit_cases H1; digit_cases H2;
    first [ discriminate Hv | unfold re_M; run_group Hk ].
Qed.

Lemma step_S c1 c2 r gs ms r' :
  is_digit c1 = true -> is_digit c2 = true ->
  (num (two c1 c2) <=? 59)%N = true ->
  match_groups gs r = Some (ms, r') ->
  match_groups (re_S :: gs) (String c1 (String c2 r))
  = Some (two c1 c2 :: ms, r').
Proof.
  intros H1 H2 Hv Hk. digit_cases H1; digit_cases H2;
    first [ discriminate Hv | unfold re_S; run_group Hk ].
Qed.

End Complete.

Section Valid.

Lemma days_in_month_le y m : (days_in_month y m <= 31)%N.
Proof.
  unfold days_in_month.
  repeat match goal with
         | |- context [match ?x with _ => _ end] => destruct x
         end; lia.
Qed.

Lemma shaped_inv s :
  shaped s = true ->
  exists y1 y2 y3 y4 m1 m2 d1 d2 h1 h2 n1 n2 s1 s2,
    s = String y1 (String y2 (String y3 (String y4 (String m1 (String m2
        (String d1 (String d2 (String "T" (String h1 (String h2 (String n1
        (String n2 (String s1 (String s2 EmptyString))))))))))))))
    /\ Forall (fun c => is_digit c = true)
         [y1; y2; y3; y4; m1; m2; d1; d2; h1; h2; n1; n2; s1; s2].
Proof.
  unfold shaped. intros H.
  do 15 (destruct s as [|? s]; [discriminate H|]).
  destruct s; [|discriminate H].
  simpl in H. apply andb_prop in H as [Hd Ht].
  apply Ascii.eqb_eq in Ht as ->.
  repeat (apply andb_prop in Hd as [? Hd]).
  do 14 eexists. split; [reflexivity|].
  repeat constructor; assumption.
Qed.

(** On a valid timestamp the pattern takes two digits for every number and
    the date check passes: [strptime] returns the fields as written. *)
Local Ltac digits_tac :=
  unfold digits; cbn [list_ascii_of_string forallb String.eqb negb];
  repeat match goal with
         | H : is_digit ?c = true |- context [is_digit ?c] => rewrite H
         end; reflexivity.

Lemma strptime_valid s :
  valid_timestamp s = true -> strptime s = Ok (fields s).
Proof.
  unfold valid_timestamp. intros H. apply andb_prop in H as [Hs Hc].
  destruct (shaped_inv _ Hs)
    as (y1 & y2 & y3 & y4 & m1 & m2 & d1 & d2 & h1 & h2 & n1 & n2 & s1 & s2
        & -> & Hd).
  repeat match goal with
         | H : Forall _ (_ :: _) |- _ => inversion H; subst; clear H
         | H : Forall _ [] |- _ => clear H
         end.
  unfold fields, fields_at in *. cbn [substring Nat.add] in *.
  unfold check_fields in Hc. cbn [year month day hour minute second] in Hc.
  set (Y := String y1 (String y2 (String y3 (String y4 "")))) in Hc.
  set (mo := String m1 (String m2 "")) in Hc.
  set (dd := String d1 (String d2 "")) in Hc.
  set (hh := String h1 (String h2 "")) in Hc.
  set (mi := String n1 (String n2 "")) in Hc.
  set (ss := String s1 (String s2 "")) in Hc.
  pose proof Hc as Hc'.
  unfold check_date_fields, check_time_fields in Hc'.
  revert Hc.
  repeat match goal with
         | H : _ && _ = true |- _ => apply andb_prop in H as [? ?]
         end.
  intros Hc.
  assert (Hd31 : (num dd <=? 31)%N = true).
  { apply N.leb_le. pose proof (days_in_month_le (num Y) (num mo)).
    match goal with
    | H : (num dd <=? days_in_month _ _)%N = true |- _ =>
        apply N.leb_le in H; lia
    end. }
  assert (Hm : match_groups format_regex
                 (String y1 (String y2 (String y3 (String y4 (String m1
                 (String m2 (String d1 (String d2 (String "T" (String h1
                 (String h2 (String n1 (String n2 (String s1 (String s2
                  EmptyString)))))))))))))))
               = Some ([Y; mo; dd; "T"; hh; mi; ss], EmptyString)).
  { unfold format_regex.
    apply step_Y; try assumption.
    apply step_m; try assumption; [now apply andb_true_intro|].
    apply step_d; try assumption; [now apply andb_true_intro|].
    apply step_T.
    apply step_H; try assumption.
    apply step_M; try assumption.
    apply step_S; try assumption.
    reflexivity. }
  unfold strptime. rewrite Hm. clear Hm.
  assert (HdY : digits Y = true) by (subst Y; digits_tac).
  assert (Hdm : digits mo = true) by (subst mo; digits_tac).
  assert (Hdd : digits dd = true) by (subst dd; digits_tac).
  assert (Hdh : digits hh = true) by (subst hh; digits_tac).
  assert (Hdi : digits mi = true) by (subst mi; digits_tac).
  assert (Hds : digits ss = true) by (subst ss; digits_tac).
  rewrite (int_digits_ok _ HdY), (int_digits_ok _ Hdm), (int_digits_ok _ Hdd),
    (int_digits_ok _ Hdh), (int_digits_ok _ Hdi), (int_digits_ok _ Hds).
  cbn [rbind]. rewrite Hc. reflexivity.
Qed.

End Valid.

Section Substrings.

Lemma append_cons x (a b : string) : String x a +:+ b = String x (a +:+ b).
Proof. reflexivity. Qed.

Lemma length_append (a b : string) :
  String.length (a +:+ b) = String.length a + String.length b.
Proof.
  induction a as [|c a IH]; [reflexivity|].
  rewrite append_cons. simpl. now rewrite IH.
Qed.

Lemma append_assoc (a b c : string) : (a +:+ b) +:+ c = a +:+ (b +:+ c).
Proof.
  induction a as [|x a IH]; [reflexivity|].
  rewrite !append_cons. now rewrite IH.
Qed.

Lemma append_empty_r (a : string) : a +:+ "" = a.
Proof.
  induction a as [|x a IH]; [reflexivity|].
  rewrite append_cons. now rewrite IH.
Qed.

Lemma substring_prefix (p post : string) :
  substring 0 (String.length p) (p +:+ post) = p.
Proof.
  induction p as [|c p IH].
  - now destruct post.
  - rewrite append_cons. simpl. now rewrite IH.
Qed.

(** The piece of a concatenation that starts where [pre] ends. *)
Lemma substring_piece (pre p post : string) :
  substring (String.length pre) (String.length p) (pre +:+ p +:+ post) = p.
Proof.
  induction pre as [|c pre IH]; [exact (substring_prefix p post)|].
  rewrite append_cons. simpl. exact IH.
Qed.

Lemma substring_suffix (pre p : string) :
  substring (String.length pre) (String.length p) (pre +:+ p) = p.
Proof.
  pose proof (substring_piece pre p "") as H.
  now rewrite append_empty_r in H.
Qed.

End Substrings.

Section Sound.

Lemma in_range_digit lo hi c :
  (48 <=? N_of_ascii lo)%N = true -> (N_of_ascii hi <=? 57)%N = true ->
  in_range lo hi c = true -> is_digit c = true.
Proof.
  unfold is_digit, in_range. intros Hlo Hhi H.
  apply andb_prop in H as [H1 H2].
  apply N.leb_le in Hlo, Hhi, H1, H2.
  apply andb_true_intro. split; apply N.leb_le; simpl; lia.
Qed.

Local Ltac inv_accepts :=
  repeat match goal with
         | H : Forall2 _ (_ :: _) (list_ascii_of_string ?m) |- _ =>
             destruct m; simpl in H; inversion H; subst; clear H
         | H : Forall2 _ [] (list_ascii_of_string ?m) |- _ =>
             destruct m; simpl in H; inversion H; clear H
         | H : ch _ _ = true |- _ => apply Ascii.eqb_eq in H; subst
         | H : rng _ _ _ = true |- _ =>
             apply in_range_digit in H; [|reflexivity|reflexivity]
         | H : d_ _ = true |- _ => unfold d_ in H
         end.

Local Ltac digits_goal :=
  unfold day_digits, digits;
  cbn [list_ascii_of_string forallb String.eqb negb];
  repeat match goal with
         | H : is_digit ?c = true |- context [is_digit ?c] => rewrite H
         end;
  try reflexivity.

Local Ltac accepts_cases H :=
  destruct H as (a & Hin & Hall); simpl in Hin;
  repeat (destruct Hin as [<- | Hin]); try destruct Hin;
  inv_accepts.

Lemma accepts_Y m :
  accepts re_Y m -> String.length m = 4 /\ digits m = true.
Proof. intros H. accepts_cases H. split; [reflexivity | digits_goal]. Qed.

Lemma accepts_m m :
  accepts re_m m ->
  (String.length m = 1 \/ String.length m = 2) /\ digits m = true.
Proof. intros H. accepts_cases H; (split; [simpl; auto | digits_goal]). Qed.

Lemma accepts_d m :
  accepts re_d m ->
  (String.length m = 1 \/ String.length m = 2) /\ day_digits m = true.
Proof.
  intros H. accepts_cases H; (split; [simpl; auto | digits_goal]).
Qed.

Lemma accepts_T m : accepts re_T m -> m = "T" \/ m = "t".
Proof.
  intros H. accepts_cases H.
  match goal with
  | H : chi _ _ _ = true |- _ =>
      unfold chi in H; apply orb_prop in H as [H | H];
      apply Ascii.eqb_eq in H; subst; auto
  end.
Qed.

Lemma accepts_H m :
  accepts re_H m ->
  (String.length m = 1 \/ String.length m = 2) /\ digits m = true.
Proof. intros H. accepts_cases H; (split; [simpl; auto | digits_goal]). Qed.

Lemma accepts_M m :
  accepts re_M m ->
  (String.length m = 1 \/ String.length m = 2) /\ digits m = true.
Proof. intros H. accepts_cases H; (split; [simpl; auto | digits_goal]). Qed.

Lemma accepts_S m :
  accepts re_S m ->
  (String.length m = 1 \/ String.length m = 2) /\ digits m = true.
Proof. intros H. accepts_cases H; (split; [simpl; auto | digits_goal]). Qed.

End Sound.

Section Lenient.

(** What a successful [strptime] has read. *)
Lemma strptime_ok_inv s dt :
  strptime s = Ok dt ->
  exists gY gm gd gT gH gM gS,
    s = gY +:+ gm +:+ gd +:+ gT +:+ gH +:+ gM +:+ gS
    /\ Forall2 accepts format_regex [gY; gm; gd; gT; gH; gM; gS]
    /\ dt = mk_datetime (num gY) (num gm) (num gd) (num gH) (num gM) (num gS)
    /\ check_fields dt = true.
Proof.
  unfold strptime. intros H.
  destruct (match_groups format_regex s) as [[found rest]|] eqn:Hm;
    [|discriminate].
  destruct rest; [|discriminate].
  destruct found as [|gY found]; [discriminate|].
  destruct found as [|gm found]; [discriminate|].
  destruct found as [|gd found]; [discriminate|].
  destruct found as [|gT found]; [discriminate|].
  destruct found as [|gH found]; [discriminate|].
  destruct found as [|gM found]; [discriminate|].
  destruct found as [|gS found]; [discriminate|].
  destruct found; [|discriminate].
  apply match_groups_sound in Hm as [Hs Hacc].
  destruct (int gY) as [y|] eqn:Hy; [|discriminate].
  destruct (int gm) as [mo|] eqn:Hmo; [|discriminate].
  destruct (int gd) as [dd|] eqn:Hdd; [|discriminate].
  destruct (int gH) as [hh|] eqn:Hhh; [|discriminate].
  destruct (int gM) as [mi|] eqn:Hmi; [|discriminate].
  destruct (int gS) as [ss|] eqn:Hss; [|discriminate].
  cbn [rbind] in H.
  destruct (check_date_fields y mo dd && check_time_fields hh mi ss)
    eqn:Hc; [|discriminate].
  injection H as <-.
  exists gY, gm, gd, gT, gH, gM, gS.
  apply int_ok_num in Hy, Hmo, Hdd, Hhh, Hmi, Hss. subst.
  cbn [fold_right]. rewrite append_empty_r.
  repeat split; assumption.
Qed.

Lemma strptime_error s e : strptime s = Raise e -> date_parse_error e = true.
Proof.
  unfold strptime.
  destruct (match_groups format_regex s) as [[found rest]|];
    [|intros H; inversion H; reflexivity].
  destruct rest; [|intros H; inversion H; reflexivity].
  do 7 (destruct found as [|? found]; [intros H; inversion H; reflexivity|]).
  destruct found; [|intros H; inversion H; reflexivity].
  cbv beta iota.
  repeat match goal with
         | |- rbind (int ?x) _ = _ -> _ =>
             let E := fresh in
             destruct (int x) eqn:E; cbn [rbind];
             [|intros HR; inversion HR; subst; eapply int_error; eassumption]
         end.
  destruct (_ && _); intros HR; inversion HR; reflexivity.
Qed.

End Lenient.

Section LenientSound.

Lemma pieces_substrings (gY gm gd gT gH gM gS : string) :
  String.length gY = 4 -> String.length gT = 1 ->
  let s := gY +:+ gm +:+ gd +:+ gT +:+ gH +:+ gM +:+ gS in
  let wm := String.length gm in
  let wd := String.length gd in
  let wH := String.length gH in
  let wM := String.length gM in
  let wS := String.length gS in
  String.length s = 5 + wm + wd + wH + wM + wS
  /\ substring 0 4 s = gY
  /\ substring 4 wm s = gm
  /\ substring (4 + wm) wd s = gd
  /\ substring (4 + wm + wd) 1 s = gT
  /\ substring (5 + wm + wd) wH s = gH
  /\ substring (5 + wm + wd + wH) wM s = gM
  /\ substring (5 + wm + wd + wH + wM) wS s = gS.
Proof.
  intros HY HT s wm wd wH wM wS. subst s wm wd wH wM wS.
  split; [rewrite !length_append, HY, HT; lia|].
  split.
  { rewrite <- HY. apply substring_prefix. }
  split.
  { rewrite <- HY. apply substring_piece. }
  split.
  { replace (4 + String.length gm) with (String.length (gY +:+ gm))
      by (rewrite length_append; lia).
    rewrite <- (append_assoc gY gm). apply substring_piece. }
  split.
  { replace (4 + String.length gm + String.length gd)
      with (String.length (gY +:+ gm +:+ gd))
      by (rewrite !length_append; lia).
    rewrite <- HT.
    rewrite <- (append_assoc gm gd), <- (append_assoc gY (gm +:+ gd)).
    apply substring_piece. }
  split.
  { replace (5 + String.length gm + String.length gd)
      with (String.length (gY +:+ gm +:+ gd +:+ gT))
      by (rewrite !length_append; lia).
    rewrite <- (append_assoc gd gT), <- (append_assoc gm (gd +:+ gT)),
      <- (append_assoc gY (gm +:+ gd +:+ gT)).
    apply substring_piece. }
  split.
  { replace (5 + String.length gm + String.length gd + String.length gH)
      with (String.length (gY +:+ gm +:+ gd +:+ gT +:+ gH))
      by (rewrite !length_append; lia).
    rewrite <- (append_assoc gT gH), <- (append_assoc gd (gT +:+ gH)),
      <- (append_assoc gm (gd +:+ gT +:+ gH)),
      <- (append_assoc gY (gm +:+ gd +:+ gT +:+ gH)).
    apply substring_piece. }
  replace (5 + String.length gm + String.length gd + String.length gH
           + String.length gM)
    with (String.length (gY +:+ gm +:+ gd +:+ gT +:+ gH +:+ gM))
    by (rewrite !length_append; lia).
  rewrite <- (append_assoc gH gM), <- (append_assoc gT (gH +:+ gM)),
    <- (append_assoc gd (gT +:+ gH +:+ gM)),
    <- (append_assoc gm (gd +:+ gT +:+ gH +:+ gM)),
    <- (append_assoc gY (gm +:+ gd +:+ gT +:+ gH +:+ gM)).
  apply substring_suffix.
Qed.

(** Whatever [strptime] accepts is a lenient timestamp, read with the
    widths the pattern chose. *)
Lemma strptime_lenient_at s dt :
  strptime s = Ok dt ->
  exists w, In w all_widths /\ lenient_at s w = true
            /\ (let '(wm, wd, wH, wM, wS) := w in dt = fields_at s wm wd wH wM wS).
Proof.
  intros H. apply strptime_ok_inv in H
    as (gY & gm & gd & gT & gH & gM & gS & Hs & Hacc & Hdt & Hc).
  unfold format_regex in Hacc.
  repeat match goal with
         | H : Forall2 _ (_ :: _) _ |- _ => inversion H; subst; clear H
         | H : Forall2 _ [] _ |- _ => clear H
         end.
  repeat match goal with
         | H : accepts re_Y _ |- _ => apply accepts_Y in H as [HlY HdY]
         | H : accepts re_m _ |- _ => apply accepts_m in H as [Hlm Hdm]
         | H : accepts re_d _ |- _ => apply accepts_d in H as [Hld Hdd]
         | H : accepts re_T _ |- _ => apply accepts_T in H
         | H : accepts re_H _ |- _ => apply accepts_H in H as [HlH HdH]
         | H : accepts re_M _ |- _ => apply accepts_M in H as [HlM HdM]
         | H : accepts re_S _ |- _ => apply accepts_S in H as [HlS HdS]
         end.
  assert (HlT : String.length gT = 1).
  { match goal with H : gT = _ \/ gT = _ |- _ => destruct H; now subst end. }
  destruct (pieces_substrings gY gm gd gT gH gM gS HlY HlT)
    as (Hlen & EY & Em & Ed & ET & EH & EM & ES).
  exists (String.length gm, String.length gd, String.length gH,
          String.length gM, String.length gS).
  split; [|split].
  - destruct Hlm as [-> | ->], Hld as [-> | ->], HlH as [-> | ->],
      HlM as [-> | ->], HlS as [-> | ->]; vm_compute; tauto.
  - unfold lenient_at, fields_at.
    rewrite Hlen, EY, Em, Ed, ET, EH, EM, ES, Nat.eqb_refl, HdY, Hdm, Hdd,
      HdH, HdM, HdS, Hc. cbn [andb].
    match goal with
    | H : gT = _ \/ gT = _ |- _ => destruct H; subst; reflexivity
    end.
  - unfold fields_at. now rewrite EY, Em, Ed, EH, EM, ES.
Qed.

Lemma strptime_lenient s dt :
  strptime s = Ok dt -> lenient_timestamp s = true.
Proof.
  intros H. apply strptime_lenient_at in H as (w & Hin & Hw & _).
  unfold lenient_timestamp. apply existsb_exists. eauto.
Qed.

End LenientSound.

Section Shaped.

Lemma lenient_at_inv s wm wd wH wM wS :
  lenient_at s (wm, wd, wH, wM, wS) = true ->
  String.length s = 5 + wm + wd + wH + wM + wS
  /\ check_fields (fields_at s wm wd wH wM wS) = true.
Proof.
  unfold lenient_at. intros H.
  repeat match goal with
         | H : _ && _ = true |- _ => apply andb_prop in H as [H ?]
         end.
  apply Nat.eqb_eq in H. auto.
Qed.

Lemma shaped_length s : shaped s = true -> String.length s = 15.
Proof.
  intros H. apply shaped_inv in H.
  destruct H as (y1 & y2 & y3 & y4 & m1 & m2 & d1 & d2 & h1 & h2 & n1 & n2
                 & s1 & s2 & -> & _).
  reflexivity.
Qed.

(** On a token of the fifteen-character shape [strptime] can only read two
    digits for every number, so it succeeds only on a real date and
    time. *)
Lemma strptime_shaped_sound s dt :
  shaped s = true -> strptime s = Ok dt ->
  dt = fields s /\ check_fields (fields s) = true.
Proof.
  intros Hs H. apply shaped_length in Hs.
  apply strptime_lenient_at in H as (w & Hin & Hw & Hdt).
  destruct w as [[[[wm wd] wH] wM] wS].
  apply lenient_at_inv in Hw as [Hlen Hc]. rewrite Hs in Hlen.
  assert (wm <= 2 /\ wd <= 2 /\ wH <= 2 /\ wM <= 2 /\ wS <= 2) as Hle.
  { vm_compute in Hin.
    repeat (destruct Hin as [Hin | Hin];
            [injection Hin as <- <- <- <- <-; lia|]).
    destruct Hin. }
  assert (wm = 2 /\ wd = 2 /\ wH = 2 /\ wM = 2 /\ wS = 2)
    as (-> & -> & -> & -> & ->) by lia.
  auto.
Qed.

End Shaped.

(** * [GRS.metadata] *)

Section Format02d.

Lemma format_02d_two_check :
  forallb (fun c1 => forallb (fun c2 =>
    String.eqb (format_02d (num (String c1 (String c2 ""))))
               (String c1 (String c2 ""))) digit_chars) digit_chars = true.
Proof. vm_compute. reflexivity. Qed.

(** Two digits are printed back as they were read. *)
Lemma format_02d_two c1 c2 :
  is_digit c1 = true -> is_digit c2 = true ->
  format_02d (num (String c1 (String c2 ""))) = String c1 (String c2 "").
Proof.
  intros H1 H2. apply is_digit_cases in H1, H2.
  pose proof format_02d_two_check as H.
  rewrite forallb_forall in H. specialize (H c1 H1).
  rewrite forallb_forall in H. specialize (H c2 H2).
  now apply String.eqb_eq in H.
Qed.

Lemma format_02d_four_check :
  forallb (fun c1 => forallb (fun c2 => forallb (fun c3 => forallb (fun c4 =>
    Ascii.eqb c1 "0"
    || String.eqb
         (format_02d (num (String c1 (String c2 (String c3 (String c4 ""))))))
         (String c1 (String c2 (String c3 (String c4 "")))))
    digit_chars) digit_chars) digit_chars) digit_chars = true.
Proof. vm_compute. reflexivity. Qed.

(** Four digits are printed back as they were read unless the first is
    a zero. *)
Lemma format_02d_four c1 c2 c3 c4 :
  is_digit c1 = true -> is_digit c2 = true ->
  is_digit c3 = true -> is_digit c4 = true -> c1 <> "0"%char ->
  format_02d (num (String c1 (String c2 (String c3 (String c4 "")))))
  = String c1 (String c2 (String c3 (String c4 ""))).
Proof.
  intros H1 H2 H3 H4 Hnz. apply is_digit_cases in H1, H2, H3, H4.
  pose proof format_02d_four_check as H.
  rewrite forallb_forall in H. specialize (H c1 H1).
  rewrite forallb_forall in H. specialize (H c2 H2).
  rewrite forallb_forall in H. specialize (H c3 H3).
  rewrite forallb_forall in H. specialize (H c4 H4).
  apply orb_prop in H as [H | H].
  - apply Ascii.eqb_eq in H. contradiction.
  - now apply String.eqb_eq in H.
Qed.

Lemma dec_aux_length fuel n acc :
  String.length acc <= String.length (dec_aux fuel n acc).
Proof.
  revert n acc. induction fuel as [|fuel IH]; intros n acc; simpl; [lia|].
  destruct (n / 10 =? 0)%N; simpl; [lia|].
  etransitivity; [|apply IH]. simpl. lia.
Qed.

(** The ["02d"] format never prints fewer than two characters. *)
Lemma format_02d_length n : 2 <= String.length (format_02d n).
Proof.
  unfold format_02d.
  destruct (String.length (dec n) <? 2) eqn:H.
  - simpl. unfold dec. simpl.
    destruct (n / 10 =? 0)%N; simpl; [lia|].
    pose proof (dec_aux_length (N.size_nat n) (n / 10)
                  (String (digit_char (n mod 10)) "")) as Hl.
    simpl in Hl. lia.
  - apply Nat.ltb_ge in H. exact H.
Qed.

End Format02d.

Section Metadata.

Lemma unpack9_ok l :
  length l = 9 ->
  exists a b c d e f g h i,
    l = [a; b; c; d; e; f; g; h; i]
    /\ unpack9 l = Ok (a, b, c, d, e, f, g, h, i).
Proof.
  intros H. do 9 (destruct l as [|? l]; [discriminate H|]).
  destruct l; [|discriminate H]. do 9 eexists. split; reflexivity.
Qed.

Lemma unpack9_error l :
  length l <> 9 ->
  exists e, unpack9 l = Raise e /\ format_error e = true.
Proof.
  intros H. unfold unpack9.
  do 9 (destruct l as [|? l];
        [eexists; split; [reflexivity | reflexivity]|]).
  destruct l; [now contradiction H|].
  eexists. split; reflexivity.
Qed.

(** The dict [metadata] builds once the nine tokens and the date are
    there. *)
Lemma metadata_ok path t1 t2 t3 t4 t5 t6 t7 t8 t9 dt :
  split "_" (basename path) = [t1; t2; t3; t4; t5; t6; t7; t8; t9] ->
  strptime t3 = Ok dt ->
  exists md : gmap string pyval,
    metadata path = Ok md
    /\ md !! "input_file" = Some (VStr path)
    /\ md !! "basename" = Some (VStr (basename path))
    /\ md !! "mission" = Some (VStr t1)
    /\ md !! "prod_lvl" = Some (VStr t2)
    /\ md !! "str_date" = Some (VStr t3)
    /\ md !! "pydate" = Some (VDate dt)
    /\ md !! "year" = Some (VStr (format_02d (year dt)))
    /\ md !! "month" = Some (VStr (format_02d (month dt)))
    /\ md !! "day" = Some (VStr (format_02d (day dt)))
    /\ md !! "baseline_algo_version" = Some (VStr t4)
    /\ md !! "relative_orbit" = Some (VStr t5)
    /\ md !! "tile" = Some (VStr t6)
    /\ md !! "product_discriminator" = Some (VStr t7)
    /\ md !! "cloud_cover" = Some (VStr t8)
    /\ md !! "grs_ver" = Some (VStr t9).
Proof.
  intros Hs Hd. unfold metadata. rewrite Hs. cbn [unpack9 rbind].
  rewrite Hd. cbn [rbind].
  eexists. split; [reflexivity|].
  repeat split; reflexivity.
Qed.

End Metadata.

Section MetadataClaims.

Lemma metadata_date_error path t1 t2 t3 t4 t5 t6 t7 t8 t9 e :
  split "_" (basename path) = [t1; t2; t3; t4; t5; t6; t7; t8; t9] ->
  strptime t3 = Raise e ->
  metadata path = Raise e.
Proof.
  intros Hs Hd. unfold metadata. rewrite Hs. cbn [unpack9 rbind].
  now rewrite Hd.
Qed.

(** C1 (as amended): for a basename of nine tokens whose third token is a
    valid timestamp, [metadata] returns a dict in which every positional
    key holds its token, [month] and [day] hold the two month and day
    digits of the token, and [year] holds the year printed with at least
    two digits: the four year digits of the token whenever the first of
    them is not a zero. *)
Theorem metadata_valid_fields path t1 t2 t3 t4 t5 t6 t7 t8 t9 :
  split "_" (basename path) = [t1; t2; t3; t4; t5; t6; t7; t8; t9] ->
  valid_timestamp t3 = true ->
  exists (md : gmap string pyval) (yyyy : string),
    metadata path = Ok md
    /\ md !! "mission" = Some (VStr t1)
    /\ md !! "prod_lvl" = Some (VStr t2)
    /\ md !! "str_date" = Some (VStr t3)
    /\ md !! "baseline_algo_version" = Some (VStr t4)
    /\ md !! "relative_orbit" = Some (VStr t5)
    /\ md !! "tile" = Some (VStr t6)
    /\ md !! "product_discriminator" = Some (VStr t7)
    /\ md !! "cloud_cover" = Some (VStr t8)
    /\ md !! "grs_ver" = Some (VStr t9)
    /\ md !! "pydate" = Some (VDate (fields t3))
    /\ md !! "month" = Some (VStr (substring 4 2 t3))
    /\ md !! "day" = Some (VStr (substring 6 2 t3))
    /\ md !! "year" = Some (VStr yyyy)
    /\ yyyy = format_02d (num (substring 0 4 t3))
    /\ 2 <= String.length yyyy
    /\ (substring 0 1 t3 <> "0" -> yyyy = substring 0 4 t3).
Proof.
  intros Hs Hv.
  destruct (metadata_ok path _ _ _ _ _ _ _ _ _ _ Hs (strptime_valid _ Hv))
    as (md & Hmd & _ & _ & H1 & H2 & H3 & Hp & Hy & Hm & Hd & H4 & H5 & H6
        & H7 & H8 & H9).
  exists md, (format_02d (num (substring 0 4 t3))).
  unfold valid_timestamp in Hv. apply andb_prop in Hv as [Hsh _].
  destruct (shaped_inv _ Hsh)
    as (y1 & y2 & y3 & y4 & m1 & m2 & d1 & d2 & h1 & h2 & n1 & n2 & s1 & s2
        & -> & Hdig).
  repeat match goal with
         | H : Forall _ (_ :: _) |- _ => inversion H; subst; clear H
         | H : Forall _ [] |- _ => clear H
         end.
  repeat (split; [assumption|]).
  split; [|split; [|split; [|split; [|split]]]].
  - rewrite Hm. cbn. now rewrite format_02d_two.
  - rewrite Hd. cbn. now rewrite format_02d_two.
  - exact Hy.
  - reflexivity.
  - apply format_02d_length.
  - cbn. intros Hnz. apply format_02d_four; try assumption.
    intros ->. now apply Hnz.
Qed.

Lemma metadata_valid_fields_witness :
  exists md : gmap string pyval,
    metadata "/root/23KMQ/2021/05/21/S2A_MSIL1C_20210521T131241_N0300_R138_T23KMQ_20210521T163353_cc020_v15.nc"
    = Ok md
    /\ md !! "year" = Some (VStr "2021")
    /\ md !! "month" = Some (VStr "05")
    /\ md !! "day" = Some (VStr "21").
Proof.
  destruct (metadata_valid_fields
              "/root/23KMQ/2021/05/21/S2A_MSIL1C_20210521T131241_N0300_R138_T23KMQ_20210521T163353_cc020_v15.nc"
              "S2A" "MSIL1C" "20210521T131241" "N0300" "R138" "T23KMQ"
              "20210521T163353" "cc020" "v15.nc")
    as (md & yyyy & Hmd & _ & _ & _ & _ & _ & _ & _ & _ & _ & _ & Hm & Hd
        & Hy & Hyy & _).
  - reflexivity.
  - vm_compute. reflexivity.
  - exists md. subst yyyy. repeat split; assumption.
Defined.

(** C1, as stated, fails: on the file name of the specification's own
    example the [year] key holds the four characters "2020", so no dict
    with a two-character year is returned. *)
Lemma metadata_year_not_two_digits :
  let path :=
    "S2B_MSIL1C_20200101T090000_N0209_R065_T31UDQ_20200101T120000_cc015_v14.nc" in
  split "_" (basename path)
  = ["S2B"; "MSIL1C"; "20200101T090000"; "N0209"; "R065"; "T31UDQ";
     "20200101T120000"; "cc015"; "v14.nc"]
  /\ valid_timestamp "20200101T090000" = true
  /\ ~ exists (md : gmap string pyval) (yyyy : string),
         metadata path = Ok md
         /\ md !! "year" = Some (VStr yyyy)
         /\ String.length yyyy = 2.
Proof.
  intros path. split; [reflexivity|]. split; [vm_compute; reflexivity|].
  intros (md & yyyy & Hmd & Hy & Hl).
  destruct (metadata_ok path _ _ _ _ _ _ _ _ _ (mk_datetime 2020 1 1 9 0 0)
              eq_refl ltac:(vm_compute; reflexivity))
    as (md' & Hmd' & _ & _ & _ & _ & _ & _ & Hy' & _).
  rewrite Hmd in Hmd'. injection Hmd' as <-.
  rewrite Hy in Hy'. injection Hy' as ->.
  vm_compute in Hl. discriminate Hl.
Qed.

End MetadataClaims.

Section Tokens.

Lemma free_append c (a b : string) : free c (a +:+ b) = free c a && free c b.
Proof.
  induction a as [|x a IH]; [reflexivity|].
  rewrite append_cons. simpl. rewrite IH. now rewrite andb_assoc.
Qed.

Lemma has_sep_free s : free "/" s = true -> has_sep s = false.
Proof.
  induction s as [|x s IH]; simpl; [reflexivity|].
  intros H. apply andb_prop in H as [Hx Hs].
  apply negb_true_iff in Hx. rewrite Hx. now apply IH.
Qed.

Lemma basename_free s : free "/" s = true -> basename s = s.
Proof.
  destruct s as [|x s]; [reflexivity|]. simpl. intros H.
  apply andb_prop in H as [Hx Hs].
  rewrite (has_sep_free _ Hs). apply negb_true_iff in Hx. now rewrite Hx.
Qed.

Lemma has_sep_append (d f : string) : has_sep (d +:+ String "/" f) = true.
Proof.
  induction d as [|x d IH]; [reflexivity|].
  rewrite append_cons. simpl. rewrite IH. apply orb_true_r.
Qed.

Lemma basename_append (d f : string) :
  free "/" f = true -> basename (d +:+ String "/" f) = f.
Proof.
  intros Hf. induction d as [|x d IH].
  - change ("" +:+ String "/" f) with (String "/" f). simpl.
    now rewrite (has_sep_free _ Hf).
  - rewrite append_cons. simpl. now rewrite has_sep_append.
Qed.

Lemma basename_in_dir dir name :
  free "/" name = true -> basename (in_dir dir name) = name.
Proof.
  destruct dir; simpl; [apply basename_append | apply basename_free].
Qed.

Lemma split_nonempty sep s : split sep s <> [].
Proof.
  induction s as [|x s IH]; simpl; [discriminate|].
  destruct (Ascii.eqb x sep); [discriminate|].
  destruct (split sep s); [contradiction | discriminate].
Qed.

Lemma split_free sep t : free sep t = true -> split sep t = [t].
Proof.
  induction t as [|x t IH]; simpl; [reflexivity|].
  intros H. apply andb_prop in H as [Hx Ht].
  apply negb_true_iff in Hx. rewrite Hx, (IH Ht). reflexivity.
Qed.

Lemma split_append sep (t r : string) :
  free sep t = true -> split sep (t +:+ String sep r) = t :: split sep r.
Proof.
  induction t as [|x t IH]; intros H.
  - change ("" +:+ String sep r) with (String sep r). simpl.
    now rewrite Ascii.eqb_refl.
  - rewrite append_cons. simpl in *. apply andb_prop in H as [Hx Ht].
    apply negb_true_iff in Hx. rewrite Hx, (IH Ht). reflexivity.
Qed.

(** Splitting undoes joining when no token holds the separator. *)
Lemma split_join sep ts :
  ts <> [] -> Forall (fun t => free sep t = true) ts ->
  split sep (join sep ts) = ts.
Proof.
  induction ts as [|t ts IH]; intros Hne Hall; [contradiction|].
  inversion Hall as [|? ? Ht Hts]; subst.
  destruct ts as [|t' ts].
  - simpl. now apply split_free.
  - change (join sep (t :: t' :: ts))
      with (t +:+ String sep (join sep (t' :: ts))).
    rewrite split_append by assumption. f_equal. now apply IH.
Qed.

Lemma free_join c sep ts :
  Ascii.eqb sep c = false -> Forall (fun t => free c t = true) ts ->
  free c (join sep ts) = true.
Proof.
  intros Hsep. induction ts as [|t ts IH]; intros Hall; [reflexivity|].
  inversion Hall as [|? ? Ht Hts]; subst.
  destruct ts as [|t' ts]; [exact Ht|].
  change (join sep (t :: t' :: ts))
    with (t +:+ String sep (join sep (t' :: ts))).
  rewrite free_append, Ht. simpl. rewrite Hsep. simpl. now apply IH.
Qed.

Lemma digit_free c x : is_digit c = true -> is_digit x = false ->
  negb (Ascii.eqb c x) = true.
Proof.
  intros Hc Hx. apply negb_true_iff. destruct (Ascii.eqb c x) eqn:E; [|reflexivity].
  apply Ascii.eqb_eq in E. congruence.
Qed.

(** A token of the timestamp shape holds no ['_'] and no ['/']. *)
Lemma shaped_free s x :
  shaped s = true -> is_digit x = false -> Ascii.eqb "T" x = false ->
  free x s = true.
Proof.
  intros Hs Hx HT.
  destruct (shaped_inv _ Hs)
    as (y1 & y2 & y3 & y4 & m1 & m2 & d1 & d2 & h1 & h2 & n1 & n2 & s1 & s2
        & -> & Hdig).
  repeat match goal with
         | H : Forall _ (_ :: _) |- _ => inversion H; subst; clear H
         | H : Forall _ [] |- _ => clear H
         end.
  cbn [free]. rewrite HT.
  repeat match goal with
         | H : is_digit ?c = true |- context [negb (Ascii.eqb ?c x)] =>
             rewrite (digit_free c x H Hx)
         end.
  reflexivity.
Qed.

End Tokens.

Section ParserClaims.

(** C2: what [metadata] returns on the example file name.  Every key but
    one holds the value the example lists; [grs_ver] holds "v14.nc", the
    ninth token with the file extension still on it. *)
Theorem metadata_example :
  exists md : gmap string pyval,
    metadata
      "S2B_MSIL1C_20200101T090000_N0209_R065_T31UDQ_20200101T120000_cc015_v14.nc"
    = Ok md
    /\ md !! "mission" = Some (VStr "S2B")
    /\ md !! "prod_lvl" = Some (VStr "MSIL1C")
    /\ md !! "str_date" = Some (VStr "20200101T090000")
    /\ md !! "year" = Some (VStr "2020")
    /\ md !! "month" = Some (VStr "01")
    /\ md !! "day" = Some (VStr "01")
    /\ md !! "baseline_algo_version" = Some (VStr "N0209")
    /\ md !! "relative_orbit" = Some (VStr "R065")
    /\ md !! "tile" = Some (VStr "T31UDQ")
    /\ md !! "product_discriminator" = Some (VStr "20200101T120000")
    /\ md !! "cloud_cover" = Some (VStr "cc015")
    /\ md !! "grs_ver" = Some (VStr "v14.nc")
    /\ md !! "grs_ver" <> Some (VStr "v14").
Proof.
  destruct (metadata_ok
    "S2B_MSIL1C_20200101T090000_N0209_R065_T31UDQ_20200101T120000_cc015_v14.nc"
    _ _ _ _ _ _ _ _ _ (mk_datetime 2020 1 1 9 0 0)
    eq_refl ltac:(vm_compute; reflexivity))
    as (md & Hmd & _ & _ & H1 & H2 & H3 & _ & Hy & Hm & Hd & H4 & H5 & H6
        & H7 & H8 & H9).
  exists md. repeat (split; [assumption|]).
  rewrite H9. discriminate.
Qed.

(** C3: a basename that does not split into exactly nine tokens makes
    [metadata] raise the unpacking error, and no dict is returned. *)
Theorem metadata_wrong_token_count path :
  length (split "_" (basename path)) <> 9 ->
  exists e, metadata path = Raise e /\ format_error e = true.
Proof.
  intros H. destruct (unpack9_error _ H) as (e & He & Hf).
  exists e. split; [|assumption]. unfold metadata. now rewrite He.
Qed.

Lemma metadata_wrong_token_count_witness :
  (exists e,
      metadata "/data/S2A_MSIL1C_20210521T131241_N0300_R138_T23KMQ_cc020_v15.nc"
      = Raise e /\ format_error e = true)
  /\ (exists e,
      metadata "S2A_MSIL1C_20210521T131241_N0300_R138_T23KMQ_20210521T163353_cc020_v15_x.nc"
      = Raise e /\ format_error e = true).
Proof.
  split; apply metadata_wrong_token_count; vm_compute; discriminate.
Defined.

(** C4 (as amended): with nine tokens, a third token of ASCII characters
    that is not a lenient timestamp (a four-digit year, then month, day, a
    T in either case, hour, minute and second, each of one or two digits,
    denoting a real date and time) makes [metadata] raise a date-parse
    error. *)
Theorem metadata_bad_date path t1 t2 t3 t4 t5 t6 t7 t8 t9 :
  split "_" (basename path) = [t1; t2; t3; t4; t5; t6; t7; t8; t9] ->
  ascii_only t3 = true ->
  lenient_timestamp t3 = false ->
  exists e, metadata path = Raise e /\ date_parse_error e = true.
Proof.
  intros Hs _ Hl. destruct (strptime t3) as [dt|e] eqn:Hd.
  - apply strptime_lenient in Hd. congruence.
  - exists e. split.
    + eapply metadata_date_error; eassumption.
    + eapply strptime_error; eassumption.
Qed.

Lemma metadata_bad_date_witness :
  exists e,
    metadata "S2A_MSIL1C_20210521_N0300_R138_T23KMQ_20210521T163353_cc020_v15.nc"
    = Raise e /\ date_parse_error e = true.
Proof.
  apply (metadata_bad_date _ "S2A" "MSIL1C" "20210521" "N0300" "R138"
           "T23KMQ" "20210521T163353" "cc020" "v15.nc").
  - reflexivity.
  - reflexivity.
  - vm_compute. reflexivity.
Defined.

(** C4, as stated, fails: a third token with a lower-case t, or with
    one-digit numbers, is not a valid YYYYMMDDTHHMMSS timestamp, yet
    [metadata] returns a dict. *)
Lemma metadata_accepts_invalid_timestamp :
  let path := "S2A_MSIL1C_20200101t090000_N0300_R138_T23KMQ_x_cc020_v15.nc" in
  let path' := "S2A_MSIL1C_2020111T1111_N0300_R138_T23KMQ_x_cc020_v15.nc" in
  nth 2 (split "_" (basename path)) "" = "20200101t090000"
  /\ length (split "_" (basename path)) = 9
  /\ valid_timestamp "20200101t090000" = false
  /\ (exists md, metadata path = Ok md)
  /\ nth 2 (split "_" (basename path')) "" = "2020111T1111"
  /\ length (split "_" (basename path')) = 9
  /\ valid_timestamp "2020111T1111" = false
  /\ (exists md, metadata path' = Ok md).
Proof.
  intros path path'.
  split; [reflexivity|]. split; [reflexivity|].
  split; [vm_compute; reflexivity|].
  split.
  { destruct (metadata_ok path _ _ _ _ _ _ _ _ _ (mk_datetime 2020 1 1 9 0 0)
                eq_refl ltac:(vm_compute; reflexivity)) as (md & H & _).
    now exists md. }
  split; [reflexivity|]. split; [reflexivity|].
  split; [vm_compute; reflexivity|].
  destruct (metadata_ok path' _ _ _ _ _ _ _ _ _ (mk_datetime 2020 11 1 11 1 1)
              eq_refl ltac:(vm_compute; reflexivity)) as (md & H & _).
  now exists md.
Qed.

(** C5: whatever the other eight tokens are, empty ones and ones that
    break their naming convention included, a file name of nine tokens
    with a valid date token is parsed, and every token is stored
    unchecked under its key. *)
Theorem metadata_permissive dir t1 t2 t3 t4 t5 t6 t7 t8 t9 :
  Forall (fun t => free "_" t && free "/" t = true)
         [t1; t2; t4; t5; t6; t7; t8; t9] ->
  valid_timestamp t3 = true ->
  exists md : gmap string pyval,
    metadata (in_dir dir (join "_" [t1; t2; t3; t4; t5; t6; t7; t8; t9]))
    = Ok md
    /\ md !! "mission" = Some (VStr t1)
    /\ md !! "prod_lvl" = Some (VStr t2)
    /\ md !! "baseline_algo_version" = Some (VStr t4)
    /\ md !! "relative_orbit" = Some (VStr t5)
    /\ md !! "tile" = Some (VStr t6)
    /\ md !! "product_discriminator" = Some (VStr t7)
    /\ md !! "cloud_cover" = Some (VStr t8)
    /\ md !! "grs_ver" = Some (VStr t9).
Proof.
  intros Hall Hv.
  pose proof Hv as Hv'. unfold valid_timestamp in Hv'.
  apply andb_prop in Hv' as [Hsh _].
  assert (H_ : Forall (fun t => free "_" t = true)
                 [t1; t2; t3; t4; t5; t6; t7; t8; t9]).
  { repeat match goal with
           | H : Forall _ (_ :: _) |- _ => inversion H; subst; clear H
           | H : _ && _ = true |- _ => apply andb_prop in H as [? ?]
           end.
    repeat constructor; try assumption. now apply shaped_free. }
  assert (Hs : Forall (fun t => free "/" t = true)
                 [t1; t2; t3; t4; t5; t6; t7; t8; t9]).
  { repeat match goal with
           | H : Forall _ (_ :: _) |- _ => inversion H; subst; clear H
           | H : _ && _ = true |- _ => apply andb_prop in H as [? ?]
           end.
    repeat constructor; try assumption. now apply shaped_free. }
  assert (Hsplit :
            split "_" (basename
              (in_dir dir (join "_" [t1; t2; t3; t4; t5; t6; t7; t8; t9])))
            = [t1; t2; t3; t4; t5; t6; t7; t8; t9]).
  { rewrite basename_in_dir by (now apply free_join).
    now apply split_join. }
  destruct (metadata_ok _ _ _ _ _ _ _ _ _ _ _ Hsplit (strptime_valid _ Hv))
    as (md & Hmd & _ & _ & H1 & H2 & _ & _ & _ & _ & _ & H4 & H5 & H6 & H7
        & H8 & H9).
  exists md. repeat (split; [assumption|]). assumption.
Qed.

Lemma metadata_permissive_witness :
  exists md : gmap string pyval,
    metadata "/data/__20200101T090000___T23KMQ__15%_"
    = Ok md
    /\ md !! "mission" = Some (VStr "")
    /\ md !! "cloud_cover" = Some (VStr "15%")
    /\ md !! "grs_ver" = Some (VStr "").
Proof.
  destruct (metadata_permissive (Some "/data") "" "" "20200101T090000" "" ""
              "T23KMQ" "" "15%" "")
    as (md & Hmd & H1 & _ & _ & _ & _ & _ & H8 & H9).
  - repeat constructor.
  - vm_compute. reflexivity.
  - exists md. repeat split; assumption.
Defined.

End ParserClaims.

Section ParserClaims2.

(** C9 (as amended): two paths with the same basename are parsed alike.
    Either both raise the same error, or both return a dict, and the two
    dicts agree on every key except [input_file], which holds the path
    each call was given. *)
Theorem metadata_basename_only p1 p2 :
  basename p1 = basename p2 ->
  (forall e, metadata p1 = Raise e <-> metadata p2 = Raise e)
  /\ (forall md1, metadata p1 = Ok md1 ->
      exists md2, metadata p2 = Ok md2
        /\ delete "input_file" md1 = delete "input_file" md2
        /\ md1 !! "input_file" = Some (VStr p1)
        /\ md2 !! "input_file" = Some (VStr p2)).
Proof.
  intros Hb. unfold metadata. rewrite Hb.
  destruct (unpack9 (split "_" (basename p2)))
    as [[[[[[[[[a b] c] d] e'] f] g] h] i]|e0]; cbn [rbind].
  2: { split; [tauto | discriminate]. }
  destruct (strptime c) as [dt|e0]; cbn [rbind].
  2: { split; [tauto | discriminate]. }
  split; [split; discriminate|].
  intros md1 [= <-]. eexists. split; [reflexivity|].
  split; [|split; reflexivity].
  apply map_eq. intros k.
  destruct (decide (k = "input_file")) as [->|Hk].
  - now rewrite !lookup_delete_eq.
  - rewrite !lookup_delete_ne by congruence.
    rewrite !lookup_insert.
    repeat (case_decide; [reflexivity|]).
    case_decide; [congruence | reflexivity].
Qed.

Lemma metadata_basename_only_witness :
  exists md1 md2 : gmap string pyval,
    metadata "/a/S2B_MSIL1C_20200101T090000_N0209_R065_T31UDQ_x_cc015_v14.nc"
    = Ok md1
    /\ metadata "/b/c/S2B_MSIL1C_20200101T090000_N0209_R065_T31UDQ_x_cc015_v14.nc"
       = Ok md2
    /\ delete "input_file" md1 = delete "input_file" md2.
Proof.
  destruct (metadata_basename_only
              "/a/S2B_MSIL1C_20200101T090000_N0209_R065_T31UDQ_x_cc015_v14.nc"
              "/b/c/S2B_MSIL1C_20200101T090000_N0209_R065_T31UDQ_x_cc015_v14.nc")
    as [_ H].
  - reflexivity.
  - destruct (metadata_ok
                "/a/S2B_MSIL1C_20200101T090000_N0209_R065_T31UDQ_x_cc015_v14.nc"
                _ _ _ _ _ _ _ _ _ (mk_datetime 2020 1 1 9 0 0)
                eq_refl ltac:(vm_compute; reflexivity)) as (md1 & H1 & _).
    destruct (H md1 H1) as (md2 & H2 & Heq & _).
    exists md1, md2. repeat split; assumption.
Defined.

(** C9, as stated, fails: the same file name under two directories gives
    two dicts that differ at the [input_file] key. *)
Lemma metadata_differs_on_input_file :
  let p1 := "/a/S2B_MSIL1C_20200101T090000_N0209_R065_T31UDQ_x_cc015_v14.nc" in
  let p2 := "/b/S2B_MSIL1C_20200101T090000_N0209_R065_T31UDQ_x_cc015_v14.nc" in
  basename p1 = basename p2
  /\ exists md1 md2 : gmap string pyval,
       metadata p1 = Ok md1 /\ metadata p2 = Ok md2
       /\ md1 !! "input_file" <> md2 !! "input_file"
       /\ md1 <> md2.
Proof.
  intros p1 p2. split; [reflexivity|].
  destruct (metadata_ok p1 _ _ _ _ _ _ _ _ _ (mk_datetime 2020 1 1 9 0 0)
              eq_refl ltac:(vm_compute; reflexivity)) as (md1 & H1 & Hi1 & _).
  destruct (metadata_ok p2 _ _ _ _ _ _ _ _ _ (mk_datetime 2020 1 1 9 0 0)
              eq_refl ltac:(vm_compute; reflexivity)) as (md2 & H2 & Hi2 & _).
  exists md1, md2. split; [assumption|]. split; [assumption|].
  assert (Hne : md1 !! "input_file" <> md2 !! "input_file").
  { rewrite Hi1, Hi2. discriminate. }
  split; [assumption|]. intros ->. now apply Hne.
Qed.

(** C10: the date check knows the calendar.  With nine tokens, a third
    token of the fifteen-character digit shape whose numbers are not a
    real date and time of day makes [metadata] raise a date-parse error,
    as a malformed token does. *)
Theorem metadata_calendar_aware path t1 t2 t3 t4 t5 t6 t7 t8 t9 :
  split "_" (basename path) = [t1; t2; t3; t4; t5; t6; t7; t8; t9] ->
  shaped t3 = true ->
  check_fields (fields t3) = false ->
  exists e, metadata path = Raise e /\ date_parse_error e = true.
Proof.
  intros Hs Hsh Hc. destruct (strptime t3) as [dt|e] eqn:Hd.
  - apply (strptime_shaped_sound _ _ Hsh) in Hd as [_ Hd]. congruence.
  - exists e. split.
    + eapply metadata_date_error; eassumption.
    + eapply strptime_error; eassumption.
Qed.

Lemma metadata_calendar_aware_witness :
  (exists e,
      metadata "S2A_MSIL1C_20211321T131241_N0300_R138_T23KMQ_x_cc020_v15.nc"
      = Raise e /\ date_parse_error e = true)
  /\ (exists e,
      metadata "S2A_MSIL1C_20210230T131241_N0300_R138_T23KMQ_x_cc020_v15.nc"
      = Raise e /\ date_parse_error e = true)
  /\ (exists e,
      metadata "S2A_MSIL1C_20210521T251241_N0300_R138_T23KMQ_x_cc020_v15.nc"
      = Raise e /\ date_parse_error e = true).
Proof.
  split; [|split].
  - apply (metadata_calendar_aware _ "S2A" "MSIL1C" "20211321T131241" "N0300"
             "R138" "T23KMQ" "x" "cc020" "v15.nc");
      [reflexivity | vm_compute; reflexivity | vm_compute; reflexivity].
  - apply (metadata_calendar_aware _ "S2A" "MSIL1C" "20210230T131241" "N0300"
             "R138" "T23KMQ" "x" "cc020" "v15.nc");
      [reflexivity | vm_compute; reflexivity | vm_compute; reflexivity].
  - apply (metadata_calendar_aware _ "S2A" "MSIL1C" "20210521T251241" "N0300"
             "R138" "T23KMQ" "x" "cc020" "v15.nc");
      [reflexivity | vm_compute; reflexivity | vm_compute; reflexivity].
Defined.

End ParserClaims2.

(** * [Raster.array2tiff] and [Raster.reproj] *)

Import Raster.

Section Runs.
Context {sample affine extent : Type} {L : @Library sample affine extent}.

Local Abbreviation world := (@Raster.world sample affine extent).
Local Abbreviation M := (@Raster.M sample affine extent).
Local Abbreviation handle_obj := (@Raster.handle_obj sample affine).
Local Abbreviation call := (@Raster.call sample affine extent).
Local Abbreviation meta := (@Raster.meta affine).

Lemma bind_ok {A B} (m : M A) (k : A -> M B)
    (w w' : world) a :
  m w = (Ok a, w') -> (m ≫= k) w = k a w'.
Proof. intros H. unfold mbind, M_bind. now rewrite H. Qed.

Lemma bind_raise {A B} (m : M A) (k : A -> M B)
    (w w' : world) e :
  m w = (Raise e, w') -> (m ≫= k) w = (Raise e, w').
Proof. intros H. unfold mbind, M_bind. now rewrite H. Qed.

Lemma run_invoke c what (w : world) :
  fails c = false -> invoke c what w = (Ok tt, logged c w).
Proof. intros H. unfold invoke. now rewrite (bind_ok _ _ w (logged c w) tt), H. Qed.

Lemma run_invoke_fails c what (w : world) :
  fails c = true -> invoke c what w = (Raise (LibraryError what), logged c w).
Proof. intros H. unfold invoke. now rewrite (bind_ok _ _ w (logged c w) tt), H. Qed.

Lemma run_attempt c what (work : M unit) (w : world) :
  fails c = false -> attempt c what work w = work (logged c w).
Proof.
  intros H. unfold attempt. now rewrite (bind_ok _ _ w (logged c w) tt), H.
Qed.

Lemma run_attempt_raises c what (work : M unit) (w : world) :
  fails c = true -> raises c = true ->
  attempt c what work w = (Raise (LibraryError what), logged c w).
Proof.
  intros H R. unfold attempt.
  now rewrite (bind_ok _ _ w (logged c w) tt), H, R.
Qed.


Lemma run_lookup_handle h o (w : world) :
  handles w !! h = Some o -> lookup_handle h w = (Ok o, w).
Proof. intros H. unfold lookup_handle. now rewrite H. Qed.

Lemma handles_logged c (w : world) :
  handles (logged c w) = handles w.
Proof. reflexivity. Qed.

Lemma handles_opened h o (w : world) :
  handles (opened h o w) = <[h := o]> (handles w).
Proof. reflexivity. Qed.

Lemma fresh_handle (w : world) :
  handles w !! fresh (dom (handles w)) = None.
Proof. apply not_elem_of_dom, is_fresh. Qed.

Lemma run_set_meta h o f (w : world) :
  handles w !! h = Some o ->
  set_meta h f w
  = (Ok tt, opened h (set_ds o (mk_dataset (f (ds_meta (h_ds o)))
                                   (ds_options (h_ds o)) (ds_bands (h_ds o))))
              w).
Proof.
  intros H. unfold set_meta.
  now rewrite (bind_ok _ _ w w o) by now apply run_lookup_handle.
Qed.

Lemma run_GetDriverByName name (w : world) :
  fails (GetDriverByName name) = false ->
  gdal_GetDriverByName name w
  = (Ok (Some name), logged (GetDriverByName name) w).
Proof. intros H. unfold gdal_GetDriverByName. now rewrite H. Qed.

Lemma run_Create d path xsize ysize bands t options (w : world) :
  fails (Create path xsize ysize bands t options) = false ->
  Driver_Create (Some d) path xsize ysize bands t options w
  = (Ok (Some (fresh (dom (handles w)))),
     opened (fresh (dom (handles w)))
       (mk_handle path true
          (mk_dataset (mk_meta d t None xsize ysize bands None None) options
             (replicate bands (blank ysize xsize))))
       (unlinked path (logged (Create path xsize ysize bands t options) w))).
Proof. intros H. unfold Driver_Create. now rewrite H. Qed.

Lemma run_GetRasterBand h i (o : handle_obj) (w : world) :
  handles w !! h = Some o ->
  1 <= i <= count (ds_meta (h_ds o)) ->
  Dataset_GetRasterBand (Some h) i w = (Ok (Some (h, i)), w).
Proof.
  intros H [H1 H2]. unfold Dataset_GetRasterBand.
  rewrite (bind_ok _ _ w w o) by now apply run_lookup_handle.
  apply Nat.leb_le in H1, H2. now rewrite H1, H2.
Qed.

Lemma run_WriteArray h i a (o : handle_obj) old (w : world) :
  handles w !! h = Some o ->
  shape a = [height (ds_meta (h_ds o)); width (ds_meta (h_ds o))] ->
  band_lookup (ds_bands (h_ds o)) i = Some old ->
  fails (WriteArray h i a) = false ->
  Band_WriteArray (Some (h, i)) a w
  = (Ok tt,
     opened h (set_ds o (mk_dataset (ds_meta (h_ds o)) (ds_options (h_ds o))
                           (band_store (ds_bands (h_ds o)) i a)))
       (logged (WriteArray h i a) w)).
Proof.
  intros H Hs Hb Hf. unfold Band_WriteArray.
  rewrite (bind_ok _ _ w w o) by now apply run_lookup_handle.
  rewrite Hs, !Nat.leb_refl. cbn [andb].
  rewrite run_attempt by exact Hf.
  now rewrite Hb, !Nat.eqb_refl.
Qed.

Lemma run_SetNoDataValue h i v (o : handle_obj) (w : world) :
  handles w !! h = Some o -> fails (SetNoDataValue h i v) = false ->
  Band_SetNoDataValue (Some (h, i)) v w
  = (Ok tt,
     let m := ds_meta (h_ds o) in
     opened h (set_ds o (mk_dataset
                           (mk_meta (driver m) (dtype m) (Some v) (width m)
                              (height m) (count m) (crs m) (transform m))
                           (ds_options (h_ds o)) (ds_bands (h_ds o))))
       (logged (SetNoDataValue h i v) w)).
Proof.
  intros H Hf. unfold Band_SetNoDataValue.
  rewrite run_attempt by exact Hf.
  now rewrite (run_set_meta h o).
Qed.

Lemma run_SetGeoTransform h t (o : handle_obj) (w : world) :
  handles w !! h = Some o -> fails (SetGeoTransform h t) = false ->
  Dataset_SetGeoTransform (Some h) t w
  = (Ok tt,
     let m := ds_meta (h_ds o) in
     opened h (set_ds o (mk_dataset
                           (mk_meta (driver m) (dtype m) (nodata m) (width m)
                              (height m) (count m) (crs m) (Some t))
                           (ds_options (h_ds o)) (ds_bands (h_ds o))))
       (logged (SetGeoTransform h t) w)).
Proof.
  intros H Hf. unfold Dataset_SetGeoTransform.
  rewrite run_attempt by exact Hf.
  now rewrite (run_set_meta h o).
Qed.

Lemma run_SetProjection h p (o : handle_obj) (w : world) :
  handles w !! h = Some o -> fails (SetProjection h p) = false ->
  Dataset_SetProjection (Some h) p w
  = (Ok tt,
     let m := ds_meta (h_ds o) in
     opened h (set_ds o (mk_dataset
                           (mk_meta (driver m) (dtype m) (nodata m) (width m)
                              (height m) (count m) (Some p) (transform m))
                           (ds_options (h_ds o)) (ds_bands (h_ds o))))
       (logged (SetProjection h p) w)).
Proof.
  intros H Hf. unfold Dataset_SetProjection.
  rewrite run_attempt by exact Hf.
  now rewrite (run_set_meta h o).
Qed.

Lemma run_dereference h (w : world) :
  fails (Dereference h) = false ->
  dereference (Some h) w = (Ok tt, closed h (logged (Dereference h) w)).
Proof.
  intros H. unfold dereference.
  now rewrite (bind_ok _ _ w (logged (Dereference h) w) tt), H.
Qed.


Lemma lookup_opened h o (w : world) : handles (opened h o w) !! h = Some o.
Proof. apply lookup_insert_eq. Qed.

Lemma lookup_opened_logged h o c (w : world) :
  handles (logged c (opened h o w)) !! h = Some o.
Proof. apply lookup_insert_eq. Qed.

End Runs.

Section Writer.
Context {sample affine extent : Type} {L : @Library sample affine extent}.

Local Abbreviation world := (@Raster.world sample affine extent).
Local Abbreviation ndarray := (@Raster.ndarray sample).

Local Ltac simp :=
  cbn [set_ds h_ds h_path h_writable ds_meta ds_options ds_bands band_store
       replicate driver dtype nodata width height count crs transform
       handles files trace logged opened unlinked].

Lemma run_WriteArray_fails h i a (o : @handle_obj sample affine) (w : world) :
  handles w !! h = Some o ->
  shape a = [height (ds_meta (h_ds o)); width (ds_meta (h_ds o))] ->
  fails (WriteArray h i a) = true ->
  raises (WriteArray h i a) = true ->
  Band_WriteArray (Some (h, i)) a w
  = (Raise (LibraryError "WriteArray"), logged (WriteArray h i a) w).
Proof.
  intros H Hs Hf Hr. unfold Band_WriteArray.
  rewrite (bind_ok _ _ w w o) by now apply run_lookup_handle.
  rewrite Hs, !Nat.leb_refl. cbn [andb].
  now apply run_attempt_raises.
Qed.

(** C7: when no library call fails, [array2tiff] on a two-dimensional grid
    leaves at the output path a raster of one band and pixel type
    [GDT_Float32], as wide as the grid has columns and as high as it has
    rows, whose band 1 holds the grid, whose no-data value is [no_data]
    (-1 when omitted), with the given geotransform and projection and the
    [compression] creation option (COMPRESS=PACKBITS when omitted). *)
Theorem array2tiff_writes (ndarray_data : ndarray) rows cols path
    (t : affine) projection no_data compression (w : world) :
  shape ndarray_data = [rows; cols] ->
  (forall c, fails c = false) ->
  exists w',
    array2tiff ndarray_data path t projection no_data compression w
    = (Ok tt, w')
    /\ files w' !! path
       = Some (mk_dataset
                 (mk_meta "GTiff" GDT_Float32 (Some (default (-1)%Z no_data))
                    cols rows 1 (Some projection) (Some t))
                 [default "COMPRESS=PACKBITS" compression]
                 [ndarray_data])
    /\ handles w' = handles w.
Proof.
  intros Hshape Hok. unfold array2tiff.
  erewrite bind_ok by (apply run_GetDriverByName, Hok).
  rewrite Hshape.
  erewrite bind_ok by reflexivity. cbv beta iota.
  erewrite bind_ok by (apply run_Create, Hok).
  rewrite handles_logged. set (h := fresh (dom (handles w))).
  erewrite bind_ok
    by (eapply run_GetRasterBand; [apply lookup_opened | cbn; lia]).
  erewrite bind_ok.
  2:{ eapply run_WriteArray; [apply lookup_opened | | | apply Hok].
      - cbn. exact Hshape.
      - reflexivity. }
  simp.
  erewrite bind_ok
    by (eapply run_GetRasterBand; [apply lookup_opened | cbn; lia]).
  erewrite bind_ok
    by (eapply run_SetNoDataValue; [apply lookup_opened | apply Hok]).
  simp.
  erewrite bind_ok
    by (eapply run_SetGeoTransform; [apply lookup_opened | apply Hok]).
  simp.
  erewrite bind_ok
    by (eapply run_SetProjection; [apply lookup_opened | apply Hok]).
  simp.
  rewrite run_dereference by apply Hok.
  eexists. split; [reflexivity|].
  unfold closed. rewrite lookup_opened_logged. simp.
  split.
  - apply lookup_insert_eq.
  - rewrite !delete_insert_eq. apply delete_id, fresh_handle.
Qed.

(** The writer's error path: when the file has been created and writing
    the array then fails with an exception, [array2tiff] ends with the
    exception and the dataset handle it opened is still open; nothing was
    flushed to the output path. *)
Lemma array2tiff_error_run (ndarray_data : ndarray) rows cols path
    (t : affine) projection no_data compression (w : world) :
  shape ndarray_data = [rows; cols] ->
  fails (GetDriverByName "GTiff") = false ->
  (forall opts, fails (Create path cols rows 1 GDT_Float32 opts) = false) ->
  (forall h, fails (WriteArray h 1 ndarray_data) = true) ->
  (forall h, raises (WriteArray h 1 ndarray_data) = true) ->
  exists e w' h,
    array2tiff ndarray_data path t projection no_data compression w
    = (Raise e, w')
    /\ handles w !! h = None
    /\ is_Some (handles w' !! h)
    /\ files w' = delete path (files w).
Proof.
  intros Hshape Hd Hc Hw Hr. unfold array2tiff.
  erewrite bind_ok by (apply run_GetDriverByName, Hd).
  rewrite Hshape.
  erewrite bind_ok by reflexivity. cbv beta iota.
  erewrite bind_ok by (apply run_Create, Hc).
  rewrite handles_logged. set (h := fresh (dom (handles w))).
  erewrite bind_ok
    by (eapply run_GetRasterBand; [apply lookup_opened | cbn; lia]).
  erewrite bind_raise.
  2:{ eapply run_WriteArray_fails;
        [apply lookup_opened | | apply Hw | apply Hr].
      cbn. exact Hshape. }
  eexists _, _, h. split; [reflexivity|].
  split; [apply fresh_handle|]. split; [|reflexivity].
  simp. rewrite lookup_insert_eq. eauto.
Qed.

End Writer.

Lemma array2tiff_writes_witness :
  exists w',
    array2tiff (L := quiet) grid_2x3 "out.tif" [0; 30; 0; 0; 0; -30]%Z
      "EPSG:32723" None None empty_world
    = (Ok tt, w')
    /\ files w' !! "out.tif"
       = Some (mk_dataset
                 (mk_meta "GTiff" GDT_Float32 (Some (-1)%Z) 3 2 1
                    (Some "EPSG:32723") (Some [0; 30; 0; 0; 0; -30]%Z))
                 ["COMPRESS=PACKBITS"] [grid_2x3])
    /\ handles w' = handles empty_world.
Proof.
  apply (array2tiff_writes (L := quiet) grid_2x3 2 3).
  - reflexivity.
  - reflexivity.
Defined.

(** C8: [array2tiff] run where writing the pixel data fails after the
    file was created.  The call ends with the exception, and the handle it
    opened, free before the call, is still open after it; nothing reached
    the output path. *)
Theorem array2tiff_handle_left_open :
  exists e w' h,
    array2tiff (L := disk_full) grid_2x3 "out.tif" [0; 30; 0; 0; 0; -30]%Z
      "EPSG:32723" None None empty_world
    = (Raise e, w')
    /\ handles empty_world !! h = None
    /\ is_Some (handles w' !! h)
    /\ files w' !! "out.tif" = None.
Proof.
  destruct (array2tiff_error_run (L := disk_full) grid_2x3 2 3 "out.tif"
              [0; 30; 0; 0; 0; -30]%Z "EPSG:32723" None None empty_world)
    as (e & w' & h & Hrun & Hfree & Hopen & Hfiles); try reflexivity.
  exists e, w', h. rewrite Hfiles. repeat split; assumption.
Qed.

Section Reprojector.
Context {sample affine extent : Type} {L : @Library sample affine extent}.

Local Abbreviation world := (@Raster.world sample affine extent).
Local Abbreviation M := (@Raster.M sample affine extent).
Local Abbreviation handle_obj := (@Raster.handle_obj sample affine).
Local Abbreviation dataset := (@Raster.dataset sample affine).
Local Abbreviation meta := (@Raster.meta affine).
Local Abbreviation call := (@Raster.call sample affine extent).

Local Ltac simp :=
  cbn [set_ds h_ds h_path h_writable ds_meta ds_options ds_bands band_store
       driver dtype nodata width height count crs transform
       handles files trace logged opened unlinked].

Lemma run_open_read path d (w : world) :
  fails (rasterio_open path "r" None) = false ->
  files w !! path = Some d ->
  rasterio_open_ path "r" None w
  = (Ok (fresh (dom (handles w))),
     opened (fresh (dom (handles w))) (mk_handle path false d)
       (logged (rasterio_open path "r" None) w)).
Proof.
  intros Hf Hd. unfold rasterio_open_.
  rewrite (bind_ok _ _ w (logged (rasterio_open path "r" None) w) tt)
    by now apply run_invoke.
  simp. now rewrite Hd.
Qed.

Lemma run_open_write path (k : meta) (w : world) :
  fails (rasterio_open path "w" (Some k)) = false ->
  rasterio_open_ path "w" (Some k) w
  = (Ok (fresh (dom (handles w))),
     opened (fresh (dom (handles w)))
       (mk_handle path true
          (mk_dataset k [] (replicate (count k) (blank (height k) (width k)))))
       (logged (rasterio_open path "w" (Some k)) w)).
Proof.
  intros Hf. unfold rasterio_open_.
  now rewrite (bind_ok _ _ w (logged (rasterio_open path "w" (Some k)) w) tt)
    by now apply run_invoke.
Qed.

Lemma run_with {A} (enter : M nat) (body : nat -> M A) (w w1 w2 : world) h r :
  enter w = (Ok h, w1) -> body h w1 = (r, w2) ->
  with_ enter body w = (r, closed h (logged (dataset_exit h) w2)).
Proof. intros He Hb. unfold with_. now rewrite He, Hb. Qed.

Lemma run_reproject src i dst j st sc dt dc r (so d : handle_obj) sb db
    (w : world) :
  fails (reproject src i dst j st sc dt dc r) = false ->
  handles w !! src = Some so ->
  handles w !! dst = Some d ->
  band_lookup (ds_bands (h_ds so)) i = Some sb ->
  band_lookup (ds_bands (h_ds d)) j = Some db ->
  reproject_ src i dst j st sc dt dc r w
  = (Ok tt,
     opened dst
       (set_ds d (mk_dataset (ds_meta (h_ds d)) (ds_options (h_ds d))
                    (band_store (ds_bands (h_ds d)) j
                       (warp r st sc dt dc sb db))))
       (logged (reproject src i dst j st sc dt dc r) w)).
Proof.
  intros Hf Hs Hd Hsb Hdb. unfold reproject_.
  rewrite (bind_ok _ _ w (logged (reproject src i dst j st sc dt dc r) w) tt)
    by now apply run_invoke.
  erewrite bind_ok by (apply run_lookup_handle; exact Hs).
  erewrite bind_ok by (apply run_lookup_handle; exact Hd).
  now rewrite Hsb, Hdb.
Qed.

(** The band loop, started after band [k] with [m] bands to go. *)
Lemma run_band_loop src dst st sc dt dc (so : handle_obj) m :
  src <> dst ->
  (forall c, fails c = false) ->
  forall k (d : handle_obj) (w : world),
    handles w !! src = Some so ->
    handles w !! dst = Some d ->
    k + m <= length (ds_bands (h_ds so)) ->
    k + m <= length (ds_bands (h_ds d)) ->
    exists (w' : world) (d' : handle_obj),
      for_ (seq (S k) m)
        (fun i => reproject_ src i dst i st sc dt dc nearest) w
      = (Ok tt, w')
      /\ handles w' = <[dst := d']> (handles w)
      /\ files w' = files w
      /\ trace w'
         = trace w
           ++ map (fun i => reproject src i dst i st sc dt dc nearest)
                (seq (S k) m)
      /\ h_path d' = h_path d
      /\ h_writable d' = h_writable d
      /\ ds_meta (h_ds d') = ds_meta (h_ds d)
      /\ length (ds_bands (h_ds d')) = length (ds_bands (h_ds d))
      /\ forall j,
           ds_bands (h_ds d') !! j
           = if decide (k <= j < k + m)
             then sb ← ds_bands (h_ds so) !! j;
                  db ← ds_bands (h_ds d) !! j;
                  Some (warp nearest st sc dt dc sb db)
             else ds_bands (h_ds d) !! j.
Proof.
  intros Hne Hok. induction m as [|m IH]; intros k d w Hs Hd Hls Hld.
  - exists w, d. cbn [seq for_ map].
    split; [reflexivity|]. split; [now rewrite insert_id|].
    split; [reflexivity|]. split; [now rewrite app_nil_r|].
    repeat (split; [reflexivity|]).
    intros j. case_decide; [lia | reflexivity].
  - destruct (lookup_lt_is_Some_2 (ds_bands (h_ds so)) k) as [sb Hsb]; [lia|].
    destruct (lookup_lt_is_Some_2 (ds_bands (h_ds d)) k) as [db Hdb]; [lia|].
    cbn [seq for_].
    erewrite bind_ok
      by (eapply run_reproject; [apply Hok | exact Hs | exact Hd
                                | exact Hsb | exact Hdb]).
    set (d1 := set_ds d _). set (w1 := opened dst d1 _).
    destruct (IH (S k) d1 w1) as (w' & d' & Hrun & Hh & Hf & Ht & Hp & Hw
                                  & Hm & Hl & Hb).
    + subst w1. simp. now rewrite lookup_insert_ne.
    + subst w1. simp. now rewrite lookup_insert_eq.
    + lia.
    + subst d1. simp. rewrite length_insert. lia.
    + exists w', d'. split; [exact Hrun|].
      split; [rewrite Hh; subst w1; simp; now rewrite insert_insert_eq|].
      split; [rewrite Hf; reflexivity|].
      split; [rewrite Ht; subst w1; simp; cbn [map];
              now rewrite <- app_assoc|].
      split; [rewrite Hp; reflexivity|]. split; [rewrite Hw; reflexivity|].
      split; [rewrite Hm; reflexivity|].
      split; [rewrite Hl; subst d1; simp; now rewrite length_insert|].
      intros j. rewrite Hb. subst d1. simp.
      destruct (decide (j = k)) as [->|Hjk].
      * rewrite list_lookup_insert_eq by (apply lookup_lt_is_Some_1; eauto).
        case_decide; [lia|]. case_decide; [|lia].
        rewrite Hsb, Hdb. reflexivity.
      * rewrite list_lookup_insert_ne by congruence.
        repeat case_decide; try lia; reflexivity.
Qed.

End Reprojector.

Section ReprojectorRun.
Context {sample affine extent : Type} {L : @Library sample affine extent}.

Local Abbreviation world := (@Raster.world sample affine extent).
Local Abbreviation M := (@Raster.M sample affine extent).
Local Abbreviation handle_obj := (@Raster.handle_obj sample affine).
Local Abbreviation dataset := (@Raster.dataset sample affine).
Local Abbreviation meta := (@Raster.meta affine).
Local Abbreviation call := (@Raster.call sample affine extent).

Local Ltac simp :=
  cbn [set_ds h_ds h_path h_writable ds_meta ds_options ds_bands band_store
       driver dtype nodata width height count crs transform
       handles files trace logged opened unlinked].

Lemma run_calculate_default_transform sc tc wd ht b (w : world) :
  fails (calculate_default_transform sc tc wd ht b) = false ->
  calculate_default_transform_ sc tc wd ht b w
  = (Ok (default_transform sc tc wd ht b),
     logged (calculate_default_transform sc tc wd ht b) w).
Proof.
  intros Hf. unfold calculate_default_transform_.
  now rewrite (bind_ok _ _ w
                 (logged (calculate_default_transform sc tc wd ht b) w) tt)
    by now apply run_invoke.
Qed.

Lemma closed_open h (o : handle_obj) (w : world) :
  handles w !! h = Some o ->
  closed h w
  = mk_world (delete h (handles w))
      (if h_writable o then <[h_path o := h_ds o]> (files w) else files w)
      (trace w).
Proof. intros H. unfold closed. now rewrite H. Qed.

Lemma reproject_calls_app (t1 t2 : list call) :
  reproject_calls (t1 ++ t2) = reproject_calls t1 ++ reproject_calls t2.
Proof. apply omap_app. Qed.

Lemma reproject_calls_loop src dst (st : option affine) sc (dt : affine) dc r
    (l : list nat) :
  reproject_calls
    (map (fun i => (reproject src i dst i st sc dt dc r : call)) l)
  = map (fun i => (i, i, r)) l.
Proof. induction l as [|i l IH]; [reflexivity|]. cbn. now f_equal. Qed.

(** C6: when no library call fails, [reproj] on a source raster of [n]
    bands calls [reproject] for the band indices 1, 2, ..., [n] in that
    order, every time from source band [i] to destination band [i] and
    with nearest-neighbour resampling; the raster left at the output path
    has [n] bands, and its band [i] is source band [i] warped. *)
Theorem reproj_bands in_raster out_raster target_crs (src : dataset)
    (w : world) :
  files w !! in_raster = Some src ->
  length (ds_bands src) = count (ds_meta src) ->
  (forall c, fails c = false) ->
  exists (w' : world) (evs : list call) (dst : dataset) T W H,
    default_transform (crs (ds_meta src)) (default "EPSG:4326" target_crs)
      (width (ds_meta src)) (height (ds_meta src)) (bounds_of (ds_meta src))
    = (T, W, H)
    /\ reproj in_raster out_raster target_crs w = (Ok tt, w')
    /\ trace w' = trace w ++ evs
    /\ reproject_calls evs
       = map (fun i => (i, i, nearest)) (seq 1 (count (ds_meta src)))
    /\ files w' !! out_raster = Some dst
    /\ count (ds_meta dst) = count (ds_meta src)
    /\ length (ds_bands dst) = count (ds_meta src)
    /\ (forall i, 1 <= i <= count (ds_meta src) ->
        exists sb,
          band_lookup (ds_bands src) i = Some sb
          /\ band_lookup (ds_bands dst) i
             = Some (warp nearest (transform (ds_meta src))
                       (crs (ds_meta src)) T
                       (default "EPSG:4326" target_crs) sb (blank H W)))
    /\ handles w' = handles w.
Proof.
  intros Hfile Hlen Hok. unfold reproj.
  set (tc := default "EPSG:4326" target_crs).
  set (sm := ds_meta src).
  destruct (default_transform (crs sm) tc (width sm) (height sm)
              (bounds_of sm)) as [[T W] H] eqn:Hdt.
  set (h1 := fresh (dom (handles w))).
  set (so := mk_handle in_raster false src).
  set (w1 := opened h1 so (logged (rasterio_open in_raster "r" None) w)).
  set (w2 := logged (calculate_default_transform (crs sm) tc (width sm)
                       (height sm) (bounds_of sm)) w1).
  set (kwargs := mk_meta (driver sm) (dtype sm) (nodata sm) W H (count sm)
                   (Some tc) (Some T)).
  set (h2 := fresh (dom (handles w2))).
  set (d0 := mk_handle out_raster true
               (mk_dataset kwargs []
                  (replicate (count kwargs)
                     (blank (height kwargs) (width kwargs))))).
  set (w3 := opened h2 d0 (logged (rasterio_open out_raster "w" (Some kwargs)) w2)).
  assert (Hne : h1 <> h2).
  { intros E. pose proof (fresh_handle w2) as Hf. fold h2 in Hf.
    rewrite <- E in Hf. subst w2 w1. cbn [handles logged opened] in Hf.
    rewrite lookup_insert_eq in Hf. discriminate. }
  destruct (run_band_loop h1 h2 (transform sm) (crs sm) T tc so (count sm)
              Hne Hok 0 d0 w3)
    as (w4 & d' & Hrun & Hh & Hf & Ht & Hp & Hw & Hm & Hl & Hb).
  { subst w3 w2 w1. simp. rewrite lookup_insert_ne by congruence.
    apply lookup_insert_eq. }
  { subst w3. simp. apply lookup_insert_eq. }
  { subst so. simp. unfold sm. lia. }
  { subst d0 kwargs. simp. rewrite length_replicate. lia. }
  assert (Hbody :
    with_ (rasterio_open_ in_raster "r" None)
      (fun src0 =>
         s ← lookup_handle src0;
         let sm := ds_meta (h_ds s) in
         let src_crs := crs sm in
         let src_transform := transform sm in
         let src_count := count sm in
         '(transform, width, height) ←
           calculate_default_transform_ src_crs tc (Raster.width sm)
             (Raster.height sm) (bounds_of sm);
         let kwargs :=
           mk_meta (driver sm) (dtype sm) (nodata sm) width height (count sm)
             (Some tc) (Some transform) in
         with_ (rasterio_open_ out_raster "w" (Some kwargs))
           (fun dst =>
              for_ (range 1 (src_count + 1))
                (fun i =>
                   reproject_ src0 i dst i src_transform src_crs transform tc
                     nearest))) w
    = (Ok tt,
       closed h1 (logged (dataset_exit h1)
                    (closed h2 (logged (dataset_exit h2) w4))))).
  { eapply run_with; [apply run_open_read; [apply Hok | exact Hfile]|].
    fold h1 so w1.
    erewrite bind_ok by (apply run_lookup_handle, lookup_opened).
    cbv zeta. change (ds_meta (h_ds so)) with sm.
    erewrite bind_ok by (apply run_calculate_default_transform, Hok).
    rewrite Hdt. cbv beta iota. fold kwargs.
    eapply run_with; [apply run_open_write, Hok|].
    fold w2 h2 d0 w3. unfold range. rewrite Nat.add_sub. exact Hrun. }
  erewrite bind_ok by exact Hbody. clear Hbody.
  assert (Hh2 : handles w2 !! h2 = None) by apply fresh_handle.
  assert (Hh1 : handles w !! h1 = None) by apply fresh_handle.
  assert (H3 : handles w3 = <[h2 := d0]> (<[h1 := so]> (handles w)))
    by reflexivity.
  assert (Hc2 : closed h2 (logged (dataset_exit h2) w4)
                = mk_world (<[h1 := so]> (handles w))
                    (<[out_raster := h_ds d']> (files w))
                    (trace w4 ++ [dataset_exit h2])).
  { erewrite (closed_open h2 d')
      by (cbn [handles logged]; rewrite Hh; apply lookup_insert_eq).
    cbn [handles files trace logged]. rewrite Hw, Hp, Hh, Hf, H3.
    cbn [h_writable h_path d0].
    rewrite !delete_insert_eq, delete_id by exact Hh2. reflexivity. }
  rewrite Hc2. clear Hc2.
  erewrite (closed_open h1 so) by apply lookup_insert_eq.
  cbn [handles files trace logged h_writable so].
  rewrite delete_insert_eq, delete_id by exact Hh1.
  exists (mk_world (handles w) (<[out_raster := h_ds d']> (files w))
            (((trace w4 ++ [dataset_exit h2]) ++ [dataset_exit h1])
             ++ [print ("Done: " +:+ out_raster)])),
    ([rasterio_open in_raster "r" None;
      calculate_default_transform (crs sm) tc (width sm) (height sm)
        (bounds_of sm);
      rasterio_open out_raster "w" (Some kwargs)]
     ++ map (fun i => reproject h1 i h2 i (transform sm) (crs sm) T tc nearest)
          (seq 1 (count sm))
     ++ [dataset_exit h2; dataset_exit h1; print ("Done: " +:+ out_raster)]),
    (h_ds d'), T, W, H.
  split; [reflexivity|]. split; [reflexivity|].
  split.
  { cbn [trace]. rewrite Ht. subst w3 w2 w1. cbn [trace logged opened].
    rewrite <- !app_assoc. reflexivity. }
  split.
  { rewrite !reproject_calls_app, reproject_calls_loop.
    change (reproject_calls [dataset_exit h2; dataset_exit h1;
                             print ("Done: " +:+ out_raster)])
      with (@nil (nat * nat * Resampling)).
    now rewrite app_nil_r. }
  split; [apply lookup_insert_eq|].
  split; [now rewrite Hm|].
  split.
  { rewrite Hl. subst d0. cbn [h_ds ds_bands]. apply length_replicate. }
  split; [|reflexivity].
  intros [|j] [Hi1 Hi2]; [lia|]. cbn [band_lookup].
  destruct (lookup_lt_is_Some_2 (ds_bands src) j) as [sb Hsb];
    [unfold sm in Hi2; lia|].
  exists sb. split; [exact Hsb|].
  rewrite Hb. case_decide; [|lia].
  change (ds_bands (h_ds so)) with (ds_bands src). rewrite Hsb.
  subst d0. cbn [h_ds ds_bands mbind option_bind].
  rewrite lookup_replicate_2 by (cbn; lia). reflexivity.
Qed.

End ReprojectorRun.

Lemma reproj_bands_witness :
  exists w',
    reproj (L := quiet) "in.tif" "out.tif" None world_with_input = (Ok tt, w')
    /\ reproject_calls (trace w') = [(1, 1, nearest); (2, 2, nearest)]
    /\ (exists dst, files w' !! "out.tif" = Some dst
                    /\ length (ds_bands dst) = 2).
Proof.
  destruct (reproj_bands (L := quiet) "in.tif" "out.tif" None two_bands
              world_with_input)
    as (w' & evs & dst & T & W & H & _ & Hrun & Ht & Hc & Hf & _ & Hl & _).
  - reflexivity.
  - reflexivity.
  - reflexivity.
  - exists w'. split; [exact Hrun|]. split.
    + rewrite Ht. exact Hc.
    + exists dst. split; assumption.
Defined.

Section Release.
Context {sample affine extent : Type} {L : @Library sample affine extent}.

Local Abbreviation world := (@Raster.world sample affine extent).
Local Abbreviation M := (@Raster.M sample affine extent).
Local Abbreviation handle_obj := (@Raster.handle_obj sample affine).
Local Abbreviation call := (@Raster.call sample affine extent).
Local Abbreviation meta := (@Raster.meta affine).
Local Abbreviation frames := (@Raster.frames sample affine extent _).

Lemma frames_ret {A} hs (a : A) : frames hs (mret a : M A).
Proof. intros w k _. reflexivity. Qed.

Lemma frames_raise {A} hs e : frames hs (raise e : M A).
Proof. intros w k _. reflexivity. Qed.

Lemma frames_bind {A B} hs (m : M A) (f : A -> M B) :
  frames hs m -> (forall a, frames hs (f a)) -> frames hs (m ≫= f).
Proof.
  intros Hm Hf w k Hk. specialize (Hm w k Hk).
  unfold mbind, M_bind. destruct (m w) as [[a|e] w1]; cbn [snd] in *.
  - now rewrite (Hf a w1 k Hk).
  - exact Hm.
Qed.

Lemma frames_log hs (c : call) : frames hs (log c).
Proof. intros w k _. reflexivity. Qed.

Lemma frames_invoke hs (c : call) what : frames hs (invoke c what).
Proof.
  unfold invoke. apply frames_bind; [apply frames_log|].
  intros _. destruct (fails c); [apply frames_raise | apply frames_ret].
Qed.

Lemma frames_lookup_handle hs h :
  frames hs (lookup_handle h : M handle_obj).
Proof.
  intros w k _. unfold lookup_handle. now destruct (handles w !! h).
Qed.

Lemma frames_store_handle hs h (o : handle_obj) :
  h ∈ hs -> frames hs (store_handle h o).
Proof.
  intros Hh w k Hk. cbn. apply lookup_insert_ne. intros ->. contradiction.
Qed.

Lemma frames_reproject hs src i dst j (st : option affine) sc (dt : affine)
    dc r :
  dst ∈ hs -> frames hs (reproject_ src i dst j st sc dt dc r).
Proof.
  intros Hd. unfold reproject_.
  apply frames_bind; [apply frames_invoke|]. intros _.
  apply frames_bind; [apply frames_lookup_handle|]. intros s.
  apply frames_bind; [apply frames_lookup_handle|]. intros d.
  destruct (band_lookup _ i); [|apply frames_raise].
  destruct (band_lookup _ j); [|apply frames_raise].
  now apply frames_store_handle.
Qed.

Lemma frames_for {A} hs (l : list A) (body : A -> M unit) :
  (forall x, frames hs (body x)) -> frames hs (for_ l body).
Proof.
  intros Hb. induction l as [|x l IH]; [apply frames_ret|].
  cbn [for_]. apply frames_bind; [apply Hb | intros _; exact IH].
Qed.

Lemma frames_calculate_default_transform hs sc tc wd ht (b : extent) :
  frames hs (calculate_default_transform_ sc tc wd ht b).
Proof.
  unfold calculate_default_transform_.
  apply frames_bind; [apply frames_invoke | intros _; apply frames_ret].
Qed.

Lemma handles_closed_eq h (w : world) : handles (closed h w) !! h = None.
Proof.
  unfold closed. destruct (handles w !! h) eqn:E; [|exact E].
  apply lookup_delete_eq.
Qed.

Lemma handles_closed_ne h k (w : world) :
  k <> h -> handles (closed h w) !! k = handles w !! k.
Proof.
  intros Hk. unfold closed. destruct (handles w !! h); [|reflexivity].
  cbn. now apply lookup_delete_ne.
Qed.

(** Opening a dataset binds one handle that was free, or raises and binds
    none. *)
Lemma rasterio_open_spec path mode (kwargs : option meta) (w : world) :
  match rasterio_open_ path mode kwargs w with
  | (Ok h, w1) =>
      handles w !! h = None
      /\ forall k, k <> h -> handles w1 !! k = handles w !! k
  | (Raise _, w1) => handles w1 = handles w
  end.
Proof.
  unfold rasterio_open_, invoke, mbind, M_bind, log.
  destruct (fails (rasterio_open path mode kwargs)); [reflexivity|].
  cbn [mret M_ret].
  destruct kwargs as [k|].
  - cbn. split; [apply (fresh_handle w)|].
    intros k' Hk'. now apply lookup_insert_ne.
  - cbn [files logged]. destruct (files w !! path); [|reflexivity].
    cbn. split; [apply (fresh_handle w)|].
    intros k' Hk'. now apply lookup_insert_ne.
Qed.

(** A [with] block gives back every handle it took, however its body
    ends. *)
Lemma frames_with {A} hs (enter : M nat) (body : nat -> M A) :
  (forall w,
      match enter w with
      | (Ok h, w1) =>
          handles w !! h = None
          /\ forall k, k <> h -> handles w1 !! k = handles w !! k
      | (Raise _, w1) => handles w1 = handles w
      end) ->
  (forall h, frames (h :: hs) (body h)) ->
  frames hs (with_ enter body).
Proof.
  intros He Hb w k Hk. unfold with_. specialize (He w).
  destruct (enter w) as [[h|e] w1]; [|cbn; now rewrite He].
  destruct He as [Hfree Hkeep].
  specialize (Hb h w1). destruct (body h w1) as [r w2]. cbn [snd] in *.
  change ((log (dataset_exit h);; close_handle h) w2)
    with (Ok tt, closed h (logged (dataset_exit h) w2)).
  cbn [snd].
  destruct (decide (k = h)) as [->|Hne].
  - now rewrite handles_closed_eq.
  - rewrite handles_closed_ne by assumption. cbn [handles logged].
    rewrite Hb by (rewrite elem_of_cons; tauto). now apply Hkeep.
Qed.

(** X1: the reprojector releases what it opens: on every exit path of
    [reproj], whichever library call fails, the table of open handles is
    what it was before the call. *)
Theorem reproj_releases in_raster out_raster target_crs (w : world) :
  handles (snd (reproj in_raster out_raster target_crs w)) = handles w.
Proof.
  apply map_eq. intros k.
  assert (Hf : frames [] (reproj in_raster out_raster target_crs)).
  { unfold reproj. apply frames_bind; [|intros _; apply frames_log].
    apply frames_with; [intros w0; apply rasterio_open_spec|].
    intros src. apply frames_bind; [apply frames_lookup_handle|]. intros s.
    cbv zeta.
    apply frames_bind; [apply frames_calculate_default_transform|].
    intros [[t wd] ht].
    apply frames_with; [intros w0; apply rasterio_open_spec|].
    intros dst. apply frames_for. intros i.
    apply frames_reproject. apply elem_of_cons. now left. }
  apply Hf. apply not_elem_of_nil.
Qed.

End Release.


(** * More on [GRS.metadata] *)

Section SplitFacts.

Lemma join_cons sep t t' ts :
  join sep (t :: t' :: ts) = t +:+ String sep (join sep (t' :: ts)).
Proof. reflexivity. Qed.

(** Joining the tokens of a string gives the string back. *)
Lemma join_split sep s : join sep (split sep s) = s.
Proof.
  induction s as [|c s IH]; [reflexivity|]. simpl.
  destruct (Ascii.eqb c sep) eqn:E.
  - apply Ascii.eqb_eq in E as ->.
    destruct (split sep s) as [|t ts] eqn:Es;
      [now apply split_nonempty in Es|].
    rewrite join_cons, IH. reflexivity.
  - destruct (split sep s) as [|t ts] eqn:Es;
      [now apply split_nonempty in Es|].
    destruct ts as [|t' ts].
    + simpl in *. now rewrite IH.
    + rewrite join_cons in *. rewrite append_cons, IH. reflexivity.
Qed.

(** A string with [k] separators has [k + 1] tokens. *)
Lemma split_length sep s : length (split sep s) = S (count_char sep s).
Proof.
  induction s as [|c s IH]; [reflexivity|]. simpl.
  destruct (Ascii.eqb c sep).
  - simpl. now rewrite IH.
  - destruct (split sep s) as [|t ts] eqn:Es;
      [now apply split_nonempty in Es|].
    simpl in *. exact IH.
Qed.

(** No token holds the separator, and a character absent from the string
    is absent from every token. *)
Lemma split_tokens_free sep s :
  Forall (fun t => free sep t = true) (split sep s).
Proof.
  induction s as [|c s IH]; simpl; [repeat constructor|].
  destruct (Ascii.eqb c sep) eqn:E.
  - constructor; [reflexivity | exact IH].
  - destruct (split sep s) as [|t ts] eqn:Es;
      [now apply split_nonempty in Es|].
    inversion IH as [|? ? Ht Hts]; subst.
    constructor; [|exact Hts]. simpl. now rewrite E, Ht.
Qed.

Lemma split_tokens_keep_free c sep s :
  free c s = true -> Forall (fun t => free c t = true) (split sep s).
Proof.
  induction s as [|x s IH]; simpl; intros H; [repeat constructor|].
  apply andb_prop in H as [Hx Hs]. specialize (IH Hs).
  destruct (Ascii.eqb x sep).
  - constructor; [reflexivity | exact IH].
  - destruct (split sep s) as [|t ts] eqn:Es;
      [now apply split_nonempty in Es|].
    inversion IH as [|? ? Ht Hts]; subst.
    constructor; [|exact Hts]. simpl. now rewrite Hx, Ht.
Qed.

Lemma free_has_sep s : has_sep s = false -> free "/" s = true.
Proof.
  induction s as [|x s IH]; simpl; [reflexivity|].
  intros H. apply orb_false_elim in H as [Hx Hs].
  now rewrite Hx, IH.
Qed.

(** The basename never holds a slash. *)
Lemma basename_free_sep p : free "/" (basename p) = true.
Proof.
  induction p as [|c p IH]; [reflexivity|]. simpl.
  destruct (has_sep p) eqn:E; [exact IH|].
  destruct (Ascii.eqb c "/") eqn:Ec.
  - now apply free_has_sep.
  - simpl. rewrite Ec. simpl. now apply free_has_sep.
Qed.

End SplitFacts.

Section MetadataMore.

(** What a successful call has gone through. *)
Lemma metadata_ok_inv path (md : gmap string pyval) :
  metadata path = Ok md ->
  exists t1 t2 t3 t4 t5 t6 t7 t8 t9 dt,
    split "_" (basename path) = [t1; t2; t3; t4; t5; t6; t7; t8; t9]
    /\ strptime t3 = Ok dt.
Proof.
  unfold metadata. intros H.
  destruct (split "_" (basename path)) as [|t1 l] eqn:Hs; [discriminate|].
  do 8 (destruct l as [|? l]; [discriminate|]).
  destruct l; [|discriminate].
  cbn [unpack9 rbind] in H.
  match type of H with
  | rbind (strptime ?t) _ = _ => destruct (strptime t) as [dt|e] eqn:Hd
  end; [|discriminate].
  do 10 eexists. split; [reflexivity | exact Hd].
Qed.

(** X2: the dict has the fifteen keys of the docstring, no more and no
    fewer. *)
Theorem metadata_key_set path (md : gmap string pyval) :
  metadata path = Ok md ->
  dom md = (list_to_set metadata_keys : gset string).
Proof.
  unfold metadata. intros H.
  destruct (unpack9 _) as [[[[[[[[[a b] c] d] e] f] g] h] i]|]; [|discriminate].
  cbn [rbind] in H. destruct (strptime c); [|discriminate].
  cbn [rbind] in H. injection H as <-.
  rewrite !dom_insert_L, dom_empty_L. unfold metadata_keys.
  cbn [list_to_set foldr]. set_solver.
Qed.

Lemma metadata_key_set_witness :
  exists md : gmap string pyval,
    metadata "S2A_MSIL1C_20210521T131241_N0300_R138_T23KMQ_20210521T163353_cc020_v15.nc"
    = Ok md
    /\ dom md = (list_to_set metadata_keys : gset string)
    /\ md !! "extension" = None.
Proof.
  destruct (metadata_ok
              "S2A_MSIL1C_20210521T131241_N0300_R138_T23KMQ_20210521T163353_cc020_v15.nc"
              _ _ _ _ _ _ _ _ _ (mk_datetime 2021 5 21 13 12 41)
              eq_refl ltac:(vm_compute; reflexivity)) as (md & Hmd & _).
  exists md. split; [exact Hmd|].
  pose proof (metadata_key_set _ _ Hmd) as Hdom.
  split; [exact Hdom|].
  apply not_elem_of_dom. rewrite Hdom. vm_compute. intros H.
  discriminate H.
Defined.

End MetadataMore.

Section MetadataShape.

(** X3: the nine positional values, joined by ['_'] in the docstring's order,
    spell the [basename] value: nothing of the file name is lost or
    changed. *)
Theorem metadata_round_trip path (md : gmap string pyval) :
  metadata path = Ok md ->
  exists t1 t2 t3 t4 t5 t6 t7 t8 t9,
    md !! "mission" = Some (VStr t1)
    /\ md !! "prod_lvl" = Some (VStr t2)
    /\ md !! "str_date" = Some (VStr t3)
    /\ md !! "baseline_algo_version" = Some (VStr t4)
    /\ md !! "relative_orbit" = Some (VStr t5)
    /\ md !! "tile" = Some (VStr t6)
    /\ md !! "product_discriminator" = Some (VStr t7)
    /\ md !! "cloud_cover" = Some (VStr t8)
    /\ md !! "grs_ver" = Some (VStr t9)
    /\ md !! "basename"
       = Some (VStr (join "_" [t1; t2; t3; t4; t5; t6; t7; t8; t9]))
    /\ basename path = join "_" [t1; t2; t3; t4; t5; t6; t7; t8; t9].
Proof.
  intros H.
  destruct (metadata_ok_inv _ _ H)
    as (t1 & t2 & t3 & t4 & t5 & t6 & t7 & t8 & t9 & dt & Hs & Hd).
  destruct (metadata_ok _ _ _ _ _ _ _ _ _ _ _ Hs Hd)
    as (md' & Hmd & _ & Hb & H1 & H2 & H3 & _ & _ & _ & _ & H4 & H5 & H6
        & H7 & H8 & H9).
  rewrite H in Hmd. injection Hmd as <-.
  exists t1, t2, t3, t4, t5, t6, t7, t8, t9.
  assert (Hj : basename path = join "_" [t1; t2; t3; t4; t5; t6; t7; t8; t9]).
  { rewrite <- Hs. symmetry. apply join_split. }
  repeat (split; [assumption|]).
  split; [|exact Hj]. now rewrite <- Hj.
Qed.

Lemma metadata_round_trip_witness :
  exists md : gmap string pyval,
    metadata "/data/S2A_MSIL1C_20210521T131241_N0300_R138_T23KMQ_20210521T163353_cc020_v15.nc"
    = Ok md
    /\ md !! "basename"
       = Some (VStr "S2A_MSIL1C_20210521T131241_N0300_R138_T23KMQ_20210521T163353_cc020_v15.nc").
Proof.
  destruct (metadata_ok
              "/data/S2A_MSIL1C_20210521T131241_N0300_R138_T23KMQ_20210521T163353_cc020_v15.nc"
              _ _ _ _ _ _ _ _ _ (mk_datetime 2021 5 21 13 12 41)
              eq_refl ltac:(vm_compute; reflexivity)) as (md & Hmd & _).
  destruct (metadata_round_trip _ _ Hmd)
    as (t1 & t2 & t3 & t4 & t5 & t6 & t7 & t8 & t9 & _ & _ & _ & _ & _ & _
        & _ & _ & _ & Hb & Hj).
  exists md. split; [exact Hmd|]. rewrite Hb, <- Hj. reflexivity.
Defined.

(** X4: every positional value is free of ['_'] and of ['/']. *)
Theorem metadata_values_clean path (md : gmap string pyval) key t :
  metadata path = Ok md ->
  In key positional_keys ->
  md !! key = Some (VStr t) ->
  free "_" t = true /\ free "/" t = true.
Proof.
  intros H Hk Hv.
  destruct (metadata_ok_inv _ _ H)
    as (t1 & t2 & t3 & t4 & t5 & t6 & t7 & t8 & t9 & dt & Hs & Hd).
  destruct (metadata_ok _ _ _ _ _ _ _ _ _ _ _ Hs Hd)
    as (md' & Hmd & _ & Hb & H1 & H2 & H3 & _ & _ & _ & _ & H4 & H5 & H6
        & H7 & H8 & H9).
  rewrite H in Hmd. injection Hmd as <-.
  pose proof (split_tokens_free "_" (basename path)) as F1.
  pose proof (split_tokens_keep_free "/" "_" (basename path)
                (basename_free_sep path)) as F2.
  rewrite Hs in F1, F2.
  repeat match goal with
         | H : Forall _ (_ :: _) |- _ => inversion H; subst; clear H
         | H : Forall _ [] |- _ => clear H
         end.
  unfold positional_keys in Hk. simpl in Hk.
  repeat (destruct Hk as [<- | Hk];
          [rewrite Hv in *;
           repeat match goal with
                  | E : Some (VStr _) = Some (VStr _) |- _ =>
                      injection E as <-
                  end; now split|]).
  destruct Hk.
Qed.

Lemma metadata_values_clean_witness :
  free "_" "v15.nc" = true /\ free "/" "v15.nc" = true.
Proof.
  destruct (metadata_ok
              "/data/S2A_MSIL1C_20210521T131241_N0300_R138_T23KMQ_20210521T163353_cc020_v15.nc"
              _ _ _ _ _ _ _ _ _ (mk_datetime 2021 5 21 13 12 41)
              eq_refl ltac:(vm_compute; reflexivity))
    as (md & Hmd & _ & _ & _ & _ & _ & _ & _ & _ & _ & _ & _ & _ & _ & _
        & H9).
  apply (metadata_values_clean _ md "grs_ver" "v15.nc" Hmd).
  - simpl. tauto.
  - exact H9.
Defined.

(** X5: which error, and when.  A basename with exactly eight underscores can
    only fail on its date; any other basename fails at the unpacking, and
    the error tells whether there were too few values (and how many) or
    too many. *)
Theorem metadata_error_kind path :
  let k := count_char "_" (basename path) in
  if k =? 8
  then forall e, metadata path = Raise e ->
                 date_parse_error e = true /\ format_error e = false
  else metadata path
       = Raise (if k <? 8 then ValueError_not_enough_values 9 (S k)
                else ValueError_too_many_values 9).
Proof.
  intros k. pose proof (split_length "_" (basename path)) as Hl.
  fold k in Hl. destruct (k =? 8) eqn:E.
  - apply Nat.eqb_eq in E. rewrite E in Hl.
    destruct (unpack9_ok _ Hl)
      as (a & b & c & d & e' & f & g & h & i & Hs & _).
    intros e He. destruct (strptime c) as [dt|e0] eqn:Hd.
    + destruct (metadata_ok _ _ _ _ _ _ _ _ _ _ _ Hs Hd) as (md & Hmd & _).
      congruence.
    + rewrite (metadata_date_error _ _ _ _ _ _ _ _ _ _ _ Hs Hd) in He.
      injection He as <-. pose proof (strptime_error _ _ Hd) as Hp.
      split; [exact Hp|]. now destruct e0.
  - apply Nat.eqb_neq in E. unfold metadata.
    destruct (split "_" (basename path)) as [|t1 l]; [discriminate|].
    simpl in Hl. injection Hl as Hl.
    do 8 (destruct l as [|? l];
          [simpl in Hl; subst k; rewrite <- Hl; reflexivity|]).
    destruct l as [|? l]; [simpl in Hl; lia|].
    simpl in Hl. cbn [unpack9 rbind length].
    replace (k <? 8) with false by (symmetry; apply Nat.ltb_ge; lia).
    reflexivity.
Qed.

(** X6: a path that ends in a slash, a directory, has an empty basename: one
    empty token, and the unpacking fails. *)
Theorem metadata_directory dir :
  metadata (dir +:+ "/") = Raise (ValueError_not_enough_values 9 1).
Proof.
  unfold metadata.
  change (dir +:+ "/") with (dir +:+ String "/" EmptyString).
  rewrite basename_append by reflexivity. reflexivity.
Qed.

End MetadataShape.


(** * Printing and reading numbers *)

Section Decimal.
Local Open Scope N_scope.

Lemma digit_char_digit d :
  d < 10 -> is_digit (digit_char d) = true /\ digit_val (digit_char d) = d.
Proof.
  intros H.
  assert (d = 0 \/ d = 1 \/ d = 2 \/ d = 3 \/ d = 4 \/ d = 5 \/ d = 6
          \/ d = 7 \/ d = 8 \/ d = 9) as Hd by lia.
  repeat (destruct Hd as [-> | Hd]; [split; reflexivity|]).
  subst. split; reflexivity.
Qed.

Lemma reads_empty : reads EmptyString 0.
Proof. intros a. simpl. f_equal. lia. Qed.

Lemma reads_cons d s v :
  d < 10 -> reads s v ->
  reads (String (digit_char d) s)
        (d * 10 ^ N.of_nat (String.length s) + v).
Proof.
  intros Hd Hs a. destruct (digit_char_digit d Hd) as [H1 H2].
  cbn [int_digits String.length]. rewrite H1, H2, Hs. f_equal.
  rewrite Nat2N.inj_succ, N.pow_succ_r'. lia.
Qed.

Lemma dec_aux_reads fuel :
  forall n acc v,
    reads acc v -> n < 10 ^ N.of_nat fuel ->
    reads (dec_aux fuel n acc) (n * 10 ^ N.of_nat (String.length acc) + v).
Proof.
  induction fuel as [|fuel IH]; intros n acc v Hacc Hn.
  - simpl in Hn. assert (n = 0) as -> by lia. simpl.
    intros a. rewrite Hacc. f_equal.
  - cbn [dec_aux].
    assert (Hm : n mod 10 < 10) by (apply N.mod_lt; lia).
    pose proof (reads_cons _ _ _ Hm Hacc) as Hacc'.
    pose proof (N.div_mod n 10 ltac:(lia)) as Hdm.
    destruct (n / 10 =? 0) eqn:E.
    + apply N.eqb_eq in E. rewrite E in Hdm.
      intros a. rewrite Hacc'. f_equal. lia.
    + assert (Hq : n / 10 < 10 ^ N.of_nat fuel).
      { apply N.Div0.div_lt_upper_bound.
        rewrite Nat2N.inj_succ, N.pow_succ_r' in Hn. exact Hn. }
      specialize (IH _ _ _ Hacc' Hq). intros a. rewrite IH. f_equal.
      cbn [String.length]. rewrite Nat2N.inj_succ, N.pow_succ_r'.
      set (q := n / 10) in *. set (r := n mod 10) in *.
      set (P := 10 ^ N.of_nat (String.length acc)) in *.
      rewrite Hdm. lia.
Qed.

Lemma pos_lt_pow10 p : N.pos p < 10 ^ N.of_nat (Pos.size_nat p).
Proof.
  induction p as [p IH|p IH|]; cbn [Pos.size_nat];
    rewrite ?Nat2N.inj_succ, ?N.pow_succ_r'; simpl; try lia.
Qed.

Lemma dec_reads n : reads (dec n) n.
Proof.
  unfold dec.
  pose proof (dec_aux_reads (S (N.size_nat n)) n EmptyString 0 reads_empty)
    as H.
  assert (Hn : n < 10 ^ N.of_nat (S (N.size_nat n))).
  { rewrite Nat2N.inj_succ, N.pow_succ_r'. destruct n as [|p]; simpl.
    - lia.
    - pose proof (pos_lt_pow10 p). lia. }
  specialize (H Hn). intros a. rewrite H. f_equal. simpl. lia.
Qed.

Lemma format_02d_reads n : reads (format_02d n) n.
Proof.
  unfold format_02d. destruct (_ <? _)%nat; [|apply dec_reads].
  pose proof (reads_cons 0 _ _ ltac:(lia) (dec_reads n)) as H.
  intros a. pose proof (H a) as Ha.
  change (digit_char 0) with "0"%char in Ha.
  cbn [String.length] in *. rewrite Ha. f_equal.
Qed.

(** Reading back what the ["02d"] format printed gives the number. *)
Lemma int_format_02d n : int (format_02d n) = Ok n.
Proof.
  pose proof (format_02d_reads n 0) as H.
  pose proof (format_02d_length n) as Hl.
  destruct (format_02d n) as [|c r]; [simpl in Hl; lia|].
  assert (Hc : is_digit c = true).
  { cbn [int_digits] in H. destruct (is_digit c); [reflexivity | discriminate]. }
  unfold int. rewrite (lstrip_digit _ _ Hc), H. f_equal.
Qed.

Lemma format_02d_width_check :
  forallb (fun n => (String.length (format_02d (N.of_nat n)) =? 2)%nat)
    (seq 0 100) = true.
Proof. vm_compute. reflexivity. Qed.

Lemma format_02d_width n : n < 100 -> String.length (format_02d n) = 2%nat.
Proof.
  intros H. pose proof format_02d_width_check as Hc.
  rewrite forallb_forall in Hc. specialize (Hc (N.to_nat n)).
  rewrite N2Nat.id in Hc. apply Nat.eqb_eq, Hc, in_seq. lia.
Qed.

Lemma format_02d_year_width_check :
  forallb (fun n => (String.length (format_02d (N.of_nat n)) <=? 4)%nat)
    (seq 0 (N.to_nat 10000)) = true.
Proof. vm_compute. reflexivity. Qed.

Lemma format_02d_year_width n :
  n < 10000 -> (String.length (format_02d n) <= 4)%nat.
Proof.
  intros H. pose proof format_02d_year_width_check as Hc.
  rewrite forallb_forall in Hc. specialize (Hc (N.to_nat n)).
  rewrite N2Nat.id in Hc. apply Nat.leb_le, Hc, in_seq. lia.
Qed.

End Decimal.

Section MetadataDate.

Lemma check_fields_bounds dt :
  check_fields dt = true ->
  (1 <= year dt <= 9999 /\ 1 <= month dt <= 12 /\ 1 <= day dt <= 31
   /\ hour dt <= 23 /\ minute dt <= 59 /\ second dt <= 59)%N.
Proof.
  unfold check_fields, check_date_fields, check_time_fields. intros H.
  repeat match goal with
         | H : _ && _ = true |- _ => apply andb_prop in H as [? ?]
         end.
  repeat match goal with
         | H : (_ <=? _)%N = true |- _ => apply N.leb_le in H
         end.
  pose proof (days_in_month_le (year dt) (month dt)). lia.
Qed.

(** X7: the date in the dict is a real one, and the three date strings are
    its year, month and day: reading them back as numbers gives the
    fields of [pydate]. *)
Theorem metadata_date_consistent path (md : gmap string pyval) :
  metadata path = Ok md ->
  exists dt yyyy mm dd,
    md !! "pydate" = Some (VDate dt)
    /\ check_fields dt = true
    /\ md !! "year" = Some (VStr yyyy) /\ int yyyy = Ok (year dt)
    /\ md !! "month" = Some (VStr mm) /\ int mm = Ok (month dt)
    /\ md !! "day" = Some (VStr dd) /\ int dd = Ok (day dt).
Proof.
  intros H.
  destruct (metadata_ok_inv _ _ H)
    as (t1 & t2 & t3 & t4 & t5 & t6 & t7 & t8 & t9 & dt & Hs & Hd).
  destruct (metadata_ok _ _ _ _ _ _ _ _ _ _ _ Hs Hd)
    as (md' & Hmd & _ & _ & _ & _ & _ & Hp & Hy & Hm & Hdd & _).
  rewrite H in Hmd. injection Hmd as <-.
  exists dt, (format_02d (year dt)), (format_02d (month dt)),
    (format_02d (day dt)).
  destruct (strptime_ok_inv _ _ Hd) as (? & ? & ? & ? & ? & ? & ? & _ & _ & _ & Hc).
  repeat split; try assumption; apply int_format_02d.
Qed.

Lemma metadata_date_consistent_witness :
  exists md : gmap string pyval,
    metadata "S2A_MSIL1C_2021521T131241_N0300_R138_T23KMQ_x_cc020_v15.nc"
    = Ok md
    /\ md !! "pydate" = Some (VDate (mk_datetime 2021 5 21 13 12 41))
    /\ md !! "month" = Some (VStr "05").
Proof.
  destruct (metadata_ok
              "S2A_MSIL1C_2021521T131241_N0300_R138_T23KMQ_x_cc020_v15.nc"
              _ _ _ _ _ _ _ _ _ (mk_datetime 2021 5 21 13 12 41)
              eq_refl ltac:(vm_compute; reflexivity))
    as (md & Hmd & _ & _ & _ & _ & _ & Hp & _ & Hm & _).
  destruct (metadata_date_consistent _ _ Hmd)
    as (dt & yyyy & mm & dd & Hp' & _).
  exists md. split; [exact Hmd|]. split; [exact Hp | exact Hm].
Defined.

(** X8: whatever the width of the numbers in the token, the [month] and [day]
    strings have exactly two characters and the [year] string between two
    and four. *)
Theorem metadata_date_widths path (md : gmap string pyval) :
  metadata path = Ok md ->
  exists yyyy mm dd,
    md !! "year" = Some (VStr yyyy)
    /\ md !! "month" = Some (VStr mm)
    /\ md !! "day" = Some (VStr dd)
    /\ 2 <= String.length yyyy <= 4
    /\ String.length mm = 2
    /\ String.length dd = 2.
Proof.
  intros H.
  destruct (metadata_ok_inv _ _ H)
    as (t1 & t2 & t3 & t4 & t5 & t6 & t7 & t8 & t9 & dt & Hs & Hd).
  destruct (metadata_ok _ _ _ _ _ _ _ _ _ _ _ Hs Hd)
    as (md' & Hmd & _ & _ & _ & _ & _ & Hp & Hy & Hm & Hdd & _).
  rewrite H in Hmd. injection Hmd as <-.
  destruct (strptime_ok_inv _ _ Hd) as (? & ? & ? & ? & ? & ? & ? & _ & _ & _ & Hc).
  apply check_fields_bounds in Hc.
  exists (format_02d (year dt)), (format_02d (month dt)),
    (format_02d (day dt)).
  repeat (split; [assumption|]).
  split; [split|split].
  - apply format_02d_length.
  - apply format_02d_year_width. lia.
  - apply format_02d_width. lia.
  - apply format_02d_width. lia.
Qed.

Lemma metadata_date_widths_witness :
  exists md : gmap string pyval,
    metadata "S2A_MSIL1C_0987111T1111_N0300_R138_T23KMQ_x_cc020_v15.nc"
    = Ok md
    /\ md !! "year" = Some (VStr "987")
    /\ md !! "month" = Some (VStr "11")
    /\ md !! "day" = Some (VStr "01").
Proof.
  destruct (metadata_ok
              "S2A_MSIL1C_0987111T1111_N0300_R138_T23KMQ_x_cc020_v15.nc"
              _ _ _ _ _ _ _ _ _ (mk_datetime 987 11 1 11 1 1)
              eq_refl ltac:(vm_compute; reflexivity))
    as (md & Hmd & _ & _ & _ & _ & _ & _ & Hy & Hm & Hd & _).
  destruct (metadata_date_widths _ _ Hmd) as (yyyy & mm & dd & _).
  exists md. repeat split; assumption.
Defined.

End MetadataDate.

(** * More on [Raster.array2tiff] *)

Section WriterCases.
Context {sample affine extent : Type} {L : @Library sample affine extent}.

Local Abbreviation world := (@Raster.world sample affine extent).
Local Abbreviation ndarray := (@Raster.ndarray sample).
Local Abbreviation handle_obj := (@Raster.handle_obj sample affine).
Local Abbreviation call := (@Raster.call sample affine extent).
Local Abbreviation meta := (@Raster.meta affine).

Local Ltac simp :=
  cbn [set_ds h_ds h_path h_writable ds_meta ds_options ds_bands band_store
       replicate driver dtype nodata width height count crs transform
       handles files trace logged opened unlinked].

(** The run in which nothing fails. *)
Lemma array2tiff_run (a : ndarray) rows cols path (t : affine) projection
    no_data compression (w : world) :
  shape a = [rows; cols] ->
  (forall c, fails c = false) ->
  array2tiff a path t projection no_data compression w
  = (Ok tt,
     mk_world (handles w)
       (<[path := mk_dataset
                    (mk_meta "GTiff" GDT_Float32
                       (Some (default (-1)%Z no_data)) cols rows 1
                       (Some projection) (Some t))
                    [default "COMPRESS=PACKBITS" compression] [a]]> (files w))
       (trace w
        ++ (let h := fresh (dom (handles w)) in
            [GetDriverByName "GTiff";
             Create path cols rows 1 GDT_Float32
               [default "COMPRESS=PACKBITS" compression];
             WriteArray h 1 a;
             SetNoDataValue h 1 (default (-1)%Z no_data);
             SetGeoTransform h t;
             SetProjection h projection;
             Dereference h]))).
Proof.
  intros Hshape Hok. unfold array2tiff.
  erewrite bind_ok by (apply run_GetDriverByName, Hok).
  rewrite Hshape. erewrite bind_ok by reflexivity. cbv beta iota.
  erewrite bind_ok by (apply run_Create, Hok).
  rewrite handles_logged. set (h := fresh (dom (handles w))).
  erewrite bind_ok
    by (eapply run_GetRasterBand; [apply lookup_opened | cbn; lia]).
  erewrite bind_ok
    by (eapply run_WriteArray;
        [apply lookup_opened | cbn; exact Hshape | reflexivity | apply Hok]).
  simp.
  erewrite bind_ok
    by (eapply run_GetRasterBand; [apply lookup_opened | cbn; lia]).
  erewrite bind_ok
    by (eapply run_SetNoDataValue; [apply lookup_opened | apply Hok]).
  simp.
  erewrite bind_ok
    by (eapply run_SetGeoTransform; [apply lookup_opened | apply Hok]).
  simp.
  erewrite bind_ok
    by (eapply run_SetProjection; [apply lookup_opened | apply Hok]).
  simp.
  rewrite run_dereference by apply Hok. f_equal.
  unfold closed. rewrite lookup_opened_logged. simp.
  f_equal.
  - rewrite !delete_insert_eq. apply delete_id, fresh_handle.
  - apply insert_delete_eq.
  - rewrite <- !app_assoc. reflexivity.
Qed.





End WriterCases.

Section WriterMore.
Context {sample affine extent : Type} {L : @Library sample affine extent}.

Local Abbreviation world := (@Raster.world sample affine extent).
Local Abbreviation ndarray := (@Raster.ndarray sample).
Local Abbreviation call := (@Raster.call sample affine extent).

Lemma run_bad_shape (a : ndarray) path (t : affine)
    projection no_data compression (w : world) :
  length (shape a) <> 2 ->
  array2tiff a path t projection no_data compression w
  = (Raise (if length (shape a) <? 2
            then ValueError_not_enough_values 2 (length (shape a))
            else ValueError_too_many_values 2),
     logged (GetDriverByName "GTiff") w).
Proof.
  intros Hs. unfold array2tiff, gdal_GetDriverByName.
  erewrite bind_ok by reflexivity.
  destruct (shape a) as [|x [|y [|z l]]]; try reflexivity.
  now contradiction Hs.
Qed.

(** X9: an array that is not two-dimensional is turned away at the unpacking
    of its shape, before any file is asked for: the only library call made
    is the driver lookup, and nothing is opened or written. *)
Theorem array2tiff_rejects_other_shapes (a : ndarray) path (t : affine)
    projection no_data compression (w : world) :
  length (shape a) <> 2 ->
  exists e,
    array2tiff a path t projection no_data compression w
    = (Raise e, logged (GetDriverByName "GTiff") w)
    /\ format_error e = true
    /\ handles (logged (GetDriverByName "GTiff" : call) w) = handles w
    /\ files (logged (GetDriverByName "GTiff" : call) w) = files w.
Proof.
  intros Hs. eexists. split; [apply run_bad_shape, Hs|].
  split; [|split; reflexivity]. now destruct (_ <? _).
Qed.



End WriterMore.

Lemma array2tiff_rejects_other_shapes_witness :
  exists e,
    array2tiff (L := quiet) cube_2x2x2 "out.tif" [0; 30; 0; 0; 0; -30]%Z
      "EPSG:32723" None None empty_world
    = (Raise e, logged (GetDriverByName "GTiff") empty_world)
    /\ format_error e = true.
Proof.
  destruct (array2tiff_rejects_other_shapes (L := quiet) cube_2x2x2 "out.tif"
              [0; 30; 0; 0; 0; -30]%Z "EPSG:32723" None None empty_world)
    as (e & H & He & _).
  - simpl. lia.
  - exists e. split; assumption.
Defined.




(** * More on [Raster.reproj] *)

Section ReprojTrace.
Context {sample affine extent : Type} {L : @Library sample affine extent}.

Local Abbreviation world := (@Raster.world sample affine extent).
Local Abbreviation M := (@Raster.M sample affine extent).
Local Abbreviation handle_obj := (@Raster.handle_obj sample affine).
Local Abbreviation call := (@Raster.call sample affine extent).
Local Abbreviation meta := (@Raster.meta affine).
Local Abbreviation quiet_on := (@Raster.quiet_on sample affine extent _ _).
Local Abbreviation ascending_from :=
  (@Raster.ascending_from sample affine extent _).

Lemma quiet_ret {X A} (f : call -> option X) (a : A) :
  quiet_on f (mret a : M A).
Proof. intros w. reflexivity. Qed.

Lemma quiet_raise {X A} (f : call -> option X) e :
  quiet_on f (raise e : M A).
Proof. intros w. reflexivity. Qed.

Lemma quiet_bind {X A B} (f : call -> option X) (m : M A) (k : A -> M B) :
  quiet_on f m -> (forall a, quiet_on f (k a)) -> quiet_on f (m ≫= k).
Proof.
  intros Hm Hk w. specialize (Hm w). unfold mbind, M_bind.
  destruct (m w) as [[a|e] w1]; cbn [snd] in *.
  - now rewrite (Hk a w1).
  - exact Hm.
Qed.

Lemma quiet_log {X} (f : call -> option X) c :
  f c = None -> quiet_on f (log c).
Proof.
  intros Hc w. cbn. rewrite omap_app. cbn. rewrite Hc. apply app_nil_r.
Qed.

Lemma quiet_invoke {X} (f : call -> option X) c what :
  f c = None -> quiet_on f (invoke c what).
Proof.
  intros Hc. unfold invoke. apply quiet_bind; [now apply quiet_log|].
  intros _. destruct (fails c); [apply quiet_raise | apply quiet_ret].
Qed.

Lemma quiet_lookup_handle {X} (f : call -> option X) h :
  quiet_on f (lookup_handle h : M handle_obj).
Proof. intros w. unfold lookup_handle. now destruct (handles w !! h). Qed.

Lemma trace_closed h (w : world) : trace (closed h w) = trace w.
Proof. unfold closed. now destruct (handles w !! h). Qed.

Lemma quiet_open {X} (f : call -> option X) path mode (k : option meta) :
  f (rasterio_open path mode k) = None ->
  quiet_on f (rasterio_open_ path mode k).
Proof.
  intros Hc. unfold rasterio_open_.
  apply quiet_bind; [now apply quiet_invoke|]. intros _.
  destruct k as [k|]; [intros w; reflexivity|].
  intros w. now destruct (files w !! path).
Qed.

Lemma quiet_with {X A} (f : call -> option X) (enter : M nat)
    (body : nat -> M A) :
  quiet_on f enter -> (forall h, quiet_on f (body h)) ->
  (forall h, f (dataset_exit h) = None) ->
  quiet_on f (with_ enter body).
Proof.
  intros He Hb Hx w. unfold with_. specialize (He w).
  destruct (enter w) as [[h|e] w1]; cbn [snd] in *; [|exact He].
  specialize (Hb h w1). destruct (body h w1) as [r w2]. cbn [snd] in *.
  change ((log (dataset_exit h);; close_handle h) w2)
    with (Ok tt, closed h (logged (dataset_exit h) w2)).
  cbn [snd]. rewrite trace_closed. cbn [trace logged].
  rewrite omap_app. cbn. rewrite (Hx h), app_nil_r. congruence.
Qed.

Lemma quiet_calculate_default_transform {X} (f : call -> option X)
    sc tc wd ht (b : extent) :
  f (calculate_default_transform sc tc wd ht b) = None ->
  quiet_on f (calculate_default_transform_ sc tc wd ht b).
Proof.
  intros Hc. unfold calculate_default_transform_.
  apply quiet_bind; [now apply quiet_invoke | intros _; apply quiet_ret].
Qed.

(** One [reproject] writes exactly its own call to the trace, whether it
    succeeds or not. *)
Lemma trace_reproject src i dst j (st : option affine) sc (dt : affine) dc r
    (w : world) :
  trace (snd (reproject_ src i dst j st sc dt dc r w))
  = trace w ++ [reproject src i dst j st sc dt dc r].
Proof.
  unfold reproject_.
  destruct (fails (reproject src i dst j st sc dt dc r)) eqn:E.
  - erewrite bind_raise by (apply run_invoke_fails, E). reflexivity.
  - erewrite bind_ok by (apply run_invoke, E).
    unfold mbind, M_bind, lookup_handle. cbn [handles logged].
    destruct (handles w !! src); [|reflexivity].
    cbn [handles logged].
    destruct (handles w !! dst); [|reflexivity].
    destruct (band_lookup _ i); [|reflexivity].
    destruct (band_lookup _ j); reflexivity.
Qed.

Lemma quiet_reproject {X} (f : call -> option X) src i dst j
    (st : option affine) sc (dt : affine) dc r :
  f (reproject src i dst j st sc dt dc r) = None ->
  quiet_on f (reproject_ src i dst j st sc dt dc r).
Proof.
  intros Hc w. rewrite trace_reproject, omap_app. cbn.
  rewrite Hc. apply app_nil_r.
Qed.

Lemma quiet_for {X A} (f : call -> option X) (l : list A)
    (body : A -> M unit) :
  (forall x, quiet_on f (body x)) -> quiet_on f (for_ l body).
Proof.
  intros Hb. induction l as [|x l IH]; [apply quiet_ret|].
  cbn [for_]. apply quiet_bind; [apply Hb | intros _; exact IH].
Qed.

(** The band loop, in any environment: it calls [reproject] for
    consecutive bands, and for all of them when it ends normally. *)
Lemma loop_ascending src dst (st : option affine) sc (dt : affine) dc m :
  forall k (w : world),
  exists j,
    j <= m
    /\ reproject_calls
         (trace (snd (for_ (seq k m)
                        (fun i => reproject_ src i dst i st sc dt dc nearest)
                        w)))
       = reproject_calls (trace w)
         ++ map (fun i => (i, i, nearest)) (seq k j)
    /\ (fst (for_ (seq k m)
               (fun i => reproject_ src i dst i st sc dt dc nearest) w)
        = Ok tt -> j = m).
Proof.
  induction m as [|m IH]; intros k w.
  - exists 0. cbn. rewrite app_nil_r. auto.
  - cbn [seq for_]. unfold mbind, M_bind.
    pose proof (trace_reproject src k dst k st sc dt dc nearest w) as Ht.
    destruct (reproject_ src k dst k st sc dt dc nearest w) as [[[]|e] w1];
      cbn [snd] in Ht.
    + destruct (IH (S k) w1) as (j & Hj & Hc & Hok).
      exists (S j). split; [lia|]. split.
      * rewrite Hc, Ht, reproject_calls_app. cbn. now rewrite <- app_assoc.
      * intros H. now rewrite (Hok H).
    + exists 1. split; [lia|]. split; [|discriminate].
      cbn [snd]. rewrite Ht, reproject_calls_app. reflexivity.
Qed.

Lemma ascending_bind_l {A B} k (P : nat -> Prop) (m : M A) (f : A -> M B) :
  P 0 ->
  quiet_on (fun c => match c with
                     | reproject _ i _ j _ _ _ _ r => Some (i, j, r)
                     | _ => None
                     end) m ->
  (forall a, ascending_from k P (f a)) -> ascending_from k P (m ≫= f).
Proof.
  intros H0 Hm Hf w. specialize (Hm w). unfold mbind, M_bind.
  destruct (m w) as [[a|e] w1]; cbn [snd] in *.
  - destruct (Hf a w1) as (j & HP & Hj). exists j. split; [exact HP|].
    unfold reproject_calls in *. now rewrite Hj, Hm.
  - exists 0. split; [exact H0|]. cbn. rewrite app_nil_r. exact Hm.
Qed.

Lemma ascending_bind_r {A B} k (P : nat -> Prop) (m : M A) (f : A -> M B) :
  ascending_from k P m ->
  (forall a,
      quiet_on (fun c => match c with
                         | reproject _ i _ j _ _ _ _ r => Some (i, j, r)
                         | _ => None
                         end) (f a)) ->
  ascending_from k P (m ≫= f).
Proof.
  intros Hm Hf w. destruct (Hm w) as (j & HP & Hj). unfold mbind, M_bind.
  destruct (m w) as [[a|e] w1]; cbn [snd] in *.
  - exists j. split; [exact HP|]. specialize (Hf a w1).
    unfold reproject_calls in *. now rewrite Hf.
  - exists j. auto.
Qed.

Lemma ascending_with {A} k (P : nat -> Prop) (enter : M nat)
    (body : nat -> M A) :
  P 0 ->
  quiet_on (fun c => match c with
                     | reproject _ i _ j _ _ _ _ r => Some (i, j, r)
                     | _ => None
                     end) enter ->
  (forall h, ascending_from k P (body h)) ->
  ascending_from k P (with_ enter body).
Proof.
  intros H0 He Hb w. unfold with_. specialize (He w).
  destruct (enter w) as [[h|e] w1]; cbn [snd] in *.
  - destruct (Hb h w1) as (j & HP & Hj). destruct (body h w1) as [r w2].
    cbn [snd] in *. exists j. split; [exact HP|].
    change ((log (dataset_exit h);; close_handle h) w2)
      with (Ok tt, closed h (logged (dataset_exit h) w2)).
    cbn [snd]. rewrite trace_closed. cbn [trace logged].
    rewrite reproject_calls_app. cbn. rewrite app_nil_r.
    unfold reproject_calls in *. now rewrite Hj, He.
  - exists 0. split; [exact H0|]. cbn. rewrite app_nil_r. exact He.
Qed.

(** [reproj] through its two [with] blocks: what holds of the band loop
    holds of the whole call. *)
Lemma reproj_ascending (P : nat -> Prop) in_raster out_raster target_crs :
  P 0 ->
  (forall src dst (st : option affine) sc (dt : affine) dc m,
      ascending_from 1 P
        (for_ (seq 1 m)
           (fun i => reproject_ src i dst i st sc dt dc nearest))) ->
  ascending_from 1 P (reproj in_raster out_raster target_crs).
Proof.
  intros H0 Hloop. unfold reproj.
  apply ascending_bind_r; [|intros _; now apply quiet_log].
  apply ascending_with; [exact H0 | now apply quiet_open|]. intros src.
  apply ascending_bind_l; [exact H0 | apply quiet_lookup_handle|].
  intros s. cbv zeta.
  apply ascending_bind_l;
    [exact H0 | now apply quiet_calculate_default_transform|].
  intros [[t wd] ht].
  apply ascending_with; [exact H0 | now apply quiet_open|]. intros dst.
  unfold range. apply Hloop.
Qed.

(** X12: in every run of [reproj], whatever fails, the bands are reprojected in
    ascending order starting from band 1 without a gap, each into the
    destination band of the same number and each with nearest-neighbour
    resampling. *)
Theorem reproj_calls_ascending in_raster out_raster target_crs (w : world) :
  exists j,
    reproject_calls (trace (snd (reproj in_raster out_raster target_crs w)))
    = reproject_calls (trace w)
      ++ map (fun i => (i, i, nearest)) (seq 1 j).
Proof.
  destruct (reproj_ascending (fun _ => True) in_raster out_raster target_crs
              I) with (w := w) as (j & _ & Hj).
  - intros src dst st sc dt dc m w0.
    destruct (loop_ascending src dst st sc dt dc m 1 w0) as (j & _ & Hj & _).
    exists j. auto.
  - exists j. exact Hj.
Qed.

(** The band loop stops at the first band that fails to warp. *)
Lemma loop_stops src dst (st : option affine) sc (dt : affine) dc b :
  (forall s d st' sc' (dt' : affine) dc',
      fails (reproject s b d b st' sc' dt' dc' nearest : call) = true) ->
  forall m k (w : world),
    k <= b ->
    exists j,
      k + j <= S b
      /\ reproject_calls
           (trace (snd (for_ (seq k m)
                          (fun i => reproject_ src i dst i st sc dt dc nearest)
                          w)))
         = reproject_calls (trace w)
           ++ map (fun i => (i, i, nearest)) (seq k j).
Proof.
  intros Hb. induction m as [|m IH]; intros k w Hk.
  - exists 0. split; [lia|]. cbn. now rewrite app_nil_r.
  - cbn [seq for_]. unfold mbind, M_bind.
    pose proof (trace_reproject src k dst k st sc dt dc nearest w) as Ht.
    destruct (decide (k = b)) as [->|Hne].
    + exists 1. split; [lia|]. unfold reproject_ in *.
      erewrite bind_raise in * by (apply run_invoke_fails, Hb).
      cbn [snd] in *. rewrite Ht, reproject_calls_app. reflexivity.
    + destruct (reproject_ src k dst k st sc dt dc nearest w)
        as [[[]|e] w1]; cbn [snd] in Ht.
      * destruct (IH (S k) w1) as (j & Hj & Hc); [lia|].
        exists (S j). split; [lia|].
        rewrite Hc, Ht, reproject_calls_app. cbn. now rewrite <- app_assoc.
      * exists 1. split; [lia|].
        cbn [snd]. rewrite Ht, reproject_calls_app. reflexivity.
Qed.

(** X13: a failure in the band loop aborts it: when warping band [b] fails, no
    band after [b] is attempted. *)
Theorem reproj_stops_at_failure b in_raster out_raster target_crs (w : world) :
  1 <= b ->
  (forall s d st sc (dt : affine) dc,
      fails (reproject s b d b st sc dt dc nearest : call) = true) ->
  exists j,
    j <= b
    /\ reproject_calls (trace (snd (reproj in_raster out_raster target_crs w)))
       = reproject_calls (trace w)
         ++ map (fun i => (i, i, nearest)) (seq 1 j).
Proof.
  intros Hb Hf.
  apply (reproj_ascending (fun j => j <= b) in_raster out_raster target_crs);
    [lia|].
  intros src dst st sc dt dc m w0.
  destruct (loop_stops src dst st sc dt dc b Hf m 1 w0) as (j & Hj & Hc);
    [exact Hb|].
  exists j. split; [lia | exact Hc].
Qed.

(** X14: the completion notice is printed exactly when [reproj] returns
    normally: once, after everything else, and never on a failure. *)
Theorem reproj_done_notice in_raster out_raster target_crs (w : world) :
  printed (trace (snd (reproj in_raster out_raster target_crs w)))
  = printed (trace w)
    ++ match fst (reproj in_raster out_raster target_crs w) with
       | Ok _ => ["Done: " +:+ out_raster]
       | Raise _ => []
       end.
Proof.
  unfold reproj.
  set (blk := with_ _ _).
  assert (Hq : quiet_on (fun c : call => match c with
                                         | print s => Some s
                                         | _ => None
                                         end) blk).
  { subst blk. apply quiet_with; [now apply quiet_open | | reflexivity].
    intros src. apply quiet_bind; [apply quiet_lookup_handle|].
    intros s. cbv zeta.
    apply quiet_bind; [now apply quiet_calculate_default_transform|].
    intros [[t wd] ht].
    apply quiet_with; [now apply quiet_open | | reflexivity].
    intros dst. apply quiet_for. intros i. now apply quiet_reproject. }
  specialize (Hq w). unfold mbind, M_bind.
  destruct (blk w) as [[[]|e] w1]; cbn [fst snd] in *.
  - unfold printed in *. unfold log. cbn [fst snd trace logged].
    rewrite omap_app, Hq. reflexivity.
  - unfold printed in *. now rewrite app_nil_r.
Qed.

End ReprojTrace.

Section ReprojOutput.
Context {sample affine extent : Type} {L : @Library sample affine extent}.

Local Abbreviation world := (@Raster.world sample affine extent).
Local Abbreviation M := (@Raster.M sample affine extent).
Local Abbreviation handle_obj := (@Raster.handle_obj sample affine).
Local Abbreviation dataset := (@Raster.dataset sample affine).
Local Abbreviation ndarray := (@Raster.ndarray sample).
Local Abbreviation meta := (@Raster.meta affine).
Local Abbreviation call := (@Raster.call sample affine extent).

Local Ltac simp :=
  cbn [set_ds h_ds h_path h_writable ds_meta ds_options ds_bands band_store
       driver dtype nodata width height count crs transform
       handles files trace logged opened unlinked].

(** The world a successful [reproj] leaves, in full. *)
Lemma reproj_run in_raster out_raster target_crs (src : dataset)
    (w : world) :
  files w !! in_raster = Some src ->
  length (ds_bands src) = count (ds_meta src) ->
  (forall c, fails c = false) ->
  exists (dst : dataset) (evs : list call) T W H,
    default_transform (crs (ds_meta src)) (default "EPSG:4326" target_crs)
      (width (ds_meta src)) (height (ds_meta src)) (bounds_of (ds_meta src))
    = (T, W, H)
    /\ reproj in_raster out_raster target_crs w
       = (Ok tt,
          mk_world (handles w) (<[out_raster := dst]> (files w))
            (trace w ++ evs))
    /\ ds_meta dst
       = mk_meta (driver (ds_meta src)) (dtype (ds_meta src))
           (nodata (ds_meta src)) W H (count (ds_meta src))
           (Some (default "EPSG:4326" target_crs)) (Some T)
    /\ length (ds_bands dst) = count (ds_meta src).
Proof.
  intros Hfile Hlen Hok. unfold reproj.
  set (tc := default "EPSG:4326" target_crs).
  set (sm := ds_meta src).
  destruct (default_transform (crs sm) tc (width sm) (height sm)
              (bounds_of sm)) as [[T W] H] eqn:Hdt.
  set (h1 := fresh (dom (handles w))).
  set (so := mk_handle in_raster false src).
  set (w1 := opened h1 so (logged (rasterio_open in_raster "r" None) w)).
  set (w2 := logged (calculate_default_transform (crs sm) tc (width sm)
                       (height sm) (bounds_of sm)) w1).
  set (kwargs := mk_meta (driver sm) (dtype sm) (nodata sm) W H (count sm)
                   (Some tc) (Some T)).
  set (h2 := fresh (dom (handles w2))).
  set (d0 := mk_handle out_raster true
               (mk_dataset kwargs []
                  (replicate (count kwargs)
                     (blank (height kwargs) (width kwargs))))).
  set (w3 := opened h2 d0 (logged (rasterio_open out_raster "w" (Some kwargs)) w2)).
  assert (Hne : h1 <> h2).
  { intros E. pose proof (fresh_handle w2) as Hf. fold h2 in Hf.
    rewrite <- E in Hf. subst w2 w1. cbn [handles logged opened] in Hf.
    rewrite lookup_insert_eq in Hf. discriminate. }
  destruct (run_band_loop h1 h2 (transform sm) (crs sm) T tc so (count sm)
              Hne Hok 0 d0 w3)
    as (w4 & d' & Hrun & Hh & Hf & Ht & Hp & Hw & Hm & Hl & Hb).
  { subst w3 w2 w1. simp. rewrite lookup_insert_ne by congruence.
    apply lookup_insert_eq. }
  { subst w3. simp. apply lookup_insert_eq. }
  { subst so. simp. unfold sm. lia. }
  { subst d0 kwargs. simp. rewrite length_replicate. lia. }
  assert (Hbody :
    with_ (rasterio_open_ in_raster "r" None)
      (fun src0 =>
         s ← lookup_handle src0;
         let sm := ds_meta (h_ds s) in
         let src_crs := crs sm in
         let src_transform := transform sm in
         let src_count := count sm in
         '(transform, width, height) ←
           calculate_default_transform_ src_crs tc (Raster.width sm)
             (Raster.height sm) (bounds_of sm);
         let kwargs :=
           mk_meta (driver sm) (dtype sm) (nodata sm) width height (count sm)
             (Some tc) (Some transform) in
         with_ (rasterio_open_ out_raster "w" (Some kwargs))
           (fun dst =>
              for_ (range 1 (src_count + 1))
                (fun i =>
                   reproject_ src0 i dst i src_transform src_crs transform tc
                     nearest))) w
    = (Ok tt,
       closed h1 (logged (dataset_exit h1)
                    (closed h2 (logged (dataset_exit h2) w4))))).
  { eapply run_with; [apply run_open_read; [apply Hok | exact Hfile]|].
    fold h1 so w1.
    erewrite bind_ok by (apply run_lookup_handle, lookup_opened).
    cbv zeta. change (ds_meta (h_ds so)) with sm.
    erewrite bind_ok by (apply run_calculate_default_transform, Hok).
    rewrite Hdt. cbv beta iota. fold kwargs.
    eapply run_with; [apply run_open_write, Hok|].
    fold w2 h2 d0 w3. unfold range. rewrite Nat.add_sub. exact Hrun. }
  erewrite bind_ok by exact Hbody. clear Hbody.
  assert (Hh2 : handles w2 !! h2 = None) by apply fresh_handle.
  assert (Hh1 : handles w !! h1 = None) by apply fresh_handle.
  assert (H3 : handles w3 = <[h2 := d0]> (<[h1 := so]> (handles w)))
    by reflexivity.
  assert (Hc2 : closed h2 (logged (dataset_exit h2) w4)
                = mk_world (<[h1 := so]> (handles w))
                    (<[out_raster := h_ds d']> (files w))
                    (trace w4 ++ [dataset_exit h2])).
  { erewrite (closed_open h2 d')
      by (cbn [handles logged]; rewrite Hh; apply lookup_insert_eq).
    cbn [handles files trace logged]. rewrite Hw, Hp, Hh, Hf, H3.
    cbn [h_writable h_path d0].
    rewrite !delete_insert_eq, delete_id by exact Hh2. reflexivity. }
  rewrite Hc2. clear Hc2.
  erewrite (closed_open h1 so) by apply lookup_insert_eq.
  cbn [handles files trace logged h_writable so].
  rewrite delete_insert_eq, delete_id by exact Hh1.
  exists (h_ds d'),
    ([rasterio_open in_raster "r" None;
      calculate_default_transform (crs sm) tc (width sm) (height sm)
        (bounds_of sm);
      rasterio_open out_raster "w" (Some kwargs)]
     ++ map (fun i => reproject h1 i h2 i (transform sm) (crs sm) T tc nearest)
          (seq 1 (count sm))
     ++ [dataset_exit h2; dataset_exit h1; print ("Done: " +:+ out_raster)]),
    T, W, H.
  split; [reflexivity|]. split.
  { unfold log, logged. cbn [handles files trace]. do 2 f_equal.
    rewrite Ht. subst w3 w2 w1. cbn [trace logged opened].
    rewrite <- !app_assoc. reflexivity. }
  split; [rewrite Hm; reflexivity|].
  rewrite Hl. subst d0. cbn [h_ds ds_bands]. apply length_replicate.
Qed.

(** X15: a missing source: [reproj] raises at once; the failed open is the only
    call made, nothing was opened and no file was created or changed. *)
Theorem reproj_missing_source in_raster out_raster target_crs (w : world) :
  files w !! in_raster = None ->
  reproj in_raster out_raster target_crs w
  = (Raise (LibraryError "RasterioIOError"),
     logged (rasterio_open in_raster "r" None) w).
Proof.
  intros Hf. unfold reproj, with_, rasterio_open_.
  erewrite bind_raise; [reflexivity|].
  destruct (fails (rasterio_open in_raster "r" None : call)) eqn:E.
  - erewrite bind_raise by (apply run_invoke_fails, E). reflexivity.
  - erewrite bind_ok by (apply run_invoke, E).
    cbn [files logged]. rewrite Hf. reflexivity.
Qed.

(** X16: a target reference system that cannot be resolved: [reproj] raises
    after the source was opened and before the destination is; the source
    handle is released, no file is created or changed, and the destination
    path is never opened. *)
Theorem reproj_bad_target_crs in_raster out_raster target_crs
    (src : dataset) (w : world) :
  files w !! in_raster = Some src ->
  fails (rasterio_open in_raster "r" None : call) = false ->
  (forall sc tc wd ht (b : extent),
      fails (calculate_default_transform sc tc wd ht b : call) = true) ->
  exists h,
    reproj in_raster out_raster target_crs w
    = (Raise (LibraryError "CRSError"),
       mk_world (handles w) (files w)
         (trace w
          ++ [rasterio_open in_raster "r" None;
              calculate_default_transform (crs (ds_meta src))
                (default "EPSG:4326" target_crs) (width (ds_meta src))
                (height (ds_meta src)) (bounds_of (ds_meta src));
              dataset_exit h])).
Proof.
  intros Hfile Ho Hc. exists (fresh (dom (handles w))). unfold reproj.
  erewrite bind_raise; [reflexivity|].
  erewrite run_with;
    [| apply run_open_read; [exact Ho | exact Hfile] |].
  2:{ erewrite bind_ok by (apply run_lookup_handle, lookup_opened).
      cbv zeta. simp.
      unfold calculate_default_transform_.
      erewrite bind_raise; [reflexivity|].
      erewrite bind_raise by (apply run_invoke_fails, Hc). reflexivity. }
  f_equal. erewrite closed_open by apply lookup_insert_eq.
  simp. f_equal.
  - rewrite delete_insert_eq. apply delete_id, fresh_handle.
  - rewrite <- !app_assoc. reflexivity.
Qed.


(** X18: writing a grid and reprojecting the file that was written: both calls
    succeed, and the reprojected raster has one band of the writer's pixel
    type and no-data value; no handle is left open. *)
Theorem write_then_reproject (a : ndarray) rows cols path out_raster
    (t : affine) projection no_data compression target_crs (w : world) :
  shape a = [rows; cols] ->
  (forall c, fails c = false) ->
  exists (w1 w2 : world) (dst : dataset) T W H,
    array2tiff a path t projection no_data compression w = (Ok tt, w1)
    /\ reproj path out_raster target_crs w1 = (Ok tt, w2)
    /\ files w2 !! out_raster = Some dst
    /\ ds_meta dst
       = mk_meta "GTiff" GDT_Float32 (Some (default (-1)%Z no_data)) W H 1
           (Some (default "EPSG:4326" target_crs)) (Some T)
    /\ length (ds_bands dst) = 1
    /\ handles w2 = handles w.
Proof.
  intros Hs Hok.
  pose proof (array2tiff_run a rows cols path t projection no_data
                compression w Hs Hok) as Hrun.
  set (written := mk_dataset _ _ _) in Hrun.
  set (w1 := mk_world _ _ _) in Hrun.
  destruct (reproj_run path out_raster target_crs written w1)
    as (dst & evs & T & W & H & Hdt & Hrun2 & Hm & Hl).
  - subst w1. cbn [files]. apply lookup_insert_eq.
  - reflexivity.
  - exact Hok.
  - eexists w1, _, dst, T, W, H. split; [exact Hrun|].
    split; [exact Hrun2|]. cbn [files handles].
    split; [apply lookup_insert_eq|]. split; [exact Hm|].
    split; [exact Hl | reflexivity].
Qed.

End ReprojOutput.

Lemma reproj_missing_source_witness :
  reproj (L := quiet) "nowhere.tif" "out.tif" None empty_world
  = (Raise (LibraryError "RasterioIOError"),
     logged (rasterio_open "nowhere.tif" "r" None) empty_world).
Proof.
  apply (reproj_missing_source (L := quiet)). reflexivity.
Defined.

Lemma reproj_bad_target_crs_witness :
  exists w',
    reproj (L := bad_crs) "in.tif" "out.tif" (Some "EPSG:0") world_with_input
    = (Raise (LibraryError "CRSError"), w')
    /\ handles w' = handles world_with_input
    /\ files w' = files world_with_input.
Proof.
  destruct (reproj_bad_target_crs (L := bad_crs) "in.tif" "out.tif"
              (Some "EPSG:0") two_bands world_with_input)
    as (h & H); try reflexivity.
  eexists. split; [exact H|]. split; reflexivity.
Defined.


Lemma write_then_reproject_witness :
  exists w1 w2 dst,
    array2tiff (L := quiet) grid_2x3 "a.tif" [0; 30; 0; 0; 0; -30]%Z
      "EPSG:32723" None None empty_world = (Ok tt, w1)
    /\ reproj (L := quiet) "a.tif" "b.tif" None w1 = (Ok tt, w2)
    /\ files w2 !! "b.tif" = Some dst
    /\ nodata (ds_meta dst) = Some (-1)%Z
    /\ dtype (ds_meta dst) = GDT_Float32
    /\ handles w2 = handles empty_world.
Proof.
  destruct (write_then_reproject (L := quiet) grid_2x3 2 3 "a.tif" "b.tif"
              [0; 30; 0; 0; 0; -30]%Z "EPSG:32723" None None None
              empty_world)
    as (w1 & w2 & dst & T & W & H & H1 & H2 & Hf & Hm & _ & Hh);
    try reflexivity.
  exists w1, w2, dst. rewrite Hm. repeat split; assumption.
Defined.

Lemma reproj_stops_at_failure_witness :
  exists j,
    j <= 1
    /\ reproject_calls
         (trace (snd (reproj (L := stuck_at 1) "in.tif" "out.tif" None
                        world_with_input)))
       = reproject_calls (trace world_with_input)
         ++ map (fun i => (i, i, nearest)) (seq 1 j).
Proof.
  apply (reproj_stops_at_failure (L := stuck_at 1) 1).
  - lia.
  - reflexivity.
Defined.

(** * Every lenient timestamp is accepted *)

Section Exhaustive.

Lemma first_success_ext {A B} (f f' : A -> option B) l :
  (forall a, In a l -> f a = f' a) -> first_success f l = first_success f' l.
Proof.
  induction l as [|a l IH]; intros H; [reflexivity|].
  simpl. rewrite (H a) by now left.
  destruct (f' a); [reflexivity|]. apply IH. intros a' Ha'. apply H. now right.
Qed.

Lemma first_success_map {A B C} (h : A -> option B) (phi : B -> C) l :
  first_success (fun a => option_map phi (h a)) l
  = option_map phi (first_success h l).
Proof.
  induction l as [|a l IH]; [reflexivity|].
  simpl. destruct (h a); [reflexivity | exact IH].
Qed.

Lemma first_success_none {A B} (l : list A) :
  first_success (fun _ => @None B) l = None.
Proof. induction l as [|a l IH]; [reflexivity | exact IH]. Qed.

(** Before a T that no class of the alternative lets through, what follows
    the T plays no part in the match. *)
Lemma match_alt_before_T a p t x :
  forallb (fun k : cclass => negb (k "T"%char) && negb (k "t"%char)) a = true ->
  t = "T"%char \/ t = "t"%char ->
  match_alt a (p +:+ String t x)
  = option_map (fun '(m, r) => (m, r +:+ String t x)) (match_alt a p).
Proof.
  intros Ha Ht. revert p. induction a as [|k a IH]; intros p; [reflexivity|].
  simpl in Ha. apply andb_prop in Ha as [Hk Ha].
  apply andb_prop in Hk as [HkT Hkt]. apply negb_true_iff in HkT, Hkt.
  destruct p as [|c p].
  - change ("" +:+ String t x) with (String t x). simpl.
    destruct Ht as [-> | ->]; [now rewrite HkT | now rewrite Hkt].
  - rewrite append_cons. simpl. rewrite (IH Ha).
    destruct (k c); [|reflexivity].
    now destruct (match_alt a p) as [[m r]|].
Qed.

Lemma match_alt_free c a s m r :
  match_alt a s = Some (m, r) -> free c s = true -> free c r = true.
Proof.
  intros H Hs. apply match_alt_sound in H as [-> _].
  rewrite free_append in Hs. now apply andb_prop in Hs as [_ Hs].
Qed.

(** The letter T splits the match: when the groups before T cannot read a
    T and the text before the first T holds none, the groups after T are
    matched on what follows that T, and their failure cannot be repaired by
    another reading of the text before it. *)
Lemma match_groups_through_T gs gs2 p t x :
  rejects_T gs = true ->
  free "T" p = true -> free "t" p = true ->
  t = "T"%char \/ t = "t"%char ->
  match_groups (gs ++ re_T :: gs2) (p +:+ String t x)
  = match match_groups (gs ++ [re_T]) (p +:+ String t EmptyString) with
    | Some (ms, _) =>
        option_map (fun '(ms2, r') => (ms ++ ms2, r')) (match_groups gs2 x)
    | None => None
    end.
Proof.
  intros Hgs HT Ht Hc. revert p HT Ht.
  induction gs as [|g gs IH]; intros p HT Ht.
  - cbn [app]. destruct p as [|c p].
    + change ("" +:+ String t x) with (String t x).
      change ("" +:+ String t "") with (String t "").
      destruct Hc as [-> | ->]; simpl;
        now destruct (match_groups gs2 x) as [[ms2 r']|].
    + rewrite !append_cons. simpl in HT, Ht.
      apply andb_prop in HT as [HT _]. apply andb_prop in Ht as [Ht _].
      apply negb_true_iff in HT, Ht.
      simpl. unfold chi.
      rewrite (Ascii.eqb_sym "T" c), (Ascii.eqb_sym "t" c), HT, Ht.
      reflexivity.
  - simpl in Hgs. apply andb_prop in Hgs as [Hg Hgs].
    rewrite forallb_forall in Hg.
    cbn [app match_groups].
    destruct (match_groups gs2 x) as [[ms2 r2]|] eqn:K.
    + cbn [option_map].
      assert (E : forall (o : option (list string * string)),
                 match o with
                 | Some (ms, _) => Some (ms ++ ms2, r2)
                 | None => None
                 end = option_map (fun '(ms, _) => (ms ++ ms2, r2)) o).
      { now intros [[? ?]|]. }
      rewrite E, <- first_success_map.
      apply first_success_ext. intros a Ha.
      rewrite !(match_alt_before_T a p t) by auto.
      destruct (match_alt a p) as [[m r]|] eqn:Em; [|reflexivity].
      cbn [option_map].
      rewrite (IH Hgs r) by (eapply match_alt_free; eassumption).
      destruct (match_groups (gs ++ [re_T]) (r +:+ String t ""))
        as [[ms r'']|]; reflexivity.
    + transitivity (first_success
                      (fun _ : alternative => @None (list string * string)) g).
      * apply first_success_ext. intros a Ha.
        rewrite (match_alt_before_T a p t) by auto.
        destruct (match_alt a p) as [[m r]|] eqn:Em; [|reflexivity].
        cbn [option_map].
        rewrite (IH Hgs r) by (eapply match_alt_free; eassumption).
          now destruct (match_groups (gs ++ [re_T]) (r +:+ String t ""))
          as [[ms r'']|].
      * rewrite first_success_none.
        now destruct (first_success _ g) as [[ms r'']|].
Qed.

End Exhaustive.

Section Pieces.

Lemma in_one_or_two cs s :
  Forall (fun c => In c cs) (list_ascii_of_string s) ->
  String.length s = 1 \/ String.length s = 2 -> In s (one_or_two cs).
Proof.
  intros Hc Hl. unfold one_or_two. apply in_or_app.
  destruct s as [|a [|b [|c s]]]; simpl in Hl;
    try (destruct Hl; discriminate).
  - left. inversion Hc; subst.
    now apply (in_map (fun a => String a EmptyString)).
  - right. inversion Hc as [|? ? Ha Hc']; subst. inversion Hc'; subst.
    apply in_flat_map. exists a. split; [assumption|].
    now apply (in_map (fun b => String a (String b EmptyString))).
Qed.

Lemma digits_forall s :
  digits s = true ->
  Forall (fun c => In c digit_chars) (list_ascii_of_string s).
Proof.
  unfold digits. intros H. apply andb_prop in H as [_ H].
  apply List.Forall_forall. intros c Hc. rewrite forallb_forall in H.
  apply is_digit_cases, H, Hc.
Qed.

Lemma digits_number s :
  digits s = true -> String.length s = 1 \/ String.length s = 2 ->
  In s number_strings.
Proof. intros H Hl. apply in_one_or_two; [now apply digits_forall | exact Hl]. Qed.

Lemma day_digits_day s :
  day_digits s = true -> String.length s = 1 \/ String.length s = 2 ->
  In s day_strings.
Proof.
  unfold day_digits, day_strings. intros H Hl. apply in_or_app.
  apply orb_prop in H as [H | H]; [left; now apply digits_number|].
  right. destruct s as [|a s]; [discriminate H|].
  destruct a as [[] [] [] [] [] [] [] []]; try discriminate H.
  destruct s as [|c [|? ?]]; try discriminate H.
  apply (in_map (fun b => String " " (String b EmptyString))).
  now apply is_digit_cases.
Qed.

Lemma digits_free x s :
  digits s = true -> is_digit x = false -> free x s = true.
Proof.
  unfold digits. intros H Hx. apply andb_prop in H as [_ H].
  induction s as [|c s IH]; [reflexivity|].
  simpl in *. apply andb_prop in H as [Hc Hs].
  rewrite (digit_free c x Hc Hx). now apply IH.
Qed.

Lemma day_strings_free_check :
  forallb (fun s => free "T" s && free "t" s) day_strings = true.
Proof. vm_compute. reflexivity. Qed.

Lemma day_strings_free s :
  In s day_strings -> free "T" s = true /\ free "t" s = true.
Proof.
  intros H. pose proof day_strings_free_check as Hc.
  rewrite forallb_forall in Hc. now apply andb_prop, Hc.
Qed.

Lemma number_strings_day s : In s number_strings -> In s day_strings.
Proof. intros H. apply in_or_app. now left. Qed.

(** On every month from 1 to 12 and day from 1 to 31, however written, the
    pattern reads a month, a day and the T. *)
Lemma date_all :
  forallb (fun t => forallb (fun gm => forallb (fun gd => date_read gm gd t)
    (between 1 31 day_strings)) (between 1 12 number_strings))
    ["T"; "t"]%char = true.
Proof. vm_compute. reflexivity. Qed.

(** On every hour up to 23, minute and second up to 59, however written,
    the pattern reads all of the time of day. *)
Lemma time_all :
  forallb (fun gH => forallb (fun gM => forallb (fun gS =>
    time_read (gH +:+ gM +:+ gS))
    (below 59 number_strings)) (below 59 number_strings))
    (below 23 number_strings) = true.
Proof. vm_compute. reflexivity. Qed.

Lemma date_part gm gd t :
  In gm number_strings -> In gd day_strings ->
  t = "T"%char \/ t = "t"%char ->
  (1 <=? num gm)%N && (num gm <=? 12)%N = true ->
  (1 <=? num gd)%N && (num gd <=? 31)%N = true ->
  date_read gm gd t = true.
Proof.
  intros Hm Hd Ht Hmb Hdb.
  assert (Hin : In t ["T"; "t"]%char) by (simpl; destruct Ht; auto).
  assert (Hgm : In gm (between 1 12 number_strings))
    by (apply List.filter_In; auto).
  assert (Hgd : In gd (between 1 31 day_strings))
    by (apply List.filter_In; auto).
  pose proof (proj1 (forallb_forall _ _) date_all t Hin) as H1.
  cbv beta in H1.
  pose proof (proj1 (forallb_forall _ _) H1 gm Hgm) as H2. cbv beta in H2.
  exact (proj1 (forallb_forall _ _) H2 gd Hgd).
Qed.

Lemma time_part gH gM gS :
  In gH number_strings -> In gM number_strings -> In gS number_strings ->
  check_time_fields (num gH) (num gM) (num gS) = true ->
  time_read (gH +:+ gM +:+ gS) = true.
Proof.
  intros HH HM HS Hc. unfold check_time_fields in Hc.
  apply andb_prop in Hc as [Hc H3]. apply andb_prop in Hc as [H1 H2].
  assert (HgH : In gH (below 23 number_strings))
    by (apply List.filter_In; auto).
  assert (HgM : In gM (below 59 number_strings))
    by (apply List.filter_In; auto).
  assert (HgS : In gS (below 59 number_strings))
    by (apply List.filter_In; auto).
  pose proof (proj1 (forallb_forall _ _) time_all gH HgH) as K1.
  cbv beta in K1.
  pose proof (proj1 (forallb_forall _ _) K1 gM HgM) as K2. cbv beta in K2.
  exact (proj1 (forallb_forall _ _) K2 gS HgS).
Qed.

Lemma days_in_month_ge y m : (28 <= days_in_month y m)%N.
Proof.
  unfold days_in_month.
  repeat match goal with
         | |- context [match ?x with _ => _ end] => destruct x
         end; lia.
Qed.

Lemma check_date_small y m d m' d' :
  check_date_fields y m d = true -> small_date m' d' = true ->
  check_date_fields y m' d' = true.
Proof.
  unfold check_date_fields, small_date. intros H H'.
  repeat match goal with
         | H : _ && _ = true |- _ => apply andb_prop in H as [H ?]
         end.
  repeat match goal with
         | H : (_ <=? _)%N = true |- _ => apply N.leb_le in H
         end.
  pose proof (days_in_month_ge y m').
  repeat (apply andb_true_intro; split); apply N.leb_le; lia.
Qed.

(** A token made of a four-digit year, a month, a day, the letter T and a
    time of day, each number in one of its spellings and the whole a real
    date and time, is parsed. *)
Lemma strptime_pieces gY gm gd t gH gM gS :
  String.length gY = 4 -> digits gY = true ->
  In gm number_strings -> In gd day_strings ->
  t = "T"%char \/ t = "t"%char ->
  In gH number_strings -> In gM number_strings -> In gS number_strings ->
  check_fields (mk_datetime (num gY) (num gm) (num gd)
                            (num gH) (num gM) (num gS)) = true ->
  exists dt,
    strptime (gY +:+ gm +:+ gd +:+ String t (gH +:+ gM +:+ gS)) = Ok dt.
Proof.
  intros HlY HdY Hm Hd Ht HH HM HS Hc.
  unfold check_fields in Hc. cbn [year month day hour minute second] in Hc.
  apply andb_prop in Hc as [Hdate Htime].
  assert (Hb : ((1 <=? num gm)%N && (num gm <=? 12)%N = true)
               /\ ((1 <=? num gd)%N && (num gd <=? 31)%N = true)).
  { pose proof Hdate as Hx. unfold check_date_fields in Hx.
    repeat match goal with
           | H : _ && _ = true |- _ => apply andb_prop in H as [H ?]
           end.
    repeat match goal with
           | H : (_ <=? _)%N = true |- _ => apply N.leb_le in H
           end.
    pose proof (days_in_month_le (num gY) (num gm)).
    split; apply andb_true_intro; split; apply N.leb_le; lia. }
  destruct Hb as [Hmb Hdb].
  pose proof (date_part gm gd t Hm Hd Ht Hmb Hdb) as Hdr.
  pose proof (time_part gH gM gS HH HM HS Htime) as Htr.
  unfold date_read in Hdr.
  destruct (match_groups [re_m; re_d; re_T] _) as [[ms r]|] eqn:Edate;
    [|discriminate Hdr].
  destruct ms as [|m' [|d' [|e [|? ?]]]]; try discriminate Hdr.
  destruct r; [|discriminate Hdr].
  destruct (int m') as [vm|] eqn:Evm; [|discriminate Hdr].
  destruct (int d') as [vd|] eqn:Evd; [|discriminate Hdr].
  apply andb_prop in Hdr as [He Hv]. apply String.eqb_eq in He. subst e.
  unfold time_read in Htr.
  destruct (match_groups [re_H; re_M; re_S] _) as [[ms r]|] eqn:Etime;
    [|discriminate Htr].
  destruct ms as [|h [|mi [|s [|? ?]]]]; try discriminate Htr.
  destruct r; [|discriminate Htr].
  destruct (int h) as [vh|] eqn:Evh; [|discriminate Htr].
  destruct (int mi) as [vmi|] eqn:Evmi; [|discriminate Htr].
  destruct (int s) as [vs|] eqn:Evs; [|discriminate Htr].
  assert (Hre : match_groups format_regex
                  (gY +:+ gm +:+ gd +:+ String t (gH +:+ gM +:+ gS))
                = Some ([gY; m'; d'; String t ""; h; mi; s], EmptyString)).
  { change format_regex
      with ([re_Y; re_m; re_d] ++ re_T :: [re_H; re_M; re_S]).
    rewrite <- (append_assoc gm gd), <- (append_assoc gY (gm +:+ gd)).
    destruct (day_strings_free gm (number_strings_day _ Hm)) as [Fm1 Fm2].
    destruct (day_strings_free gd Hd) as [Fd1 Fd2].
    rewrite match_groups_through_T;
      [| reflexivity
       | rewrite !free_append, Fm1, Fd1,
           (digits_free "T" gY HdY eq_refl); reflexivity
       | rewrite !free_append, Fm2, Fd2,
           (digits_free "t" gY HdY eq_refl); reflexivity
       | exact Ht ].
    rewrite Etime. cbn [option_map].
    rewrite !append_assoc. cbn [app].
    do 4 (destruct gY as [|? gY]; [discriminate HlY|]).
    destruct gY; [|discriminate HlY].
    unfold digits in HdY. simpl in HdY.
    repeat match goal with
           | H : _ && _ = true |- _ => apply andb_prop in H as [? H]
           end.
    rewrite !append_cons. change ("" +:+ ?x) with x.
    erewrite step_Y by eassumption. reflexivity. }
  unfold strptime. rewrite Hre.
  rewrite (int_digits_ok _ HdY), Evm, Evd, Evh, Evmi, Evs. cbn [rbind].
  assert (Hdate' : check_date_fields (num gY) vm vd = true).
  { apply orb_prop in Hv as [Hv | Hv].
    - apply andb_prop in Hv as [H1 H2]. apply N.eqb_eq in H1, H2.
      now subst.
    - eapply check_date_small; eassumption. }
  rewrite Hdate', Htr. eexists. reflexivity.
Qed.

End Pieces.

Section Accepts.

Lemma substring_all s : substring 0 (String.length s) s = s.
Proof. induction s as [|c s IH]; [reflexivity|]. simpl. now rewrite IH. Qed.

(** Two adjacent pieces make up the piece that spans both. *)
Lemma substring_cat n a b s :
  substring n (a + b) s = substring n a s +:+ substring (n + a) b s.
Proof.
  revert n a. induction s as [|c s IH]; intros n a.
  - destruct n, a, b; reflexivity.
  - destruct n as [|n].
    + destruct a as [|a]; [reflexivity|].
      cbn [Nat.add substring]. rewrite append_cons. f_equal.
      exact (IH 0 a).
    + cbn [Nat.add substring]. apply IH.
Qed.

Lemma substring_length n m s :
  n + m <= String.length s -> String.length (substring n m s) = m.
Proof.
  revert n m. induction s as [|c s IH]; intros n m H; simpl in H.
  - assert (n = 0 /\ m = 0) as [-> ->] by lia. reflexivity.
  - destruct n as [|n].
    + destruct m as [|m]; [reflexivity|]. cbn [substring String.length].
      f_equal. apply (IH 0). simpl in *. lia.
    + cbn [substring]. apply IH. simpl in H. lia.
Qed.

Lemma lenient_split s wm wd wH wM wS :
  String.length s = 5 + wm + wd + wH + wM + wS ->
  s = substring 0 4 s +:+ substring 4 wm s +:+ substring (4 + wm) wd s
      +:+ substring (4 + wm + wd) 1 s +:+ substring (5 + wm + wd) wH s
      +:+ substring (5 + wm + wd + wH) wM s
      +:+ substring (5 + wm + wd + wH + wM) wS s.
Proof.
  intros Hlen.
  transitivity (substring 0 (4 + (wm + (wd + (1 + (wH + (wM + wS)))))) s).
  { replace (4 + (wm + (wd + (1 + (wH + (wM + wS))))))
      with (String.length s) by lia.
    symmetry. apply substring_all. }
  rewrite (substring_cat 0 4). f_equal.
  change (0 + 4) with 4.
  rewrite (substring_cat 4 wm). f_equal.
  rewrite (substring_cat (4 + wm) wd). f_equal.
  rewrite (substring_cat (4 + wm + wd) 1). f_equal.
  replace (4 + wm + wd + 1) with (5 + wm + wd) by lia.
  rewrite (substring_cat (5 + wm + wd) wH). f_equal.
  apply substring_cat.
Qed.

Lemma all_widths_inv wm wd wH wM wS :
  In (wm, wd, wH, wM, wS) all_widths ->
  (wm = 1 \/ wm = 2) /\ (wd = 1 \/ wd = 2) /\ (wH = 1 \/ wH = 2)
  /\ (wM = 1 \/ wM = 2) /\ (wS = 1 \/ wS = 2).
Proof.
  intros Hin. vm_compute in Hin.
  repeat (destruct Hin as [Hin | Hin];
          [injection Hin as <- <- <- <- <-; auto 10|]).
  destruct Hin.
Qed.

(** The converse of [strptime_lenient_at]: a token that is a lenient
    timestamp under some choice of widths is parsed. *)
Lemma strptime_complete_at s w :
  In w all_widths -> lenient_at s w = true -> exists dt, strptime s = Ok dt.
Proof.
  destruct w as [[[[wm wd] wH] wM] wS]. intros Hin H.
  apply all_widths_inv in Hin as (Hwm & Hwd & HwH & HwM & HwS).
  unfold lenient_at in H.
  apply andb_prop in H as [H Hc]. apply andb_prop in H as [H HdS].
  apply andb_prop in H as [H HdM]. apply andb_prop in H as [H HdH].
  apply andb_prop in H as [H HT]. apply andb_prop in H as [H Hdd].
  apply andb_prop in H as [H Hdm]. apply andb_prop in H as [Hlen HdY].
  apply Nat.eqb_eq in Hlen. cbv zeta in HT. unfold fields_at in Hc.
  pose proof (lenient_split s wm wd wH wM wS Hlen) as Es.
  pose proof (substring_length 0 4 s ltac:(lia)) as LY.
  pose proof (substring_length 4 wm s ltac:(lia)) as Lm.
  pose proof (substring_length (4 + wm) wd s ltac:(lia)) as Ld.
  pose proof (substring_length (5 + wm + wd) wH s ltac:(lia)) as LH.
  pose proof (substring_length (5 + wm + wd + wH) wM s ltac:(lia)) as LM.
  pose proof (substring_length (5 + wm + wd + wH + wM) wS s ltac:(lia)) as LS.
  set (gY := substring 0 4 s) in *.
  set (gm := substring 4 wm s) in *.
  set (gd := substring (4 + wm) wd s) in *.
  set (gT := substring (4 + wm + wd) 1 s) in *.
  set (gH := substring (5 + wm + wd) wH s) in *.
  set (gM := substring (5 + wm + wd + wH) wM s) in *.
  set (gS := substring (5 + wm + wd + wH + wM) wS s) in *.
  assert (Ht : exists t, gT = String t EmptyString
                         /\ (t = "T"%char \/ t = "t"%char)).
  { apply orb_prop in HT as [HT | HT]; apply String.eqb_eq in HT;
      rewrite HT; eauto. }
  destruct Ht as (t & ET & Ht).
  rewrite Es, ET. rewrite (append_cons t EmptyString).
  change ("" +:+ ?x) with x.
  apply strptime_pieces; try assumption.
  - apply digits_number; [assumption | rewrite Lm; exact Hwm].
  - apply day_digits_day; [assumption | rewrite Ld; exact Hwd].
  - apply digits_number; [assumption | rewrite LH; exact HwH].
  - apply digits_number; [assumption | rewrite LM; exact HwM].
  - apply digits_number; [assumption | rewrite LS; exact HwS].
Qed.

Lemma strptime_complete s :
  lenient_timestamp s = true -> exists dt, strptime s = Ok dt.
Proof.
  unfold lenient_timestamp. intros H.
  apply existsb_exists in H as (w & Hin & Hw).
  exact (strptime_complete_at s w Hin Hw).
Qed.

(** X19: with nine tokens, a lenient timestamp in third place is all
    [metadata] needs to succeed, whatever the other eight tokens are; and
    for a third token of ASCII characters it is needed as well, so that on
    such tokens [metadata] succeeds exactly on the lenient timestamps. *)
Theorem metadata_succeeds_iff path t1 t2 t3 t4 t5 t6 t7 t8 t9 :
  split "_" (basename path) = [t1; t2; t3; t4; t5; t6; t7; t8; t9] ->
  (lenient_timestamp t3 = true -> exists md, metadata path = Ok md)
  /\ (ascii_only t3 = true ->
      ((exists md, metadata path = Ok md) <-> lenient_timestamp t3 = true)).
Proof.
  intros Hs.
  assert (Hyes : lenient_timestamp t3 = true ->
                 exists md, metadata path = Ok md).
  { intros Hl. destruct (strptime_complete _ Hl) as (dt & Hd).
    destruct (metadata_ok _ _ _ _ _ _ _ _ _ _ _ Hs Hd) as (md & Hmd & _).
    now exists md. }
  split; [exact Hyes|]. intros _. split; [|exact Hyes].
  intros (md & H).
  destruct (metadata_ok_inv _ _ H)
    as (u1 & u2 & u3 & u4 & u5 & u6 & u7 & u8 & u9 & dt & Hs' & Hd).
  rewrite Hs in Hs'. injection Hs' as _ _ <- _ _ _ _ _ _.
  exact (strptime_lenient _ _ Hd).
Qed.

Lemma metadata_succeeds_iff_witness :
  exists md,
    metadata "S2A_MSIL1C_2021521t131241_N0300_R138_T23KMQ_x_cc020_v15.nc"
    = Ok md.
Proof.
  destruct (metadata_succeeds_iff
              "S2A_MSIL1C_2021521t131241_N0300_R138_T23KMQ_x_cc020_v15.nc"
              "S2A" "MSIL1C" "2021521t131241" "N0300" "R138" "T23KMQ" "x"
              "cc020" "v15.nc" eq_refl) as [H _].
  apply H. vm_compute. reflexivity.
Defined.

End Accepts.
